(** * TrackWash M-Pesa relay: a shallow embedding of [Server.js]

    [Server.js] holds two variants of the same Express server.  Both keep an
    in-memory [Map] (the ledger, [mpesaTx]) from the gateway's
    [CheckoutRequestID] to a transaction record and expose three handlers:
    the STK-push initiation, the gateway callback and the status poll.

    The embedding follows the JavaScript as it is written:
    - request bodies, gateway replies and ledger records are JSON values
      ([JsVal]); objects are association lists in insertion order;
    - the [Map] is an association list in insertion order whose keys are
      compared with SameValueZero;
    - a [throw] is a value of [JsError] in a sum type, and the [try]/[catch]
      of each handler is a [match] on it;
    - the outside world (environment variables, the clock, the gateway's
      replies to [axios.get] and [axios.post]) is a [World] record, and the
      HTTP calls a handler makes are returned as a trace.

    JavaScript numbers are IEEE doubles.  The development is parametric in
    the number carrier and its primitive operations ([Engine]); an instance
    over the integers is used to run the model on concrete inputs.  Strings
    are [string]s whose characters stand for the code units below 256.
    [console.log] and [console.error] are not modelled. *)

From Stdlib Require Import List String Ascii ZArith NArith Lia Bool DecimalString.
Import ListNotations.
Open Scope string_scope.

(** ** The JavaScript engine *)

(** The engine-raised [TypeError]s the handlers can meet. *)
Inductive TypeErrorKind :=
| ReadOfNullish (property : string)   (* x.p with x null or undefined *)
| NotIterable                         (* for (... of x) with x not iterable *)
| NoPrimitive.                        (* String(x) / Number(x): no primitive value *)

(** Numbers and the engine's message texts. *)
Class Engine (num : Type) := {
  num_of_Z : Z -> num;
  num_nan : num;
  (** [x === 0]: holds of +0 and of -0. *)
  num_is_zero : num -> bool;
  num_is_nan : num -> bool;
  (** SameValueZero on two numbers (the comparison of [Map] keys). *)
  num_same : num -> num -> bool;
  (** Number::toString and StringToNumber. *)
  num_to_string : num -> string;
  num_of_string : string -> num;
  type_error_message : TypeErrorKind -> string
}.

(** ** Strings *)

(** [s.startsWith(p)] *)
Definition startsWith (s p : string) : bool := String.prefix p s.

(** [s.slice(1)] *)
Definition slice1 (s : string) : string :=
  match s with
  | EmptyString => EmptyString
  | String _ r => r
  end.

(** White space and line terminators among the code units below 256:
    TAB, LF, VT, FF, CR, SPACE and NBSP. *)
Definition is_space (c : ascii) : bool :=
  let n := nat_of_ascii c in
  ((9 <=? n) && (n <=? 13) || (n =? 32) || (n =? 160))%nat.

Fixpoint trimStart (s : string) : string :=
  match s with
  | EmptyString => EmptyString
  | String c r => if is_space c then trimStart r else s
  end.

Fixpoint trimEnd (s : string) : string :=
  match s with
  | EmptyString => EmptyString
  | String c r =>
      match trimEnd r with
      | EmptyString => if is_space c then EmptyString else String c EmptyString
      | r' => String c r'
      end
  end.

(** [s.trim()] *)
Definition trim (s : string) : string := trimEnd (trimStart s).

(** Decimal text of an integer, as [String(n)] gives it for an integral
    number (below 1e21). *)
Definition dec (z : Z) : string := NilZero.string_of_int (Z.to_int z).

(** [String(n).padStart(2, "0")] on an integer. *)
Definition pad (n : Z) : string :=
  let s := dec n in
  if (String.length s <? 2)%nat then "0" ++ s else s.

Definition is_digit (c : ascii) : bool :=
  let n := nat_of_ascii c in ((48 <=? n) && (n <=? 57))%nat.

Fixpoint all_digits (s : string) : bool :=
  match s with
  | EmptyString => true
  | String c r => is_digit c && all_digits r
  end.

(** No character of [s] is a blank. *)
Fixpoint no_space (s : string) : bool :=
  match s with
  | EmptyString => true
  | String c r => negb (is_space c) && no_space r
  end.

(** *** [Buffer.from(s).toString("base64")] *)

(** UTF-8 bytes of a string of code units below 256. *)
Fixpoint utf8 (s : string) : list N :=
  match s with
  | EmptyString => []
  | String c r =>
      let n := N_of_ascii c in
      if (n <? 128)%N then n :: utf8 r
      else N.lor 192 (N.shiftr n 6) :: N.lor 128 (N.land n 63) :: utf8 r
  end.

Definition base64_alphabet : string :=
  "ABCDEFGHIJKLMNOPQRSTUVWXYZabcdefghijklmnopqrstuvwxyz0123456789+/".

Definition b64 (n : N) : ascii :=
  match String.get (N.to_nat (N.land n 63)) base64_alphabet with
  | Some c => c
  | None => "="%char
  end.

Fixpoint base64_groups (fuel : nat) (bs : list N) : string :=
  match fuel with
  | O => EmptyString
  | S fuel' =>
      match bs with
      | [] => EmptyString
      | [a] =>
          String (b64 (N.shiftr a 2))
            (String (b64 (N.shiftl (N.land a 3) 4)) "==")
      | [a; b] =>
          String (b64 (N.shiftr a 2))
            (String (b64 (N.lor (N.shiftl (N.land a 3) 4) (N.shiftr b 4)))
               (String (b64 (N.shiftl (N.land b 15) 2)) "="))
      | a :: b :: c :: rest =>
          String (b64 (N.shiftr a 2))
            (String (b64 (N.lor (N.shiftl (N.land a 3) 4) (N.shiftr b 4)))
               (String (b64 (N.lor (N.shiftl (N.land b 15) 2) (N.shiftr c 6)))
                  (String (b64 c) (base64_groups fuel' rest))))
      end
  end.

Definition base64 (s : string) : string :=
  let bs := utf8 s in base64_groups (S (List.length bs)) bs.

(** ** JSON values *)

Section Values.
Context {num : Type} `{Engine num}.

#[local] Set Warnings "-register-all".

Inductive JsVal :=
| JUndefined
| JNull
| JBool (b : bool)
| JNum (n : num)
| JStr (s : string)
| JArr (elements : list JsVal)
| JObj (properties : list (string * JsVal)).

(** The own properties of an object, in insertion order.  JavaScript
    enumerates integer-like keys first; they are left where they were
    inserted, and whatever is stated of an object that may have such keys is
    stated of its lookups. *)
Definition Obj := list (string * JsVal).

Definition truthy (v : JsVal) : bool :=
  match v with
  | JUndefined | JNull => false
  | JBool b => b
  | JNum n => negb (num_is_zero n || num_is_nan n)
  | JStr s => negb (s =? "")
  | JArr _ | JObj _ => true
  end.

Definition nullish (v : JsVal) : bool :=
  match v with
  | JUndefined | JNull => true
  | _ => false
  end.

(** [a || b] and [a ?? b] *)
Definition js_or (a b : JsVal) : JsVal := if truthy a then a else b.
Definition js_coalesce (a b : JsVal) : JsVal := if nullish a then b else a.

(** [v === "s"] and [v === 0] *)
Definition is_string (v : JsVal) (s : string) : bool :=
  match v with
  | JStr t => t =? s
  | _ => false
  end.

Definition is_zero (v : JsVal) : bool :=
  match v with
  | JNum n => num_is_zero n
  | _ => false
  end.

(** *** Objects *)

Fixpoint obj_get (o : Obj) (k : string) : option JsVal :=
  match o with
  | [] => None
  | (k', v) :: o' => if k' =? k then Some v else obj_get o' k
  end.

(** Defining a property: an existing key keeps its place, a new one goes
    last. *)
Fixpoint obj_set (o : Obj) (k : string) (v : JsVal) : Obj :=
  match o with
  | [] => [(k, v)]
  | (k', v') :: o' =>
      if k' =? k then (k', v) :: o' else (k', v') :: obj_set o' k v
  end.

(** [{ ...o, k1: v1, ..., kn: vn }] onto an object under construction. *)
Definition obj_assign (o : Obj) (ps : list (string * JsVal)) : Obj :=
  fold_left (fun acc p => obj_set acc (fst p) (snd p)) ps o.

(** [o.k] on an object's own properties. *)
Definition prop (o : Obj) (k : string) : JsVal :=
  match obj_get o k with
  | Some v => v
  | None => JUndefined
  end.

(** [v.k] for [v] neither null nor undefined and [k] none of the names that
    prototypes define (the source reads only [Body], [stkCallback],
    [CheckoutRequestID], [ResultCode], [ResultDesc], [CallbackMetadata],
    [Item], [Name], [Value], [access_token], [bookingId], [phone],
    [amount], [amountKes], [accountReference] and [transactionDesc]). *)
Definition member (v : JsVal) (k : string) : JsVal :=
  match v with
  | JObj o => prop o k
  | _ => JUndefined
  end.

(** [v?.k] *)
Definition opt_member (v : JsVal) (k : string) : JsVal :=
  if nullish v then JUndefined else member v k.

Fixpoint indexed (i : nat) (l : list JsVal) : Obj :=
  match l with
  | [] => []
  | v :: l' => (dec (Z.of_nat i), v) :: indexed (S i) l'
  end.

Fixpoint chars (s : string) : list JsVal :=
  match s with
  | EmptyString => []
  | String c r => JStr (String c EmptyString) :: chars r
  end.

(** The properties that [...v] copies. *)
Definition spread (v : JsVal) : Obj :=
  match v with
  | JObj o => o
  | JArr l => indexed 0 l
  | JStr s => indexed 0 (chars s)
  | _ => []
  end.

(** *** Errors *)

Inductive JsError :=
| TypeError (kind : TypeErrorKind)
| Error (message : string)
| AxiosError (response_data : JsVal) (message : string).

(** [err?.response?.data] and [err.message] *)
Definition err_response_data (e : JsError) : JsVal :=
  match e with
  | AxiosError d _ => d
  | _ => JUndefined
  end.

Definition err_message (e : JsError) : string :=
  match e with
  | TypeError k => type_error_message k
  | Error m => m
  | AxiosError _ m => m
  end.

(** A computation that returns or throws. *)
Definition Exn (A : Type) : Type := (JsError + A)%type.

Definition ret {A} (a : A) : Exn A := inr a.
Definition throw {A} (e : JsError) : Exn A := inl e.
Definition bind {A B} (m : Exn A) (f : A -> Exn B) : Exn B :=
  match m with
  | inl e => inl e
  | inr a => f a
  end.

(** [v.k] where [v] may be null or undefined. *)
Definition read (v : JsVal) (k : string) : Exn JsVal :=
  if nullish v then throw (TypeError (ReadOfNullish k)) else ret (member v k).

(** *** Conversions *)

Fixpoint join (sep : string) (l : list string) : string :=
  match l with
  | [] => EmptyString
  | [s] => s
  | s :: l' => s ++ sep ++ join sep l'
  end.

Fixpoint sequence {A} (l : list (Exn A)) : Exn (list A) :=
  match l with
  | [] => inr []
  | m :: l' =>
      match m with
      | inl e => inl e
      | inr a =>
          match sequence l' with
          | inl e => inl e
          | inr r => inr (a :: r)
          end
      end
  end.

(** [String(v)].  An array joins its elements with a comma, null and
    undefined elements giving the empty string.  A plain object gives
    ["[object Object]"] through [Object.prototype.toString], unless it has an
    own [toString] property: a JSON value is never callable, so no primitive
    is reached and a [TypeError] is thrown. *)
Fixpoint js_String (v : JsVal) : Exn string :=
  match v with
  | JUndefined => inr "undefined"
  | JNull => inr "null"
  | JBool true => inr "true"
  | JBool false => inr "false"
  | JNum n => inr (num_to_string n)
  | JStr s => inr s
  | JArr l =>
      match sequence (map (fun x => if nullish x then inr "" else js_String x) l) with
      | inl e => inl e
      | inr ss => inr (join "," ss)
      end
  | JObj o =>
      match obj_get o "toString" with
      | Some _ => inl (TypeError NoPrimitive)
      | None => inr "[object Object]"
      end
  end.

(** [Number(v)]: an object or an array goes through its string. *)
Definition js_Number (v : JsVal) : Exn num :=
  match v with
  | JUndefined => inr num_nan
  | JNull => inr (num_of_Z 0)
  | JBool true => inr (num_of_Z 1)
  | JBool false => inr (num_of_Z 0)
  | JNum n => inr n
  | JStr s => inr (num_of_string s)
  | JArr _ | JObj _ =>
      match js_String v with
      | inl e => inl e
      | inr s => inr (num_of_string s)
      end
  end.

(** ** The ledger: [new Map()] *)

(** SameValueZero.  Every object or array the handlers see is freshly parsed
    from a request or a reply, so as a key it equals no stored key. *)
Definition same_value_zero (a b : JsVal) : bool :=
  match a, b with
  | JUndefined, JUndefined => true
  | JNull, JNull => true
  | JBool x, JBool y => Bool.eqb x y
  | JNum x, JNum y => num_same x y
  | JStr x, JStr y => x =? y
  | _, _ => false
  end.

(** Every value the handlers store is an object literal. *)
Definition Ledger := list (JsVal * Obj).

Fixpoint map_get (m : Ledger) (k : JsVal) : option Obj :=
  match m with
  | [] => None
  | (k', r) :: m' => if same_value_zero k' k then Some r else map_get m' k
  end.

Fixpoint map_set (m : Ledger) (k : JsVal) (r : Obj) : Ledger :=
  match m with
  | [] => [(k, r)]
  | (k', r') :: m' =>
      if same_value_zero k' k then (k', r) :: m' else (k', r') :: map_set m' k r
  end.

Definition map_size (m : Ledger) : nat := List.length m.

(** ** The outside world *)

(** What [new Date()] reads. *)
Record Clock := {
  fullYear : Z;
  month : Z;      (* getMonth(): 0 to 11 *)
  date : Z;
  hours : Z;
  minutes : Z;
  seconds : Z;
  isoString : string
}.

(** What an awaited axios call comes to: the reply's [data], or a rejection. *)
Definition AxiosResult := Exn JsVal.

Record World := {
  env : string -> option string;
  clock : Clock;
  axios_get : string -> JsVal -> AxiosResult;
  axios_post : string -> JsVal -> JsVal -> AxiosResult
}.

(** [process.env.NAME] *)
Definition process_env (w : World) (name : string) : JsVal :=
  match env w name with
  | Some s => JStr s
  | None => JUndefined
  end.

(** The HTTP calls a handler makes. *)
Inductive Call :=
| Get (url : string) (config : JsVal)
| Post (url : string) (payload config : JsVal).

(** A computation that makes calls and then returns or throws. *)
Definition Eff (A : Type) : Type := (Exn A * list Call)%type.

Definition pure {A} (m : Exn A) : Eff A := (m, []).
Definition eff_bind {A B} (m : Eff A) (f : A -> Eff B) : Eff B :=
  match m with
  | (inl e, t) => (inl e, t)
  | (inr a, t) => let (r, t') := f a in (r, (t ++ t')%list)
  end.

Definition await_get (w : World) (url : string) (config : JsVal) : Eff JsVal :=
  (axios_get w url config, [Get url config]).

Definition await_post (w : World) (url : string) (payload config : JsVal) : Eff JsVal :=
  (axios_post w url payload config, [Post url payload config]).

(** What a handler sends: [res.status(code).json(body)], the code being 200
    when [res.status] is not called.  [json] is the value handed to
    [res.json], before serialization. *)
Record Response := {
  statusCode : Z;
  jsonBody : JsVal
}.

End Values.

Arguments JsVal : clear implicits.
Arguments Obj : clear implicits.
Arguments Ledger : clear implicits.
Arguments JsError : clear implicits.
Arguments Exn : clear implicits.
Arguments Eff : clear implicits.
Arguments AxiosResult : clear implicits.
Arguments World : clear implicits.
Arguments Call : clear implicits.
Arguments Response : clear implicits.

Notation "x <- m ;; k" := (bind m (fun x => k))
  (at level 61, m at next level, right associativity).
Notation "x <~ m ;; k" := (eff_bind m (fun x => k))
  (at level 61, m at next level, right associativity).

(** ** First variant of the server *)

Module V1.
Section Server.
Context {num : Type} `{Engine num}.

(** [getTimestamp]: YYYYMMDDHHmmss *)
Definition getTimestamp (now : Clock) : string :=
  dec (fullYear now) ++ pad (month now + 1) ++ pad (date now)
    ++ pad (hours now) ++ pad (minutes now) ++ pad (seconds now).

Definition buildPassword (shortcode passkey timestamp : JsVal num) : Exn num string :=
  a <- js_String shortcode ;;
  b <- js_String passkey ;;
  c <- js_String timestamp ;;
  ret (base64 (a ++ b ++ c)).

Definition oauth_url : string :=
  "https://sandbox.safaricom.co.ke/oauth/v1/generate?grant_type=client_credentials".

Definition getAccessToken (w : World num) : Eff num (JsVal num) :=
  let key := process_env w "MPESA_CONSUMER_KEY" in
  let secret := process_env w "MPESA_CONSUMER_SECRET" in
  if negb (truthy key) || negb (truthy secret) then
    pure (throw (Error "Missing MPESA_CONSUMER_KEY or MPESA_CONSUMER_SECRET"))
  else
    auth <~ pure (k <- js_String key ;; s <- js_String secret ;;
                  ret (base64 (k ++ ":" ++ s))) ;;
    data <~ await_get w oauth_url
              (JObj [("headers", JObj [("Authorization", JStr ("Basic " ++ auth))])]) ;;
    pure (read data "access_token").

Definition normalizePhone (phone : JsVal num) : Exn num string :=
  s <- js_String phone ;;
  let p := trim s in
  let p := if startsWith p "+" then slice1 p else p in
  let p := if startsWith p "0" then "254" ++ slice1 p else p in
  let p := if startsWith p "7" then "254" ++ p else p in
  ret p.

(** A destructuring default: it applies to [undefined] only. *)
Definition or_default (v d : JsVal num) : JsVal num :=
  match v with
  | JUndefined => d
  | _ => v
  end.

Definition respond (code : Z) (body : JsVal num) : Response num :=
  {| statusCode := code; jsonBody := body |}.

Definition stk_url : string :=
  "https://sandbox.safaricom.co.ke/mpesa/stkpush/v1/processrequest".

(** The record stored for a pending transaction (lines 131-138). *)
Definition pending (bookingId : JsVal num) (phone : string) (amount : num)
    (data : JsVal num) : Obj num :=
  [("status", JStr "PENDING");
   ("bookingId", bookingId);
   ("phone", JStr phone);
   ("amount", JNum amount);
   ("receipt", JNull);
   ("raw", data)].

(** The body of the [try] of the initiation handler, from the timestamp on
    (lines 99-145). *)
Definition stkpush_attempt (w : World num) (mpesaTx : Ledger num)
    (bookingId phone amount accountReference transactionDesc : JsVal num)
    (shortcode passkey callbackUrl txType : JsVal num)
    : Eff num (Response num * Ledger num) :=
  let timestamp := getTimestamp (clock w) in
  password <~ pure (buildPassword shortcode passkey (JStr timestamp)) ;;
  accessToken <~ getAccessToken w ;;
  payload <~ pure (
    businessShortCode <- js_Number shortcode ;;
    amountN <- js_Number amount ;;
    partyA <- normalizePhone phone ;;
    partyB <- js_Number shortcode ;;
    phoneNumber <- normalizePhone phone ;;
    ret (JObj [("BusinessShortCode", JNum businessShortCode);
               ("Password", JStr password);
               ("Timestamp", JStr timestamp);
               ("TransactionType", txType);
               ("Amount", JNum amountN);
               ("PartyA", JNum (num_of_string partyA));
               ("PartyB", JNum partyB);
               ("PhoneNumber", JNum (num_of_string phoneNumber));
               ("CallBackURL", callbackUrl);
               ("AccountReference", accountReference);
               ("TransactionDesc", transactionDesc)])) ;;
  bearer <~ pure (js_String accessToken) ;;
  data <~ await_post w stk_url payload
            (JObj [("headers",
                    JObj [("Authorization", JStr ("Bearer " ++ bearer));
                          ("Content-Type", JStr "application/json")])]) ;;
  mpesaTx' <~ pure (
    if truthy (opt_member data "CheckoutRequestID") then
      p <- normalizePhone phone ;;
      a <- js_Number amount ;;
      ret (map_set mpesaTx (member data "CheckoutRequestID")
             (pending bookingId p a data))
    else ret mpesaTx) ;;
  pure (ret (respond 200
               (JObj (obj_assign [] ([("ok", JBool true); ("bookingId", bookingId)]
                                       ++ spread data)%list)),
             mpesaTx')).

(** [POST /api/payments/mpesa/stkpush]: the response, the ledger afterwards
    and the HTTP calls made. *)
Definition post_stkpush (w : World num) (mpesaTx : Ledger num) (body : JsVal num)
    : Response num * Ledger num * list (Call num) :=
  let b := js_or body (JObj []) in
  let bookingId := or_default (member b "bookingId") (JStr "TEST-BOOKING") in
  let phone := member b "phone" in
  let amount := member b "amount" in
  let accountReference := or_default (member b "accountReference") (JStr "TrackWash") in
  let transactionDesc :=
    or_default (member b "transactionDesc") (JStr "TrackWash Booking") in
  if negb (truthy phone) then
    (respond 400 (JObj [("error", JStr "phone is required")]), mpesaTx, [])
  else if negb (truthy amount) then
    (respond 400 (JObj [("error", JStr "amount is required")]), mpesaTx, [])
  else
    let shortcode := js_or (process_env w "MPESA_SHORTCODE") (JStr "174379") in
    let passkey := process_env w "MPESA_PASSKEY" in
    let callbackUrl := process_env w "MPESA_CALLBACK_URL" in
    let txType :=
      js_or (process_env w "MPESA_TRANSACTION_TYPE") (JStr "CustomerPayBillOnline") in
    if negb (truthy passkey) then
      (respond 500 (JObj [("error", JStr "Missing MPESA_PASSKEY")]), mpesaTx, [])
    else if negb (truthy callbackUrl) then
      (respond 500 (JObj [("error", JStr "Missing MPESA_CALLBACK_URL")]), mpesaTx, [])
    else
      match stkpush_attempt w mpesaTx bookingId phone amount accountReference
              transactionDesc shortcode passkey callbackUrl txType with
      | (inr (res, mpesaTx'), calls) => (res, mpesaTx', calls)
      | (inl err, calls) =>
          (respond 500
             (JObj [("ok", JBool false);
                    ("error", JStr "STK push failed");
                    ("details", js_or (err_response_data err) (JStr (err_message err)))]),
           mpesaTx, calls)
      end.

(** What the callback handler extracts from the envelope (lines 169-185). *)
Record Extracted := {
  checkoutRequestId : JsVal num;
  resultCode : JsVal num;
  resultDesc : JsVal num;
  receipt : JsVal num;
  amount : JsVal num;
  phone : JsVal num
}.

(** What [for (const it of items)] runs over. *)
Definition iterate (items : JsVal num) : Exn num (list (JsVal num)) :=
  match items with
  | JArr l => ret l
  | JStr s => ret (chars s)
  | _ => throw (TypeError NotIterable)
  end.

(** One turn of the loop over the metadata items. *)
Definition scan_item (acc : JsVal num * JsVal num * JsVal num) (it : JsVal num)
    : Exn num (JsVal num * JsVal num * JsVal num) :=
  let '(receipt, amount, phone) := acc in
  name <- read it "Name" ;;
  let receipt := if is_string name "MpesaReceiptNumber" then member it "Value" else receipt in
  let amount := if is_string name "Amount" then member it "Value" else amount in
  if is_string name "PhoneNumber" then
    s <- js_String (member it "Value") ;;
    ret (receipt, amount, JStr s)
  else ret (receipt, amount, phone).

Fixpoint scan_items (acc : JsVal num * JsVal num * JsVal num) (l : list (JsVal num))
    : Exn num (JsVal num * JsVal num * JsVal num) :=
  match l with
  | [] => ret acc
  | it :: l' => acc' <- scan_item acc it ;; scan_items acc' l'
  end.

Definition extract (body : JsVal num) : Exn num Extracted :=
  let stkCallback := opt_member (opt_member body "Body") "stkCallback" in
  let checkoutRequestId := opt_member stkCallback "CheckoutRequestID" in
  let resultCode := opt_member stkCallback "ResultCode" in
  let resultDesc := opt_member stkCallback "ResultDesc" in
  let items := js_or (opt_member (opt_member stkCallback "CallbackMetadata") "Item")
                 (JArr []) in
  l <- iterate items ;;
  found <- scan_items (JNull, JNull, JNull) l ;;
  let '(receipt, amount, phone) := found in
  ret {| checkoutRequestId := checkoutRequestId;
         resultCode := resultCode;
         resultDesc := resultDesc;
         receipt := receipt;
         amount := amount;
         phone := phone |}.

(** The update of the ledger (lines 187-206): the block guarded by
    [if (checkoutRequestId)]. *)
Definition applyCallbackResult (mpesaTx : Ledger num) (cb : Extracted)
    (body : JsVal num) : Ledger num :=
  if truthy (checkoutRequestId cb) then
    let existing :=
      match map_get mpesaTx (checkoutRequestId cb) with
      | Some tx => tx
      | None => []
      end in
    let status := if is_zero (resultCode cb) then "SUCCESS" else "FAILED" in
    map_set mpesaTx (checkoutRequestId cb)
      (obj_assign existing
         [("status", JStr status);
          ("receipt", js_or (js_or (receipt cb) (prop existing "receipt")) JNull);
          ("amount", js_coalesce (js_coalesce (amount cb) (prop existing "amount")) JNull);
          ("phone", js_or (js_or (phone cb) (prop existing "phone")) JNull);
          ("resultCode", resultCode cb);
          ("resultDesc", resultDesc cb);
          ("rawCallback", body)])
  else mpesaTx.

Definition accepted : Response num :=
  respond 200 (JObj [("ResultCode", JNum (num_of_Z 0)); ("ResultDesc", JStr "Accepted")]).

(** [POST /api/payments/mpesa/callback] *)
Definition post_callback (mpesaTx : Ledger num) (body : JsVal num)
    : Response num * Ledger num :=
  match extract body with
  | inr cb => (accepted, applyCallbackResult mpesaTx cb body)
  | inl _ => (accepted, mpesaTx)
  end.

(** [GET /api/payments/mpesa/status/:checkoutRequestId] *)
Definition get_status (mpesaTx : Ledger num) (id : string)
    : Response num * Ledger num :=
  match map_get mpesaTx (JStr id) with
  | None =>
      (respond 404 (JObj [("ok", JBool false); ("error", JStr "Not found")]), mpesaTx)
  | Some tx =>
      (respond 200
         (JObj (obj_assign [] ([("ok", JBool true); ("checkoutRequestId", JStr id)]
                                 ++ tx)%list)),
       mpesaTx)
  end.

End Server.
End V1.

(** ** Second variant of the server *)

Module V2.
Section Server.
Context {num : Type} `{Engine num}.

(** [timestamp]: the year as a number, then the padded strings. *)
Definition timestamp (d : Clock) : string :=
  dec (fullYear d) ++ pad (month d + 1) ++ pad (date d)
    ++ pad (hours d) ++ pad (minutes d) ++ pad (seconds d).

Definition normalizePhone (phone : JsVal num) : Exn num string :=
  s <- js_String (js_or phone (JStr "")) ;;
  let p := trim s in
  let p := if startsWith p "+" then slice1 p else p in
  let p := if startsWith p "0" then "254" ++ slice1 p else p in
  let p := if startsWith p "7" then "254" ++ p else p in
  ret p.

Definition buildPassword (shortcode passkey ts : JsVal num) : Exn num string :=
  a <- js_String shortcode ;;
  b <- js_String passkey ;;
  c <- js_String ts ;;
  ret (base64 (a ++ b ++ c)).

Definition oauth_url : string :=
  "https://sandbox.safaricom.co.ke/oauth/v1/generate?grant_type=client_credentials".

Definition getAccessToken (w : World num) : Eff num (JsVal num) :=
  let key := process_env w "MPESA_CONSUMER_KEY" in
  let secret := process_env w "MPESA_CONSUMER_SECRET" in
  if negb (truthy key) || negb (truthy secret) then
    pure (throw (Error "Missing MPESA_CONSUMER_KEY/SECRET"))
  else
    auth <~ pure (k <- js_String key ;; s <- js_String secret ;;
                  ret (base64 (k ++ ":" ++ s))) ;;
    data <~ await_get w oauth_url
              (JObj [("headers", JObj [("Authorization", JStr ("Basic " ++ auth))])]) ;;
    pure (read data "access_token").

Definition or_default (v d : JsVal num) : JsVal num :=
  match v with
  | JUndefined => d
  | _ => v
  end.

Definition respond (code : Z) (body : JsVal num) : Response num :=
  {| statusCode := code; jsonBody := body |}.

Definition stk_url : string :=
  "https://sandbox.safaricom.co.ke/mpesa/stkpush/v1/processrequest".

(** The record stored for a pending transaction (lines 332-339). *)
Definition pending (bookingId : JsVal num) (phone : string) (amountKes : num)
    (createdAt : string) (data : JsVal num) : Obj num :=
  [("status", JStr "PENDING");
   ("bookingId", bookingId);
   ("phone", JStr phone);
   ("amountKes", JNum amountKes);
   ("createdAt", JStr createdAt);
   ("raw", data)].

(** The body of the [try] of the initiation handler, from the timestamp on
    (lines 305-342). *)
Definition stkpush_attempt (w : World num) (mpesaTx : Ledger num)
    (bookingId phone amountKes shortcode passkey callbackUrl : JsVal num)
    : Eff num (Response num * Ledger num) :=
  let ts := timestamp (clock w) in
  password <~ pure (buildPassword shortcode passkey (JStr ts)) ;;
  token <~ getAccessToken w ;;
  payload <~ pure (
    businessShortCode <- js_Number shortcode ;;
    amountN <- js_Number amountKes ;;
    partyA <- normalizePhone phone ;;
    partyB <- js_Number shortcode ;;
    phoneNumber <- normalizePhone phone ;;
    ret (JObj [("BusinessShortCode", JNum businessShortCode);
               ("Password", JStr password);
               ("Timestamp", JStr ts);
               ("TransactionType", JStr "CustomerPayBillOnline");
               ("Amount", JNum amountN);
               ("PartyA", JNum (num_of_string partyA));
               ("PartyB", JNum partyB);
               ("PhoneNumber", JNum (num_of_string phoneNumber));
               ("CallBackURL", callbackUrl);
               ("AccountReference", bookingId);
               ("TransactionDesc", JStr "TrackWash Booking")])) ;;
  bearer <~ pure (js_String token) ;;
  data <~ await_post w stk_url payload
            (JObj [("headers", JObj [("Authorization", JStr ("Bearer " ++ bearer))])]) ;;
  mpesaTx' <~ pure (
    if truthy (opt_member data "CheckoutRequestID") then
      p <- normalizePhone phone ;;
      a <- js_Number amountKes ;;
      ret (map_set mpesaTx (member data "CheckoutRequestID")
             (pending bookingId p a (isoString (clock w)) data))
    else ret mpesaTx) ;;
  pure (ret (respond 200 (JObj (obj_assign [] (("ok", JBool true) :: spread data))),
             mpesaTx')).

(** [POST /api/payments/mpesa/stkpush] *)
Definition post_stkpush (w : World num) (mpesaTx : Ledger num) (body : JsVal num)
    : Response num * Ledger num * list (Call num) :=
  let b := js_or body (JObj []) in
  let bookingId := or_default (member b "bookingId") (JStr "TEST") in
  let phone := member b "phone" in
  let amountKes := member b "amountKes" in
  if negb (truthy phone) then
    (respond 400 (JObj [("ok", JBool false); ("error", JStr "phone required")]),
     mpesaTx, [])
  else if negb (truthy amountKes) then
    (respond 400 (JObj [("ok", JBool false); ("error", JStr "amountKes required")]),
     mpesaTx, [])
  else
    let shortcode := js_or (process_env w "MPESA_SHORTCODE") (JStr "174379") in
    let passkey := process_env w "MPESA_PASSKEY" in
    let callbackUrl := process_env w "MPESA_CALLBACK_URL" in
    if negb (truthy passkey) then
      (respond 500 (JObj [("ok", JBool false); ("error", JStr "Missing MPESA_PASSKEY")]),
       mpesaTx, [])
    else if negb (truthy callbackUrl) then
      (respond 500
         (JObj [("ok", JBool false); ("error", JStr "Missing MPESA_CALLBACK_URL")]),
       mpesaTx, [])
    else
      match stkpush_attempt w mpesaTx bookingId phone amountKes shortcode passkey
              callbackUrl with
      | (inr (res, mpesaTx'), calls) => (res, mpesaTx', calls)
      | (inl err, calls) =>
          (respond 500
             (JObj [("ok", JBool false);
                    ("error", JStr "STK push failed");
                    ("details", js_or (err_response_data err) (JStr (err_message err)))]),
           mpesaTx, calls)
      end.

(** What the callback handler extracts from the envelope (lines 359-373). *)
Record Extracted := {
  checkoutRequestId : JsVal num;
  resultCode : JsVal num;
  resultDesc : JsVal num;
  receipt : JsVal num;
  paidAmount : JsVal num;
  paidPhone : JsVal num
}.

Definition iterate (items : JsVal num) : Exn num (list (JsVal num)) :=
  match items with
  | JArr l => ret l
  | JStr s => ret (chars s)
  | _ => throw (TypeError NotIterable)
  end.

Definition scan_item (acc : JsVal num * JsVal num * JsVal num) (it : JsVal num)
    : Exn num (JsVal num * JsVal num * JsVal num) :=
  let '(receipt, paidAmount, paidPhone) := acc in
  name <- read it "Name" ;;
  let receipt := if is_string name "MpesaReceiptNumber" then member it "Value" else receipt in
  let paidAmount := if is_string name "Amount" then member it "Value" else paidAmount in
  if is_string name "PhoneNumber" then
    s <- js_String (member it "Value") ;;
    ret (receipt, paidAmount, JStr s)
  else ret (receipt, paidAmount, paidPhone).

Fixpoint scan_items (acc : JsVal num * JsVal num * JsVal num) (l : list (JsVal num))
    : Exn num (JsVal num * JsVal num * JsVal num) :=
  match l with
  | [] => ret acc
  | it :: l' => acc' <- scan_item acc it ;; scan_items acc' l'
  end.

Definition extract (body : JsVal num) : Exn num Extracted :=
  let stk := opt_member (opt_member body "Body") "stkCallback" in
  let checkoutRequestId := opt_member stk "CheckoutRequestID" in
  let resultCode := opt_member stk "ResultCode" in
  let resultDesc := opt_member stk "ResultDesc" in
  let items := js_or (opt_member (opt_member stk "CallbackMetadata") "Item") (JArr []) in
  l <- iterate items ;;
  found <- scan_items (JNull, JNull, JNull) l ;;
  let '(receipt, paidAmount, paidPhone) := found in
  ret {| checkoutRequestId := checkoutRequestId;
         resultCode := resultCode;
         resultDesc := resultDesc;
         receipt := receipt;
         paidAmount := paidAmount;
         paidPhone := paidPhone |}.

(** The update of the ledger (lines 375-392): the block guarded by
    [if (checkoutRequestId)]. *)
Definition applyCallbackResult (w : World num) (mpesaTx : Ledger num) (cb : Extracted)
    (body : JsVal num) : Ledger num :=
  if truthy (checkoutRequestId cb) then
    let existing :=
      match map_get mpesaTx (checkoutRequestId cb) with
      | Some tx => tx
      | None => []
      end in
    let status := if is_zero (resultCode cb) then "SUCCESS" else "FAILED" in
    map_set mpesaTx (checkoutRequestId cb)
      (obj_assign existing
         [("status", JStr status);
          ("resultCode", resultCode cb);
          ("resultDesc", resultDesc cb);
          ("receipt", js_or (receipt cb) JNull);
          ("paidAmount", js_coalesce (paidAmount cb) JNull);
          ("paidPhone", js_or (paidPhone cb) JNull);
          ("callbackAt", JStr (isoString (clock w)));
          ("rawCallback", body)])
  else mpesaTx.

Definition accepted : Response num :=
  respond 200 (JObj [("ResultCode", JNum (num_of_Z 0)); ("ResultDesc", JStr "Accepted")]).

(** [POST /api/payments/mpesa/callback] *)
Definition post_callback (w : World num) (mpesaTx : Ledger num) (body : JsVal num)
    : Response num * Ledger num :=
  match extract body with
  | inr cb => (accepted, applyCallbackResult w mpesaTx cb body)
  | inl _ => (accepted, mpesaTx)
  end.

(** [GET /api/payments/mpesa/status/:checkoutRequestId] *)
Definition get_status (mpesaTx : Ledger num) (id : string)
    : Response num * Ledger num :=
  match map_get mpesaTx (JStr id) with
  | None =>
      (respond 404 (JObj [("ok", JBool false); ("error", JStr "Not found")]), mpesaTx)
  | Some tx =>
      (respond 200
         (JObj (obj_assign [] ([("ok", JBool true); ("checkoutRequestId", JStr id)]
                                 ++ tx)%list)),
       mpesaTx)
  end.

End Server.
End V2.

(** ** An engine over the integers, to run the model *)

Inductive znum :=
| NaN
| Int (z : Z).

Definition znum_of_string (s : string) : znum :=
  match trim s with
  | EmptyString => Int 0
  | String "+" r =>
      if all_digits r && negb (r =? "") then
        match NilZero.int_of_string r with
        | Some d => Int (Z.of_int d)
        | None => NaN
        end
      else NaN
  | String "-" r =>
      if all_digits r && negb (r =? "") then
        match NilZero.int_of_string r with
        | Some d => Int (- Z.of_int d)
        | None => NaN
        end
      else NaN
  | t =>
      if all_digits t then
        match NilZero.int_of_string t with
        | Some d => Int (Z.of_int d)
        | None => NaN
        end
      else NaN
  end.

(** Faithful to JavaScript on the integers and on the strings that spell
    one in decimal; the message texts stand for the engine's. *)
#[export] Instance integer_engine : Engine znum := {
  num_of_Z := Int;
  num_nan := NaN;
  num_is_zero n := match n with Int 0 => true | _ => false end;
  num_is_nan n := match n with NaN => true | _ => false end;
  num_same a b :=
    match a, b with
    | NaN, NaN => true
    | Int x, Int y => (x =? y)%Z
    | _, _ => false
    end;
  num_to_string n := match n with NaN => "NaN" | Int z => dec z end;
  num_of_string := znum_of_string;
  type_error_message k :=
    match k with
    | ReadOfNullish p => "Cannot read properties of undefined (reading '" ++ p ++ "')"
    | NotIterable => "items is not iterable"
    | NoPrimitive => "Cannot convert object to primitive value"
    end
}.

(** ** Concrete worlds and requests *)

Definition demo_clock : Clock :=
  {| fullYear := 2026; month := 0; date := 5; hours := 13; minutes := 4; seconds := 9;
     isoString := "2026-01-05T13:04:09.000Z" |}.

(** A complete configuration. *)
Definition demo_env (name : string) : option string :=
  if name =? "MPESA_CONSUMER_KEY" then Some "key"
  else if name =? "MPESA_CONSUMER_SECRET" then Some "secret"
  else if name =? "MPESA_PASSKEY" then Some "passkey"
  else if name =? "MPESA_CALLBACK_URL" then Some "https://example.org/callback"
  else None.

(** The same without the passkey. *)
Definition no_passkey_env (name : string) : option string :=
  if name =? "MPESA_PASSKEY" then None else demo_env name.

(** A gateway that grants a token and answers every initiation with
    [reply]. *)
Definition stub_gateway (environment : string -> option string) (reply : JsVal znum)
    : World znum :=
  {| env := environment;
     clock := demo_clock;
     axios_get := fun _ _ => inr (JObj [("access_token", JStr "token")]);
     axios_post := fun _ _ _ => inr reply |}.

Definition demo_reply : JsVal znum := JObj [("CheckoutRequestID", JStr "ws_1")].

Definition demo_world : World znum := stub_gateway demo_env demo_reply.

Definition no_passkey_world : World znum := stub_gateway no_passkey_env demo_reply.

(** A reply with no request identifier and an [ok] field of its own. *)
Definition refusal : JsVal znum :=
  JObj [("ok", JBool false); ("errorMessage", JStr "Bad Request")].

Definition refusing_world : World znum := stub_gateway demo_env refusal.

(** A gateway that grants a token and turns every initiation down. *)
Definition rejecting_world : World znum :=
  {| env := demo_env;
     clock := demo_clock;
     axios_get := fun _ _ => inr (JObj [("access_token", JStr "token")]);
     axios_post := fun _ _ _ =>
       inl (AxiosError (JObj [("errorCode", JStr "400.002.02")])
              "Request failed with status code 400") |}.

(** A configuration with the passkey and the callback URL and no consumer
    key. *)
Definition no_consumer_key_env (name : string) : option string :=
  if name =? "MPESA_CONSUMER_KEY" then None else demo_env name.

Definition no_consumer_key_world : World znum :=
  stub_gateway no_consumer_key_env demo_reply.

Definition demo_request : JsVal znum :=
  JObj [("phone", JStr "0712345678"); ("amount", JNum (Int 10))].

Definition demo_request_kes : JsVal znum :=
  JObj [("phone", JStr "0712345678"); ("amountKes", JNum (Int 10))].

(** Both fields are there, the amount being zero. *)
Definition zero_amount_request : JsVal znum :=
  JObj [("phone", JStr "0712345678"); ("amount", JNum (Int 0))].

(** The gateway's envelope for a payment that went through. *)
Definition demo_success : JsVal znum :=
  JObj [("Body",
         JObj [("stkCallback",
                JObj [("CheckoutRequestID", JStr "ws_1");
                      ("ResultCode", JNum (Int 0));
                      ("ResultDesc", JStr "The service request is processed successfully.");
                      ("CallbackMetadata",
                       JObj [("Item",
                              JArr [JObj [("Name", JStr "Amount");
                                          ("Value", JNum (Int 10))];
                                    JObj [("Name", JStr "MpesaReceiptNumber");
                                          ("Value", JStr "R123")];
                                    JObj [("Name", JStr "PhoneNumber");
                                          ("Value", JNum (Int 254712345678))]])])])])].

(** The envelope for a payment the customer cancelled: no metadata. *)
Definition demo_cancelled : JsVal znum :=
  JObj [("Body",
         JObj [("stkCallback",
                JObj [("CheckoutRequestID", JStr "ws_1");
                      ("ResultCode", JNum (Int 1032));
                      ("ResultDesc", JStr "Request cancelled by user")])])].

(** An envelope whose metadata cannot be iterated. *)
Definition demo_malformed : JsVal znum :=
  JObj [("Body",
         JObj [("stkCallback",
                JObj [("CheckoutRequestID", JStr "ws_1");
                      ("ResultCode", JNum (Int 0));
                      ("CallbackMetadata", JObj [("Item", JNum (Int 5))])])])].

Definition V1_success_fields : V1.Extracted :=
  {| V1.checkoutRequestId := JStr "ws_1";
     V1.resultCode := JNum (Int 0);
     V1.resultDesc := JStr "The service request is processed successfully.";
     V1.receipt := JStr "R123";
     V1.amount := JNum (Int 10);
     V1.phone := JStr "254712345678" |}.

Definition V1_cancelled_fields : V1.Extracted :=
  {| V1.checkoutRequestId := JStr "ws_1";
     V1.resultCode := JNum (Int 1032);
     V1.resultDesc := JStr "Request cancelled by user";
     V1.receipt := JNull;
     V1.amount := JNull;
     V1.phone := JNull |}.

Definition V2_success_fields : V2.Extracted :=
  {| V2.checkoutRequestId := JStr "ws_1";
     V2.resultCode := JNum (Int 0);
     V2.resultDesc := JStr "The service request is processed successfully.";
     V2.receipt := JStr "R123";
     V2.paidAmount := JNum (Int 10);
     V2.paidPhone := JStr "254712345678" |}.

Definition V2_cancelled_fields : V2.Extracted :=
  {| V2.checkoutRequestId := JStr "ws_1";
     V2.resultCode := JNum (Int 1032);
     V2.resultDesc := JStr "Request cancelled by user";
     V2.receipt := JNull;
     V2.paidAmount := JNull;
     V2.paidPhone := JNull |}.

(** Metadata with an item the handler does not read. *)
Definition amount_item : JsVal znum :=
  JObj [("Name", JStr "Amount"); ("Value", JNum (Int 10))].

Definition date_item : JsVal znum :=
  JObj [("Name", JStr "TransactionDate"); ("Value", JNum (Int 20260105130409))].

Definition receipt_item : JsVal znum :=
  JObj [("Name", JStr "MpesaReceiptNumber"); ("Value", JStr "R123")].

(** The ledger after one initiation, and after the payment went through. *)
Definition V1_demo_ledger : Ledger znum :=
  snd (fst (V1.post_stkpush demo_world [] demo_request)).

Definition V2_demo_ledger : Ledger znum :=
  snd (fst (V2.post_stkpush demo_world [] demo_request_kes)).

Definition V1_paid_ledger : Ledger znum :=
  snd (V1.post_callback V1_demo_ledger demo_success).

Definition V2_paid_ledger : Ledger znum :=
  snd (V2.post_callback demo_world V2_demo_ledger demo_success).

(** ** Ledgers the server can hold *)

Section Reachable.
Context {num : Type} `{Engine num}.

Definition keys (o : Obj num) : list string := map fst o.

(** The last property of a list of definitions that has the key: the one
    that an object literal keeps. *)
Fixpoint obj_get_last (ps : list (string * JsVal num)) (k : string) : option (JsVal num) :=
  match ps with
  | [] => None
  | (k', v) :: ps' =>
      match obj_get_last ps' k with
      | Some x => Some x
      | None => if k' =? k then Some v else None
      end
  end.

(** A record has each key once, and only keys that the handlers write. *)
Definition record_ok (fields : list string) (tx : Obj num) : Prop :=
  NoDup (keys tx) /\ incl (keys tx) fields.

(** Every key of the ledger is truthy and every record is well formed. *)
Definition ledger_ok (fields : list string) (m : Ledger num) : Prop :=
  Forall (fun e => truthy (fst e) = true /\ record_ok fields (snd e)) m.

Definition V1_fields : list string :=
  ["status"; "bookingId"; "phone"; "amount"; "receipt"; "raw";
   "resultCode"; "resultDesc"; "rawCallback"].

Definition V2_fields : list string :=
  ["status"; "bookingId"; "phone"; "amountKes"; "createdAt"; "raw";
   "resultCode"; "resultDesc"; "receipt"; "paidAmount"; "paidPhone";
   "callbackAt"; "rawCallback"].

(** The ledgers the first variant reaches from the empty [Map] by serving
    requests. *)
Inductive V1_reachable : Ledger num -> Prop :=
| V1_start : V1_reachable []
| V1_after_stkpush w m body :
    V1_reachable m -> V1_reachable (snd (fst (V1.post_stkpush w m body)))
| V1_after_callback m body :
    V1_reachable m -> V1_reachable (snd (V1.post_callback m body))
| V1_after_status m id :
    V1_reachable m -> V1_reachable (snd (V1.get_status m id)).

(** The same for the second variant. *)
Inductive V2_reachable : Ledger num -> Prop :=
| V2_start : V2_reachable []
| V2_after_stkpush w m body :
    V2_reachable m -> V2_reachable (snd (fst (V2.post_stkpush w m body)))
| V2_after_callback w m body :
    V2_reachable m -> V2_reachable (snd (V2.post_callback w m body))
| V2_after_status m id :
    V2_reachable m -> V2_reachable (snd (V2.get_status m id)).

(** [SUCCESS] when the result code is the number zero, [FAILED] otherwise. *)
Definition status_of (resultCode : JsVal num) : JsVal num :=
  JStr (if is_zero resultCode then "SUCCESS" else "FAILED").

(** The ledger after a reply [data] of the gateway: the [if] around
    [mpesaTx.set] in the initiation handler of each variant. *)
Definition V1_stored (m : Ledger num) (bookingId : JsVal num) (p : string) (a : num)
    (data : JsVal num) : Ledger num :=
  if truthy (opt_member data "CheckoutRequestID")
  then map_set m (member data "CheckoutRequestID") (V1.pending bookingId p a data)
  else m.

Definition V2_stored (w : World num) (m : Ledger num) (bookingId : JsVal num)
    (p : string) (a : num) (data : JsVal num) : Ledger num :=
  if truthy (opt_member data "CheckoutRequestID")
  then map_set m (member data "CheckoutRequestID")
         (V2.pending bookingId p a (isoString (clock w)) data)
  else m.

End Reachable.

(** ** The body parser: [app.use(express.json())] *)

Section BodyParser.
Context {num : Type} `{Engine num}.

(** What [express.json()] makes of a request before any route handler runs:
    the value it parsed into [req.body] (the empty object for a request that
    carries no JSON), or a failure, for a body that is not JSON text. *)
Inductive Inbound :=
| Parsed (body : JsVal num)
| Unparsable.

(** What the client is sent: the response of a handler, or the 400 with
    which Express answers a failure of the body parser, no handler having
    run. *)
Inductive Served :=
| Answered (res : Response num)
| BadRequest.

Definition served_status (s : Served) : Z :=
  match s with
  | Answered res => statusCode res
  | BadRequest => 400
  end.

(** A POST to [/api/payments/mpesa/callback], through the body parser. *)
Definition V1_webhook (mpesaTx : Ledger num) (r : Inbound) : Served * Ledger num :=
  match r with
  | Parsed body =>
      (Answered (fst (V1.post_callback mpesaTx body)),
       snd (V1.post_callback mpesaTx body))
  | Unparsable => (BadRequest, mpesaTx)
  end.

Definition V2_webhook (w : World num) (mpesaTx : Ledger num) (r : Inbound)
    : Served * Ledger num :=
  match r with
  | Parsed body =>
      (Answered (fst (V2.post_callback w mpesaTx body)),
       snd (V2.post_callback w mpesaTx body))
  | Unparsable => (BadRequest, mpesaTx)
  end.

End BodyParser.

Arguments Inbound : clear implicits.
Arguments Served : clear implicits.

(** ** Formats and shapes *)

(** What [new Date()] can read in the years of four digits. *)
Definition clock_valid (c : Clock) : Prop :=
  (1000 <= fullYear c <= 9999 /\ 0 <= month c <= 11 /\ 1 <= date c <= 31 /\
   0 <= hours c <= 23 /\ 0 <= minutes c <= 59 /\ 0 <= seconds c <= 59)%Z.

(** A character of the base64 alphabet, or the padding. *)
Definition is_base64_char (c : ascii) : bool :=
  let n := nat_of_ascii c in
  ((65 <=? n) && (n <=? 90) || (97 <=? n) && (n <=? 122) || (48 <=? n) && (n <=? 57)
   || (n =? 43) || (n =? 47) || (n =? 61))%nat.

Fixpoint all_base64 (s : string) : bool :=
  match s with
  | EmptyString => true
  | String c r => is_base64_char c && all_base64 r
  end.

(** [f] holds of [lo], [lo + 1], ..., [lo + n - 1]. *)
Definition holds_on_range (f : Z -> bool) (lo : Z) (n : nat) : bool :=
  forallb (fun i => f (lo + Z.of_nat i)%Z) (seq 0 n).

Section Shapes.
Context {num : Type} `{Engine num}.

(** The three values the handlers write to [status]. *)
Definition known_status (v : JsVal num) : Prop :=
  v = JStr "PENDING" \/ v = JStr "SUCCESS" \/ v = JStr "FAILED".

Definition statuses_ok (m : Ledger num) : Prop :=
  Forall (fun e => known_status (prop (snd e) "status")) m.

(** Every identifier that has a record in [m] has one in [m']. *)
Definition keeps_records (m m' : Ledger num) : Prop :=
  (forall k tx, map_get m k = Some tx -> exists tx', map_get m' k = Some tx') /\
  (map_size m <= map_size m')%nat.

(** The item of the callback metadata is one of the three the handler
    reads. *)
Definition read_item (name : JsVal num) : bool :=
  is_string name "MpesaReceiptNumber" || is_string name "Amount"
  || is_string name "PhoneNumber".

(** [process.env.NAME || "fallback"] *)
Definition env_or (w : World num) (name fallback : string) : string :=
  match env w name with
  | Some s => if s =? "" then fallback else s
  | None => fallback
  end.

(** The configuration of the token request and of the initiation. *)
Definition basic_auth (key secret : string) : JsVal num :=
  JObj [("headers", JObj [("Authorization", JStr ("Basic " ++ base64 (key ++ ":" ++ secret)))])].

(** Not a string: a value that no route parameter equals. *)
Definition not_a_string (v : JsVal num) : bool :=
  match v with
  | JStr _ => false
  | _ => true
  end.

End Shapes.

(** ** What the specification says of the phone normalizer *)

(** The four accepted shapes: [0] and nine digits, [7] and eight digits,
    [254] and nine digits, and the latter after a [+]. *)
Definition accepted_shape (s : string) : bool :=
  (startsWith s "0" && all_digits s && (String.length s =? 10)%nat)
  || (startsWith s "7" && all_digits s && (String.length s =? 9)%nat)
  || (startsWith s "254" && all_digits s && (String.length s =? 12)%nat)
  || (startsWith s "+254" && all_digits (slice1 s) && (String.length s =? 13)%nat).

(** [254] followed by nine digits and nothing else. *)
Definition canonical (s : string) : bool :=
  startsWith s "254" && all_digits s && (String.length s =? 12)%nat.

(** The rule in the specification's words: strip a single leading [+]; if it
    starts with [0], replace the [0] with [254]; else if it starts with [7],
    prepend [254]; otherwise pass through unchanged. *)
Definition spec_pipeline (s : string) : string :=
  let p := if startsWith s "+" then slice1 s else s in
  if startsWith p "0" then "254" ++ slice1 p
  else if startsWith p "7" then "254" ++ p
  else p.

(** ** Strings: lemmas *)

Lemma digit_not_space (c : ascii) : is_digit c = true -> is_space c = false.
Proof.
  unfold is_digit, is_space.
  intros Hd. apply andb_prop in Hd as [Hlo Hhi].
  apply Nat.leb_le in Hlo, Hhi.
  destruct (Nat.leb_spec 9 (nat_of_ascii c)); destruct (Nat.leb_spec (nat_of_ascii c) 13);
    destruct (Nat.eqb_spec (nat_of_ascii c) 32);
    destruct (Nat.eqb_spec (nat_of_ascii c) 160); simpl; try reflexivity; lia.
Qed.

Lemma all_digits_no_space (s : string) : all_digits s = true -> no_space s = true.
Proof.
  induction s as [|c r IH]; simpl; [reflexivity|].
  intros Hd. apply andb_prop in Hd as [Hc Hr].
  rewrite (digit_not_space c Hc). simpl. auto.
Qed.

Lemma trimEnd_no_space (s : string) : no_space s = true -> trimEnd s = s.
Proof.
  induction s as [|c r IH]; simpl; [reflexivity|].
  intros Hs. apply andb_prop in Hs as [Hc Hr].
  rewrite (IH Hr). destruct r; [|reflexivity].
  apply negb_true_iff in Hc. rewrite Hc. reflexivity.
Qed.

Lemma trim_no_space (s : string) : no_space s = true -> trim s = s.
Proof.
  intros Hs. unfold trim.
  assert (Hstart : trimStart s = s).
  { destruct s as [|c r]; simpl in *; [reflexivity|].
    apply andb_prop in Hs as [Hc _]. apply negb_true_iff in Hc. now rewrite Hc. }
  rewrite Hstart. now apply trimEnd_no_space.
Qed.

Lemma startsWith_split (p s : string) :
  startsWith s p = true -> exists r, s = p ++ r.
Proof.
  unfold startsWith. revert s.
  induction p as [|a p IH]; intros s Hp; simpl in *.
  - now exists s.
  - destruct s as [|b s]; simpl in Hp; [discriminate|].
    destruct (ascii_dec a b) as [->|]; [|discriminate].
    destruct (IH s Hp) as [r ->]. now exists r.
Qed.

Lemma startsWith_empty (s : string) : startsWith s "" = true.
Proof. now destruct s. Qed.

Lemma length_append (a b : string) :
  String.length (a ++ b) = (String.length a + String.length b)%nat.
Proof. induction a; simpl; auto. Qed.

Lemma all_digits_append (a b : string) :
  all_digits (a ++ b) = all_digits a && all_digits b.
Proof.
  induction a as [|c a IH]; simpl; [reflexivity|].
  now rewrite IH, andb_assoc.
Qed.

(** The two [if]s of the source in a row do what the specification's
    if-else does: once the [0] is replaced the string starts with [2]. *)
Lemma steps_are_pipeline (s : string) :
  (let p := if startsWith s "+" then slice1 s else s in
   let p := if startsWith p "0" then "254" ++ slice1 p else p in
   let p := if startsWith p "7" then "254" ++ p else p in p) = spec_pipeline s.
Proof.
  unfold spec_pipeline. cbv zeta.
  destruct (startsWith (if startsWith s "+" then slice1 s else s) "0"); reflexivity.
Qed.

(** An accepted shape has no blank, so [trim] leaves it alone. *)
Lemma accepted_no_space (s : string) : accepted_shape s = true -> no_space s = true.
Proof.
  unfold accepted_shape. intros Ha.
  repeat (apply orb_prop in Ha as [Ha|Ha]);
    apply andb_prop in Ha as [Ha _]; apply andb_prop in Ha as [Hp Hd].
  1-3: now apply all_digits_no_space.
  destruct (startsWith_split _ _ Hp) as [r ->]. simpl in *.
  now apply all_digits_no_space.
Qed.

Lemma accepted_canonical (s : string) :
  accepted_shape s = true -> canonical (spec_pipeline s) = true.
Proof.
  unfold accepted_shape. intros Ha.
  repeat (apply orb_prop in Ha as [Ha|Ha]);
    apply andb_prop in Ha as [Ha Hl]; apply andb_prop in Ha as [Hp Hd];
    destruct (startsWith_split _ _ Hp) as [r ->];
    apply Nat.eqb_eq in Hl; simpl in Hl, Hd;
    unfold spec_pipeline, canonical; simpl;
    rewrite ?startsWith_empty; simpl; rewrite ?startsWith_empty, ?Hd; simpl;
    apply Nat.eqb_eq; lia.
Qed.

Section PhoneNormalizer.
Context {num : Type} `{Engine num}.

Lemma V1_normalizePhone_string (s : string) :
  V1.normalizePhone (JStr s) = inr (spec_pipeline (trim s)).
Proof.
  unfold V1.normalizePhone. simpl. unfold ret.
  now rewrite <- steps_are_pipeline.
Qed.

Lemma V2_normalizePhone_string (s : string) :
  V2.normalizePhone (JStr s) = inr (spec_pipeline (trim s)).
Proof.
  unfold V2.normalizePhone, js_or. simpl.
  destruct (String.eqb_spec s "") as [->|_]; simpl; unfold ret;
    now rewrite <- steps_are_pipeline.
Qed.

(** C5: on each of the four accepted shapes the normalizer of either variant
    returns what the specification's ordered pipeline returns, and that is
    [254] followed by nine digits with no symbol. *)
Theorem normalizePhone_accepted_shapes (s : string) :
  accepted_shape s = true ->
  V1.normalizePhone (JStr s) = inr (spec_pipeline s) /\
  V2.normalizePhone (JStr s) = inr (spec_pipeline s) /\
  canonical (spec_pipeline s) = true.
Proof.
  intros Ha.
  rewrite V1_normalizePhone_string, V2_normalizePhone_string.
  rewrite (trim_no_space s (accepted_no_space s Ha)).
  repeat split. now apply accepted_canonical.
Qed.

End PhoneNormalizer.

(** ** Objects and the [Map]: lemmas *)

Section Containers.
Context {num : Type} `{Engine num}.

Lemma obj_get_set (o : Obj num) (k k' : string) (v : JsVal num) :
  obj_get (obj_set o k v) k' = if k =? k' then Some v else obj_get o k'.
Proof.
  induction o as [|[k0 v0] o IH]; simpl.
  - reflexivity.
  - destruct (String.eqb_spec k0 k) as [->|Hne]; simpl.
    + destruct (k =? k'); reflexivity.
    + rewrite IH. destruct (String.eqb_spec k0 k') as [->|]; [|reflexivity].
      destruct (String.eqb_spec k k') as [->|]; [contradiction|reflexivity].
Qed.

Lemma prop_set (o : Obj num) (k k' : string) (v : JsVal num) :
  prop (obj_set o k v) k' = if k =? k' then v else prop o k'.
Proof. unfold prop. rewrite obj_get_set. now destruct (k =? k'). Qed.

Lemma obj_get_assign (ps : list (string * JsVal num)) (o : Obj num) (k : string) :
  obj_get (obj_assign o ps) k =
  match obj_get_last ps k with
  | Some v => Some v
  | None => obj_get o k
  end.
Proof.
  unfold obj_assign. revert o.
  induction ps as [|[k0 v0] ps IH]; intros o; simpl; [reflexivity|].
  rewrite IH, obj_get_set. simpl.
  destruct (obj_get_last ps k); [reflexivity|].
  now destruct (k0 =? k).
Qed.

Lemma obj_get_In (o : Obj num) (k : string) (v : JsVal num) :
  obj_get o k = Some v -> In k (keys o).
Proof.
  induction o as [|[k0 v0] o IH]; simpl; [discriminate|].
  destruct (String.eqb_spec k0 k); auto.
Qed.

Lemma obj_get_last_In (o : Obj num) (k : string) (v : JsVal num) :
  obj_get_last o k = Some v -> In k (keys o).
Proof.
  induction o as [|[k0 v0] o IH]; simpl; [discriminate|].
  destruct (obj_get_last o k); [auto|].
  destruct (String.eqb_spec k0 k); [auto|discriminate].
Qed.

Lemma obj_get_last_NoDup (o : Obj num) (k : string) :
  NoDup (keys o) -> obj_get_last o k = obj_get o k.
Proof.
  induction o as [|[k0 v0] o IH]; simpl; [reflexivity|].
  intros Hnd. inversion Hnd as [|? ? Hnotin Hnd']; subst.
  rewrite (IH Hnd').
  destruct (String.eqb_spec k0 k) as [->|Hne].
  - destruct (obj_get o k) eqn:Hg; [|reflexivity].
    apply obj_get_In in Hg. contradiction.
  - now destruct (obj_get o k).
Qed.

Lemma obj_get_last_absent (o : Obj num) (k : string) :
  ~ In k (keys o) -> obj_get_last o k = None.
Proof.
  intros Hk. destruct (obj_get_last o k) eqn:Hg; [|reflexivity].
  apply obj_get_last_In in Hg. contradiction.
Qed.

Lemma obj_get_last_app (a b : list (string * JsVal num)) (k : string) :
  obj_get_last (a ++ b) k =
  match obj_get_last b k with
  | Some v => Some v
  | None => obj_get_last a k
  end.
Proof.
  induction a as [|[k0 v0] a IH]; simpl.
  - now destruct (obj_get_last b k).
  - rewrite IH. now destruct (obj_get_last b k).
Qed.

Lemma keys_obj_set (o : Obj num) (k x : string) (v : JsVal num) :
  In x (keys (obj_set o k v)) -> x = k \/ In x (keys o).
Proof.
  induction o as [|[k0 v0] o IH]; simpl.
  - intros [<-|[]]. now left.
  - destruct (String.eqb_spec k0 k) as [->|]; simpl.
    + intros [<-|Hx]; auto.
    + intros [<-|Hx]; auto. destruct (IH Hx); auto.
Qed.

Lemma record_ok_set (F : list string) (o : Obj num) (k : string) (v : JsVal num) :
  In k F -> record_ok F o -> record_ok F (obj_set o k v).
Proof.
  intros HkF [Hnd Hincl]. split.
  - clear Hincl. induction o as [|[k0 v0] o IH]; simpl.
    + constructor; [intros []|constructor].
    + inversion Hnd as [|? ? Hnotin Hnd']; subst.
      destruct (String.eqb_spec k0 k) as [->|Hne]; simpl.
      * now constructor.
      * constructor; [|now apply IH].
        intros Hin. apply keys_obj_set in Hin as [->|Hin]; contradiction.
  - intros x Hx. apply keys_obj_set in Hx as [->|Hx]; auto.
Qed.

Lemma record_ok_assign (F : list string) (ps : list (string * JsVal num)) (o : Obj num) :
  Forall (fun p => In (fst p) F) ps -> record_ok F o -> record_ok F (obj_assign o ps).
Proof.
  unfold obj_assign. intros Hps. revert o.
  induction Hps as [|[k v] ps Hk _ IH]; intros o Ho; simpl; [assumption|].
  apply IH. now apply record_ok_set.
Qed.

Lemma record_ok_empty (F : list string) : record_ok F ([] : Obj num).
Proof. split; [constructor|intros x []]. Qed.

(** *** The [Map] *)

Lemma map_set_absent (m : Ledger num) (k : JsVal num) (r : Obj num) :
  map_get m k = None -> map_set m k r = (m ++ [(k, r)])%list.
Proof.
  induction m as [|[k0 r0] m IH]; simpl; [reflexivity|].
  destruct (same_value_zero k0 k); [discriminate|].
  intros Hg. now rewrite IH.
Qed.

Lemma map_get_set_present (m : Ledger num) (k : JsVal num) (tx r : Obj num) :
  map_get m k = Some tx -> map_get (map_set m k r) k = Some r.
Proof.
  induction m as [|[k0 r0] m IH]; simpl; [discriminate|].
  destruct (same_value_zero k0 k) eqn:Hk; simpl; rewrite Hk; auto.
Qed.

Lemma map_get_set_same (m : Ledger num) (k : JsVal num) (r : Obj num) :
  same_value_zero k k = true -> map_get (map_set m k r) k = Some r.
Proof.
  intros Hk. induction m as [|[k0 r0] m IH]; simpl.
  - now rewrite Hk.
  - destruct (same_value_zero k0 k) eqn:Hk0; simpl; now rewrite Hk0.
Qed.

Lemma map_size_set_present (m : Ledger num) (k : JsVal num) (tx r : Obj num) :
  map_get m k = Some tx -> map_size (map_set m k r) = map_size m.
Proof.
  unfold map_size.
  induction m as [|[k0 r0] m IH]; simpl; [discriminate|].
  destruct (same_value_zero k0 k); simpl; auto.
Qed.

Lemma same_value_zero_string (k : JsVal num) (id : string) :
  same_value_zero k (JStr id) = true -> k = JStr id.
Proof.
  destruct k; simpl; try discriminate.
  intros Hk. apply String.eqb_eq in Hk. now subst.
Qed.

Lemma ledger_ok_set (F : list string) (m : Ledger num) (k : JsVal num) (r : Obj num) :
  ledger_ok F m -> truthy k = true -> record_ok F r -> ledger_ok F (map_set m k r).
Proof.
  unfold ledger_ok. intros Hm Hk Hr.
  induction Hm as [|[k0 r0] m [Hk0 Hr0] Hm IH]; simpl.
  - constructor; [now split|constructor].
  - destruct (same_value_zero k0 k); constructor; simpl in *; auto.
Qed.

Lemma ledger_ok_get (F : list string) (m : Ledger num) (k : JsVal num) (tx : Obj num) :
  ledger_ok F m -> map_get m k = Some tx -> record_ok F tx.
Proof.
  unfold ledger_ok. intros Hm.
  induction Hm as [|[k0 r0] m [Hk0 Hr0] Hm IH]; simpl; [discriminate|].
  destruct (same_value_zero k0 k); [|assumption].
  now intros [= <-].
Qed.

Lemma ledger_ok_string_key (F : list string) (m : Ledger num) (id : string) (tx : Obj num) :
  ledger_ok F m -> map_get m (JStr id) = Some tx -> truthy (JStr id : JsVal num) = true.
Proof.
  unfold ledger_ok. intros Hm.
  induction Hm as [|[k0 r0] m [Hk0 Hr0] Hm IH]; simpl map_get; [discriminate|].
  destruct (same_value_zero k0 (JStr id)) eqn:Hk; [|assumption].
  apply same_value_zero_string in Hk. simpl in Hk0. now subst.
Qed.

End Containers.

(** ** Running the effects: inversion lemmas *)

Section Effects.
Context {num : Type} `{Engine num}.

Lemma bind_inr {A B} (m : Exn num A) (f : A -> Exn num B) (b : B) :
  bind m f = inr b -> exists a, m = inr a /\ f a = inr b.
Proof. destruct m as [e|a]; simpl; [discriminate|]. intros Hf. now exists a. Qed.

Lemma eff_bind_inr {A B} (m : Eff num A) (f : A -> Eff num B) (b : B)
    (t : list (Call num)) :
  eff_bind m f = (inr b, t) ->
  exists a t1 t2, m = (inr a, t1) /\ f a = (inr b, t2) /\ t = (t1 ++ t2)%list.
Proof.
  destruct m as [[e|a] t1]; simpl; [discriminate|].
  destruct (f a) as [r t2] eqn:Hf. intros [= -> <-].
  now exists a, t1, t2.
Qed.

Lemma pure_inr {A} (m : Exn num A) (a : A) (t : list (Call num)) :
  pure m = (inr a, t) -> m = inr a /\ t = [].
Proof. unfold pure. now intros [= -> <-]. Qed.

(** The request body is read only when it is truthy. *)
Lemma truthy_member_body (body : JsVal num) (k : string) :
  truthy (member (js_or body (JObj [])) k) = true -> js_or body (JObj []) = body.
Proof.
  unfold js_or. destruct (truthy body); [reflexivity|]. discriminate.
Qed.

End Effects.

Ltac eff_step H :=
  let a := fresh "x" in
  let t1 := fresh "t" in
  let t2 := fresh "t" in
  let H1 := fresh "Hstep" in
  let Ht := fresh "Ht" in
  apply eff_bind_inr in H as (a & t1 & t2 & H1 & H & Ht).

Ltac exn_step H :=
  let a := fresh "y" in
  let H1 := fresh "Hexn" in
  apply bind_inr in H as (a & H1 & H).

(** ** The initiation handler: what a run comes to *)

Section Initiation.
Context {num : Type} `{Engine num}.

Lemma V1_getAccessToken_calls (w : World num) (tok : JsVal num) (t : list (Call num)) :
  V1.getAccessToken w = (inr tok, t) -> exists cfg, t = [Get V1.oauth_url cfg].
Proof.
  unfold V1.getAccessToken. cbv zeta.
  destruct (negb _ || negb _); [discriminate|].
  intros Hg. eff_step Hg. eff_step Hg.
  apply pure_inr in Hstep as [_ ->]. apply pure_inr in Hg as [_ ->].
  unfold await_get in Hstep0. injection Hstep0 as _ <-.
  subst. simpl. eauto.
Qed.

Lemma V2_getAccessToken_calls (w : World num) (tok : JsVal num) (t : list (Call num)) :
  V2.getAccessToken w = (inr tok, t) -> exists cfg, t = [Get V2.oauth_url cfg].
Proof.
  unfold V2.getAccessToken. cbv zeta.
  destruct (negb _ || negb _); [discriminate|].
  intros Hg. eff_step Hg. eff_step Hg.
  apply pure_inr in Hstep as [_ ->]. apply pure_inr in Hg as [_ ->].
  unfold await_get in Hstep0. injection Hstep0 as _ <-.
  subst. simpl. eauto.
Qed.

(** A run of the [try] body that does not throw made the two calls, got a
    reply [data] from the gateway, answered 200 and stored at most one
    record. *)
Lemma V1_attempt_success (w : World num) (m : Ledger num)
    (bookingId phone amount ar td sc pk cb tx : JsVal num)
    (res : Response num) (m' : Ledger num) (calls : list (Call num)) :
  V1.stkpush_attempt w m bookingId phone amount ar td sc pk cb tx
    = (inr (res, m'), calls) ->
  exists data p a cfg1 payload cfg2,
    V1.normalizePhone phone = inr p /\ js_Number amount = inr a /\
    axios_post w V1.stk_url payload cfg2 = inr data /\
    calls = [Get V1.oauth_url cfg1; Post V1.stk_url payload cfg2] /\
    res = V1.respond 200
            (JObj (obj_assign [] ([("ok", JBool true); ("bookingId", bookingId)]
                                    ++ spread data)%list)) /\
    m' = V1_stored m bookingId p a data.
Proof.
  unfold V1.stkpush_attempt. cbv zeta. intros Ha.
  do 6 eff_step Ha.
  apply pure_inr in Hstep as [_ ->].
  apply V1_getAccessToken_calls in Hstep0 as [cfg1 ->].
  apply pure_inr in Hstep1 as [Hpayload ->].
  apply pure_inr in Hstep2 as [_ ->].
  unfold await_post in Hstep3. injection Hstep3 as Hpost <-.
  apply pure_inr in Hstep4 as [Hstore ->].
  apply pure_inr in Ha as [Hres ->].
  injection Hres as <- <-.
  do 3 exn_step Hpayload.
  exists x3, y1, y0, cfg1, x1. eexists.
  repeat split; try eassumption; [subst; reflexivity|].
  unfold V1_stored.
  destruct (truthy (opt_member x3 "CheckoutRequestID")).
  - rewrite Hexn1, Hexn0 in Hstore. simpl in Hstore. now injection Hstore as <-.
  - now injection Hstore as <-.
Qed.

Lemma V2_attempt_success (w : World num) (m : Ledger num)
    (bookingId phone amountKes sc pk cb : JsVal num)
    (res : Response num) (m' : Ledger num) (calls : list (Call num)) :
  V2.stkpush_attempt w m bookingId phone amountKes sc pk cb = (inr (res, m'), calls) ->
  exists data p a cfg1 payload cfg2,
    V2.normalizePhone phone = inr p /\ js_Number amountKes = inr a /\
    axios_post w V2.stk_url payload cfg2 = inr data /\
    calls = [Get V2.oauth_url cfg1; Post V2.stk_url payload cfg2] /\
    res = V2.respond 200 (JObj (obj_assign [] (("ok", JBool true) :: spread data))) /\
    m' = V2_stored w m bookingId p a data.
Proof.
  unfold V2.stkpush_attempt. cbv zeta. intros Ha.
  do 6 eff_step Ha.
  apply pure_inr in Hstep as [_ ->].
  apply V2_getAccessToken_calls in Hstep0 as [cfg1 ->].
  apply pure_inr in Hstep1 as [Hpayload ->].
  apply pure_inr in Hstep2 as [_ ->].
  unfold await_post in Hstep3. injection Hstep3 as Hpost <-.
  apply pure_inr in Hstep4 as [Hstore ->].
  apply pure_inr in Ha as [Hres ->].
  injection Hres as <- <-.
  do 3 exn_step Hpayload.
  exists x3, y1, y0, cfg1, x1. eexists.
  repeat split; try eassumption; [subst; reflexivity|].
  unfold V2_stored.
  destruct (truthy (opt_member x3 "CheckoutRequestID")).
  - rewrite Hexn1, Hexn0 in Hstore. simpl in Hstore. now injection Hstore as <-.
  - now injection Hstore as <-.
Qed.

(** The three ways the first variant's initiation handler ends: a request
    turned down before any call (400 or 500, an [error] alone), a caught
    exception (500), or a reply of the gateway passed on (200). *)
Lemma V1_post_stkpush_cases (w : World num) (m : Ledger num) (body : JsVal num) :
  (exists (code : Z) (msg : string),
      (code = 400%Z \/ code = 500%Z) /\
      V1.post_stkpush w m body
        = (V1.respond code (JObj [("error", JStr msg)]), m, []))
  \/ (exists details calls,
         V1.post_stkpush w m body
           = (V1.respond 500 (JObj [("ok", JBool false);
                                    ("error", JStr "STK push failed");
                                    ("details", details)]), m, calls))
  \/ (exists data p a cfg1 payload cfg2,
         let bookingId := V1.or_default (member body "bookingId") (JStr "TEST-BOOKING") in
         truthy (member body "phone") = true /\
         truthy (member body "amount") = true /\
         V1.normalizePhone (member body "phone") = inr p /\
         js_Number (member body "amount") = inr a /\
         axios_post w V1.stk_url payload cfg2 = inr data /\
         V1.post_stkpush w m body
           = (V1.respond 200
                (JObj (obj_assign [] ([("ok", JBool true); ("bookingId", bookingId)]
                                        ++ spread data)%list)),
              V1_stored m bookingId p a data,
              [Get V1.oauth_url cfg1; Post V1.stk_url payload cfg2])).
Proof.
  unfold V1.post_stkpush. cbv zeta.
  destruct (truthy (member (js_or body (JObj [])) "phone")) eqn:Hphone; simpl negb; cbv iota;
    [|left; exists 400%Z, "phone is required"; auto].
  destruct (truthy (member (js_or body (JObj [])) "amount")) eqn:Hamount; simpl negb; cbv iota;
    [|left; exists 400%Z, "amount is required"; auto].
  destruct (truthy (process_env w "MPESA_PASSKEY")); simpl negb; cbv iota;
    [|left; exists 500%Z, "Missing MPESA_PASSKEY"; auto].
  destruct (truthy (process_env w "MPESA_CALLBACK_URL")); simpl negb; cbv iota;
    [|left; exists 500%Z, "Missing MPESA_CALLBACK_URL"; auto].
  right.
  destruct (V1.stkpush_attempt _ _ _ _ _ _ _ _ _ _ _) as [[err|[res m']] calls] eqn:Hatt.
  - left. eauto.
  - right. apply V1_attempt_success in Hatt
      as (data & p & a & cfg1 & payload & cfg2 & Hp & Ha & Hpost & -> & -> & ->).
    pose proof (truthy_member_body body "phone" Hphone) as Hbody.
    rewrite Hbody in *.
    exists data, p, a, cfg1, payload, cfg2. cbv zeta. auto 10.
Qed.

Lemma V2_post_stkpush_cases (w : World num) (m : Ledger num) (body : JsVal num) :
  (exists (code : Z) (msg : string),
      (code = 400%Z \/ code = 500%Z) /\
      V2.post_stkpush w m body
        = (V2.respond code (JObj [("ok", JBool false); ("error", JStr msg)]), m, []))
  \/ (exists details calls,
         V2.post_stkpush w m body
           = (V2.respond 500 (JObj [("ok", JBool false);
                                    ("error", JStr "STK push failed");
                                    ("details", details)]), m, calls))
  \/ (exists data p a cfg1 payload cfg2,
         let bookingId := V2.or_default (member body "bookingId") (JStr "TEST") in
         truthy (member body "phone") = true /\
         truthy (member body "amountKes") = true /\
         V2.normalizePhone (member body "phone") = inr p /\
         js_Number (member body "amountKes") = inr a /\
         axios_post w V2.stk_url payload cfg2 = inr data /\
         V2.post_stkpush w m body
           = (V2.respond 200 (JObj (obj_assign [] (("ok", JBool true) :: spread data))),
              V2_stored w m bookingId p a data,
              [Get V2.oauth_url cfg1; Post V2.stk_url payload cfg2])).
Proof.
  unfold V2.post_stkpush. cbv zeta.
  destruct (truthy (member (js_or body (JObj [])) "phone")) eqn:Hphone; simpl negb; cbv iota;
    [|left; exists 400%Z, "phone required"; auto].
  destruct (truthy (member (js_or body (JObj [])) "amountKes")) eqn:Hamount;
    simpl negb; cbv iota;
    [|left; exists 400%Z, "amountKes required"; auto].
  destruct (truthy (process_env w "MPESA_PASSKEY")); simpl negb; cbv iota;
    [|left; exists 500%Z, "Missing MPESA_PASSKEY"; auto].
  destruct (truthy (process_env w "MPESA_CALLBACK_URL")); simpl negb; cbv iota;
    [|left; exists 500%Z, "Missing MPESA_CALLBACK_URL"; auto].
  right.
  destruct (V2.stkpush_attempt _ _ _ _ _ _ _ _) as [[err|[res m']] calls] eqn:Hatt.
  - left. eauto.
  - right. apply V2_attempt_success in Hatt
      as (data & p & a & cfg1 & payload & cfg2 & Hp & Ha & Hpost & -> & -> & ->).
    pose proof (truthy_member_body body "phone" Hphone) as Hbody.
    rewrite Hbody in *.
    exists data, p, a, cfg1, payload, cfg2. cbv zeta. auto 10.
Qed.

End Initiation.

(** ** Every reachable ledger is well formed *)

Section Invariant.
Context {num : Type} `{Engine num}.

Ltac in_fields := simpl; tauto.

Ltac all_in_fields F :=
  repeat (apply Forall_cons; [unfold F; in_fields|]); apply Forall_nil.

Ltac distinct_keys :=
  repeat (constructor; [simpl; intuition discriminate|]); constructor.

Lemma V1_pending_ok (bookingId : JsVal num) (p : string) (a : num) (data : JsVal num) :
  record_ok V1_fields (V1.pending bookingId p a data).
Proof.
  split; [unfold keys; simpl; distinct_keys|].
  intros x Hx. unfold keys in Hx. simpl in Hx. unfold V1_fields. in_fields.
Qed.

Lemma V2_pending_ok (bookingId : JsVal num) (p : string) (a : num) (created : string)
    (data : JsVal num) :
  record_ok V2_fields (V2.pending bookingId p a created data).
Proof.
  split; [unfold keys; simpl; distinct_keys|].
  intros x Hx. unfold keys in Hx. simpl in Hx. unfold V2_fields. in_fields.
Qed.

Lemma truthy_opt_member (v : JsVal num) (k : string) :
  truthy (opt_member v k) = true -> opt_member v k = member v k.
Proof. unfold opt_member. now destruct (nullish v). Qed.

Lemma V1_stored_ok (m : Ledger num) (bookingId : JsVal num) (p : string) (a : num)
    (data : JsVal num) :
  ledger_ok V1_fields m -> ledger_ok V1_fields (V1_stored m bookingId p a data).
Proof.
  intros Hm. unfold V1_stored.
  destruct (truthy (opt_member data "CheckoutRequestID")) eqn:Hid; [|assumption].
  apply ledger_ok_set; [assumption| |apply V1_pending_ok].
  now rewrite <- (truthy_opt_member _ _ Hid).
Qed.

Lemma V2_stored_ok (w : World num) (m : Ledger num) (bookingId : JsVal num) (p : string)
    (a : num) (data : JsVal num) :
  ledger_ok V2_fields m -> ledger_ok V2_fields (V2_stored w m bookingId p a data).
Proof.
  intros Hm. unfold V2_stored.
  destruct (truthy (opt_member data "CheckoutRequestID")) eqn:Hid; [|assumption].
  apply ledger_ok_set; [assumption| |apply V2_pending_ok].
  now rewrite <- (truthy_opt_member _ _ Hid).
Qed.

Lemma existing_ok (F : list string) (m : Ledger num) (k : JsVal num) :
  ledger_ok F m ->
  record_ok F match map_get m k with Some tx => tx | None => [] end.
Proof.
  intros Hm. destruct (map_get m k) eqn:Hg.
  - eapply ledger_ok_get; eassumption.
  - apply record_ok_empty.
Qed.

Lemma V1_applyCallbackResult_ok (m : Ledger num) (cb : V1.Extracted) (body : JsVal num) :
  ledger_ok V1_fields m -> ledger_ok V1_fields (V1.applyCallbackResult m cb body).
Proof.
  intros Hm. unfold V1.applyCallbackResult.
  destruct (truthy (V1.checkoutRequestId cb)) eqn:Hid; [|assumption].
  apply ledger_ok_set; [assumption|assumption|].
  apply record_ok_assign; [|now apply existing_ok].
  all_in_fields V1_fields.
Qed.

Lemma V2_applyCallbackResult_ok (w : World num) (m : Ledger num) (cb : V2.Extracted)
    (body : JsVal num) :
  ledger_ok V2_fields m -> ledger_ok V2_fields (V2.applyCallbackResult w m cb body).
Proof.
  intros Hm. unfold V2.applyCallbackResult.
  destruct (truthy (V2.checkoutRequestId cb)) eqn:Hid; [|assumption].
  apply ledger_ok_set; [assumption|assumption|].
  apply record_ok_assign; [|now apply existing_ok].
  all_in_fields V2_fields.
Qed.

Lemma V1_reachable_ok (m : Ledger num) : V1_reachable m -> ledger_ok V1_fields m.
Proof.
  induction 1 as [|w m body _ IH|m body _ IH|m id _ IH].
  - constructor.
  - destruct (V1_post_stkpush_cases w m body)
      as [(code & msg & _ & ->)|[(details & calls & ->)
         |(data & p & a & cfg1 & payload & cfg2 & _ & _ & _ & _ & _ & ->)]];
      simpl; auto using V1_stored_ok.
  - unfold V1.post_callback. destruct (V1.extract body); simpl;
      auto using V1_applyCallbackResult_ok.
  - unfold V1.get_status. now destruct (map_get m (JStr id)).
Qed.

Lemma V2_reachable_ok (m : Ledger num) : V2_reachable m -> ledger_ok V2_fields m.
Proof.
  induction 1 as [|w m body _ IH|w m body _ IH|m id _ IH].
  - constructor.
  - destruct (V2_post_stkpush_cases w m body)
      as [(code & msg & _ & ->)|[(details & calls & ->)
         |(data & p & a & cfg1 & payload & cfg2 & _ & _ & _ & _ & _ & ->)]];
      simpl; auto using V2_stored_ok.
  - unfold V2.post_callback. destruct (V2.extract body); simpl;
      auto using V2_applyCallbackResult_ok.
  - unfold V2.get_status. now destruct (map_get m (JStr id)).
Qed.

End Invariant.

(** ** The callback handler *)

Section Callback.
Context {num : Type} `{Engine num}.

Lemma js_or_undefined (v : JsVal num) : js_or (js_or v JUndefined) JNull = js_or v JNull.
Proof. unfold js_or. destruct (truthy v) eqn:Hv; [now rewrite Hv|reflexivity]. Qed.

Lemma js_coalesce_undefined (v : JsVal num) :
  js_coalesce (js_coalesce v JUndefined) JNull = js_coalesce v JNull.
Proof. unfold js_coalesce. destruct (nullish v) eqn:Hv; [reflexivity|now rewrite Hv]. Qed.

Lemma is_zero_number (v : JsVal num) :
  is_zero v = true <-> exists n, v = JNum n /\ num_is_zero n = true.
Proof.
  split.
  - destruct v; simpl; try discriminate. eauto.
  - now intros (n & -> & Hn).
Qed.

(** The record a callback leaves under an identifier that has one. *)
Lemma V1_apply_present (m : Ledger num) (cb : V1.Extracted) (body : JsVal num)
    (id : string) (tx : Obj num) :
  V1_reachable m -> V1.checkoutRequestId cb = JStr id -> map_get m (JStr id) = Some tx ->
  map_get (V1.applyCallbackResult m cb body) (JStr id)
  = Some (obj_assign tx
            [("status", status_of (V1.resultCode cb));
             ("receipt", js_or (js_or (V1.receipt cb) (prop tx "receipt")) JNull);
             ("amount", js_coalesce (js_coalesce (V1.amount cb) (prop tx "amount")) JNull);
             ("phone", js_or (js_or (V1.phone cb) (prop tx "phone")) JNull);
             ("resultCode", V1.resultCode cb);
             ("resultDesc", V1.resultDesc cb);
             ("rawCallback", body)]).
Proof.
  intros Hm Hid Hget. unfold V1.applyCallbackResult. rewrite Hid.
  rewrite (ledger_ok_string_key _ _ _ _ (V1_reachable_ok m Hm) Hget), Hget.
  now apply map_get_set_present with (tx := tx).
Qed.

Lemma V2_apply_present (w : World num) (m : Ledger num) (cb : V2.Extracted)
    (body : JsVal num) (id : string) (tx : Obj num) :
  V2_reachable m -> V2.checkoutRequestId cb = JStr id -> map_get m (JStr id) = Some tx ->
  map_get (V2.applyCallbackResult w m cb body) (JStr id)
  = Some (obj_assign tx
            [("status", status_of (V2.resultCode cb));
             ("resultCode", V2.resultCode cb);
             ("resultDesc", V2.resultDesc cb);
             ("receipt", js_or (V2.receipt cb) JNull);
             ("paidAmount", js_coalesce (V2.paidAmount cb) JNull);
             ("paidPhone", js_or (V2.paidPhone cb) JNull);
             ("callbackAt", JStr (isoString (clock w)));
             ("rawCallback", body)]).
Proof.
  intros Hm Hid Hget. unfold V2.applyCallbackResult. rewrite Hid.
  rewrite (ledger_ok_string_key _ _ _ _ (V2_reachable_ok m Hm) Hget), Hget.
  now apply map_get_set_present with (tx := tx).
Qed.

(** A callback keeps the ledger reachable. *)
Lemma V1_apply_reachable (m : Ledger num) (cb : V1.Extracted) (body : JsVal num) :
  V1_reachable m -> V1.extract body = inr cb ->
  V1_reachable (V1.applyCallbackResult m cb body).
Proof.
  intros Hm He. pose proof (V1_after_callback m body Hm) as Hr.
  unfold V1.post_callback in Hr. now rewrite He in Hr.
Qed.

Lemma V2_apply_reachable (w : World num) (m : Ledger num) (cb : V2.Extracted)
    (body : JsVal num) :
  V2_reachable m -> V2.extract body = inr cb ->
  V2_reachable (V2.applyCallbackResult w m cb body).
Proof.
  intros Hm He. pose proof (V2_after_callback w m body Hm) as Hr.
  unfold V2.post_callback in Hr. now rewrite He in Hr.
Qed.

Ltac fields_of := unfold obj_assign; simpl fold_left; cbn [fst snd]; rewrite ?prop_set.

Ltac fields := fields_of; simpl.

Ltac other_key Hk :=
  repeat match goal with
    | |- context [String.eqb ?a ?k] =>
        destruct (String.eqb_spec a k) as [<-|?]; [exfalso; apply Hk; simpl; tauto|]
    end.

(** C1, as the code has it: a callback that carries an identifier with no
    record is not dropped.  The handler appends a record built from the
    callback alone, so the ledger grows by one; the ledger stays as it was
    only when the envelope carries no truthy identifier or the extraction
    throws.  The accept response is returned in every case. *)
Theorem callback_for_unknown_identifier :
  (forall (m : Ledger num) (body : JsVal num),
      fst (V1.post_callback m body) = V1.accepted /\
      (forall e, V1.extract body = inl e -> snd (V1.post_callback m body) = m) /\
      (forall cb, V1.extract body = inr cb ->
         truthy (V1.checkoutRequestId cb) = false -> snd (V1.post_callback m body) = m) /\
      (forall cb, V1.extract body = inr cb ->
         truthy (V1.checkoutRequestId cb) = true ->
         map_get m (V1.checkoutRequestId cb) = None ->
         snd (V1.post_callback m body)
         = (m ++ [(V1.checkoutRequestId cb,
                   [("status", status_of (V1.resultCode cb));
                    ("receipt", js_or (V1.receipt cb) JNull);
                    ("amount", js_coalesce (V1.amount cb) JNull);
                    ("phone", js_or (V1.phone cb) JNull);
                    ("resultCode", V1.resultCode cb);
                    ("resultDesc", V1.resultDesc cb);
                    ("rawCallback", body)])])%list /\
         map_size (snd (V1.post_callback m body)) = S (map_size m)))
  /\
  (forall (w : World num) (m : Ledger num) (body : JsVal num),
      fst (V2.post_callback w m body) = V2.accepted /\
      (forall e, V2.extract body = inl e -> snd (V2.post_callback w m body) = m) /\
      (forall cb, V2.extract body = inr cb ->
         truthy (V2.checkoutRequestId cb) = false ->
         snd (V2.post_callback w m body) = m) /\
      (forall cb, V2.extract body = inr cb ->
         truthy (V2.checkoutRequestId cb) = true ->
         map_get m (V2.checkoutRequestId cb) = None ->
         snd (V2.post_callback w m body)
         = (m ++ [(V2.checkoutRequestId cb,
                   [("status", status_of (V2.resultCode cb));
                    ("resultCode", V2.resultCode cb);
                    ("resultDesc", V2.resultDesc cb);
                    ("receipt", js_or (V2.receipt cb) JNull);
                    ("paidAmount", js_coalesce (V2.paidAmount cb) JNull);
                    ("paidPhone", js_or (V2.paidPhone cb) JNull);
                    ("callbackAt", JStr (isoString (clock w)));
                    ("rawCallback", body)])])%list /\
         map_size (snd (V2.post_callback w m body)) = S (map_size m))).
Proof.
  split.
  - intros m body. unfold V1.post_callback.
    split; [|split; [|split]].
    + now destruct (V1.extract body).
    + now intros e ->.
    + intros cb -> Hid. simpl. unfold V1.applyCallbackResult. now rewrite Hid.
    + intros cb -> Hid Hget. simpl. unfold V1.applyCallbackResult.
      rewrite Hid, Hget, (map_set_absent _ _ _ Hget). simpl.
      rewrite !js_or_undefined, js_coalesce_undefined.
      split; [reflexivity|]. unfold map_size. rewrite length_app. simpl. lia.
  - intros w m body. unfold V2.post_callback.
    split; [|split; [|split]].
    + now destruct (V2.extract body).
    + now intros e ->.
    + intros cb -> Hid. simpl. unfold V2.applyCallbackResult. now rewrite Hid.
    + intros cb -> Hid Hget. simpl. unfold V2.applyCallbackResult.
      rewrite Hid, Hget, (map_set_absent _ _ _ Hget). simpl.
      split; [reflexivity|]. unfold map_size. rewrite length_app. simpl. lia.
Qed.

(** C2, as the code has it.  In the first variant [receipt] and [phone]
    take the callback's value when it is truthy, and [amount] when it is
    neither null nor undefined; otherwise the stored value is kept when it is
    itself truthy (not nullish for [amount]) and the field becomes null when
    it is not.  In the second variant a callback never touches [phone] or
    [amountKes]: it writes [receipt], [paidAmount] and [paidPhone], each null
    when the callback reports nothing.  In both, [resultCode], [resultDesc]
    and [rawCallback] are overwritten by every callback, and the fields that
    a callback does not write are kept. *)
Theorem callback_field_updates :
  (forall (m : Ledger num) (cb : V1.Extracted) (body : JsVal num) (id : string)
          (tx : Obj num),
      V1_reachable m -> V1.checkoutRequestId cb = JStr id ->
      map_get m (JStr id) = Some tx ->
      exists tx',
        map_get (V1.applyCallbackResult m cb body) (JStr id) = Some tx' /\
        prop tx' "receipt"
        = (if truthy (V1.receipt cb) then V1.receipt cb
           else if truthy (prop tx "receipt") then prop tx "receipt" else JNull) /\
        prop tx' "amount"
        = (if nullish (V1.amount cb)
           then if nullish (prop tx "amount") then JNull else prop tx "amount"
           else V1.amount cb) /\
        prop tx' "phone"
        = (if truthy (V1.phone cb) then V1.phone cb
           else if truthy (prop tx "phone") then prop tx "phone" else JNull) /\
        prop tx' "resultCode" = V1.resultCode cb /\
        prop tx' "resultDesc" = V1.resultDesc cb /\
        prop tx' "rawCallback" = body /\
        (forall k,
            ~ In k ["status"; "receipt"; "amount"; "phone"; "resultCode"; "resultDesc";
                    "rawCallback"] ->
            prop tx' k = prop tx k))
  /\
  (forall (w : World num) (m : Ledger num) (cb : V2.Extracted) (body : JsVal num)
          (id : string) (tx : Obj num),
      V2_reachable m -> V2.checkoutRequestId cb = JStr id ->
      map_get m (JStr id) = Some tx ->
      exists tx',
        map_get (V2.applyCallbackResult w m cb body) (JStr id) = Some tx' /\
        prop tx' "receipt" = (if truthy (V2.receipt cb) then V2.receipt cb else JNull) /\
        prop tx' "paidAmount"
        = (if nullish (V2.paidAmount cb) then JNull else V2.paidAmount cb) /\
        prop tx' "paidPhone"
        = (if truthy (V2.paidPhone cb) then V2.paidPhone cb else JNull) /\
        prop tx' "phone" = prop tx "phone" /\
        prop tx' "amountKes" = prop tx "amountKes" /\
        prop tx' "resultCode" = V2.resultCode cb /\
        prop tx' "resultDesc" = V2.resultDesc cb /\
        prop tx' "rawCallback" = body /\
        (forall k,
            ~ In k ["status"; "resultCode"; "resultDesc"; "receipt"; "paidAmount";
                    "paidPhone"; "callbackAt"; "rawCallback"] ->
            prop tx' k = prop tx k)).
Proof.
  split.
  - intros m cb body id tx Hm Hid Hget.
    eexists. split; [now apply V1_apply_present with (id := id) (tx := tx)|].
    repeat split; fields; try reflexivity.
    + unfold js_or. destruct (truthy (V1.receipt cb)) eqn:Hr; [now rewrite Hr|].
      now destruct (truthy (prop tx "receipt")).
    + unfold js_coalesce. destruct (nullish (V1.amount cb)) eqn:Ha; [|now rewrite Ha].
      now destruct (nullish (prop tx "amount")).
    + unfold js_or. destruct (truthy (V1.phone cb)) eqn:Hp; [now rewrite Hp|].
      now destruct (truthy (prop tx "phone")).
    + intros k Hk. fields_of. now other_key Hk.
  - intros w m cb body id tx Hm Hid Hget.
    eexists. split; [now apply V2_apply_present with (id := id) (tx := tx)|].
    repeat split; fields; try reflexivity.
    intros k Hk. fields_of. now other_key Hk.
Qed.

(** C3: after a callback for an identifier that has a record, the record's
    status is SUCCESS exactly when the callback's result code is the number
    zero, and FAILED in every other case, an absent result code and a result
    code that is not a number among them. *)
Theorem callback_status_of_result_code :
  (forall (m : Ledger num) (cb : V1.Extracted) (body : JsVal num) (id : string)
          (tx : Obj num),
      V1_reachable m -> V1.checkoutRequestId cb = JStr id ->
      map_get m (JStr id) = Some tx ->
      exists tx',
        map_get (V1.applyCallbackResult m cb body) (JStr id) = Some tx' /\
        (prop tx' "status" = JStr "SUCCESS"
         <-> exists n, V1.resultCode cb = JNum n /\ num_is_zero n = true) /\
        ((forall n, V1.resultCode cb = JNum n -> num_is_zero n = false) ->
         prop tx' "status" = JStr "FAILED"))
  /\
  (forall (w : World num) (m : Ledger num) (cb : V2.Extracted) (body : JsVal num)
          (id : string) (tx : Obj num),
      V2_reachable m -> V2.checkoutRequestId cb = JStr id ->
      map_get m (JStr id) = Some tx ->
      exists tx',
        map_get (V2.applyCallbackResult w m cb body) (JStr id) = Some tx' /\
        (prop tx' "status" = JStr "SUCCESS"
         <-> exists n, V2.resultCode cb = JNum n /\ num_is_zero n = true) /\
        ((forall n, V2.resultCode cb = JNum n -> num_is_zero n = false) ->
         prop tx' "status" = JStr "FAILED")).
Proof.
  assert (Hstatus : forall rc : JsVal num,
             (status_of rc = JStr "SUCCESS"
              <-> exists n, rc = JNum n /\ num_is_zero n = true) /\
             ((forall n, rc = JNum n -> num_is_zero n = false) ->
              status_of rc = JStr "FAILED")).
  { intros rc. unfold status_of. rewrite <- is_zero_number. split.
    - destruct (is_zero rc); split; intros; congruence.
    - intros Hn. destruct rc; simpl; try reflexivity. now rewrite (Hn n). }
  split.
  - intros m cb body id tx Hm Hid Hget.
    eexists. split; [now apply V1_apply_present with (id := id) (tx := tx)|].
    fields. apply Hstatus.
  - intros w m cb body id tx Hm Hid Hget.
    eexists. split; [now apply V2_apply_present with (id := id) (tx := tx)|].
    fields. apply Hstatus.
Qed.

Lemma status_of_terminal (rc : JsVal num) :
  status_of rc = JStr "SUCCESS" \/ status_of rc = JStr "FAILED".
Proof. unfold status_of. destruct (is_zero rc); auto. Qed.

(** C4: two callbacks in a row for an identifier that has a record.  After
    the first the record is in a terminal state; after the second its
    status, result code and result description are the second callback's,
    whatever the first had set: the last write wins. *)
Theorem second_callback_overwrites_first :
  (forall (m : Ledger num) (body1 body2 : JsVal num) (cb1 cb2 : V1.Extracted)
          (id : string) (tx : Obj num),
      V1_reachable m -> map_get m (JStr id) = Some tx ->
      V1.extract body1 = inr cb1 -> V1.checkoutRequestId cb1 = JStr id ->
      V1.extract body2 = inr cb2 -> V1.checkoutRequestId cb2 = JStr id ->
      exists tx1 tx2,
        map_get (snd (V1.post_callback m body1)) (JStr id) = Some tx1 /\
        (prop tx1 "status" = JStr "SUCCESS" \/ prop tx1 "status" = JStr "FAILED") /\
        map_get (snd (V1.post_callback (snd (V1.post_callback m body1)) body2)) (JStr id)
        = Some tx2 /\
        prop tx2 "status" = status_of (V1.resultCode cb2) /\
        prop tx2 "resultCode" = V1.resultCode cb2 /\
        prop tx2 "resultDesc" = V1.resultDesc cb2)
  /\
  (forall (w1 w2 : World num) (m : Ledger num) (body1 body2 : JsVal num)
          (cb1 cb2 : V2.Extracted) (id : string) (tx : Obj num),
      V2_reachable m -> map_get m (JStr id) = Some tx ->
      V2.extract body1 = inr cb1 -> V2.checkoutRequestId cb1 = JStr id ->
      V2.extract body2 = inr cb2 -> V2.checkoutRequestId cb2 = JStr id ->
      exists tx1 tx2,
        map_get (snd (V2.post_callback w1 m body1)) (JStr id) = Some tx1 /\
        (prop tx1 "status" = JStr "SUCCESS" \/ prop tx1 "status" = JStr "FAILED") /\
        map_get (snd (V2.post_callback w2 (snd (V2.post_callback w1 m body1)) body2))
          (JStr id)
        = Some tx2 /\
        prop tx2 "status" = status_of (V2.resultCode cb2) /\
        prop tx2 "resultCode" = V2.resultCode cb2 /\
        prop tx2 "resultDesc" = V2.resultDesc cb2).
Proof.
  split.
  - intros m body1 body2 cb1 cb2 id tx Hm Hget He1 Hid1 He2 Hid2.
    pose proof (V1_apply_present m cb1 body1 id tx Hm Hid1 Hget) as Hget1.
    pose proof (V1_apply_reachable m cb1 body1 Hm He1) as Hm1.
    pose proof (V1_apply_present _ cb2 body2 id _ Hm1 Hid2 Hget1) as Hget2.
    unfold V1.post_callback. rewrite He1. simpl snd. rewrite He2. simpl snd.
    eexists. eexists.
    split; [exact Hget1|]. split; [fields; apply status_of_terminal|].
    split; [exact Hget2|]. now fields.
  - intros w1 w2 m body1 body2 cb1 cb2 id tx Hm Hget He1 Hid1 He2 Hid2.
    pose proof (V2_apply_present w1 m cb1 body1 id tx Hm Hid1 Hget) as Hget1.
    pose proof (V2_apply_reachable w1 m cb1 body1 Hm He1) as Hm1.
    pose proof (V2_apply_present w2 _ cb2 body2 id _ Hm1 Hid2 Hget1) as Hget2.
    unfold V2.post_callback. rewrite He1. simpl snd. rewrite He2. simpl snd.
    eexists. eexists.
    split; [exact Hget1|]. split; [fields; apply status_of_terminal|].
    split; [exact Hget2|]. now fields.
Qed.

(** Whatever value the handler is given as the body, and whatever happens
    inside it (an envelope that makes the extraction throw, an identifier
    with no record), the handler answers 200 with
    [{ResultCode: 0, ResultDesc: "Accepted"}]. *)
Theorem callback_always_accepted :
  (forall (m : Ledger num) (body : JsVal num),
      fst (V1.post_callback m body)
      = {| statusCode := 200;
           jsonBody := JObj [("ResultCode", JNum (num_of_Z 0));
                             ("ResultDesc", JStr "Accepted")] |})
  /\
  (forall (w : World num) (m : Ledger num) (body : JsVal num),
      fst (V2.post_callback w m body)
      = {| statusCode := 200;
           jsonBody := JObj [("ResultCode", JNum (num_of_Z 0));
                             ("ResultDesc", JStr "Accepted")] |}).
Proof.
  split.
  - intros m body. unfold V1.post_callback.
    destruct (V1.extract body) as [err|cb]; reflexivity.
  - intros w m body. unfold V2.post_callback.
    destruct (V2.extract body) as [err|cb]; reflexivity.
Qed.

End Callback.

(** ** The initiation handler and the status poll *)

Section InitiationAndStatus.
Context {num : Type} `{Engine num}.

Lemma same_value_zero_string_refl (id : string) :
  same_value_zero (JStr id : JsVal num) (JStr id) = true.
Proof. simpl. apply String.eqb_refl. Qed.

(** A run that answers 200 is a run that passed a reply of the gateway on. *)
Lemma V1_post_stkpush_200 (w : World num) (m : Ledger num) (body : JsVal num)
    (res : Response num) (m' : Ledger num) (calls : list (Call num)) :
  V1.post_stkpush w m body = (res, m', calls) -> statusCode res = 200%Z ->
  exists data p a cfg1 payload cfg2,
    V1.normalizePhone (member body "phone") = inr p /\
    js_Number (member body "amount") = inr a /\
    axios_post w V1.stk_url payload cfg2 = inr data /\
    calls = [Get V1.oauth_url cfg1; Post V1.stk_url payload cfg2] /\
    res = V1.respond 200
            (JObj (obj_assign []
                     ([("ok", JBool true);
                       ("bookingId",
                        V1.or_default (member body "bookingId") (JStr "TEST-BOOKING"))]
                        ++ spread data)%list)) /\
    m' = V1_stored m (V1.or_default (member body "bookingId") (JStr "TEST-BOOKING"))
           p a data.
Proof.
  intros Hrun Hcode.
  destruct (V1_post_stkpush_cases w m body)
    as [(code & msg & [-> | ->] & Hc)|[(details & cs & Hc)
       |(data & p & a & cfg1 & payload & cfg2 & _ & _ & Hp & Ha & Hpost & Hc)]];
    rewrite Hc in Hrun; injection Hrun as <- <- <-; try discriminate.
  exists data, p, a, cfg1, payload, cfg2. auto 10.
Qed.

Lemma V2_post_stkpush_200 (w : World num) (m : Ledger num) (body : JsVal num)
    (res : Response num) (m' : Ledger num) (calls : list (Call num)) :
  V2.post_stkpush w m body = (res, m', calls) -> statusCode res = 200%Z ->
  exists data p a cfg1 payload cfg2,
    V2.normalizePhone (member body "phone") = inr p /\
    js_Number (member body "amountKes") = inr a /\
    axios_post w V2.stk_url payload cfg2 = inr data /\
    calls = [Get V2.oauth_url cfg1; Post V2.stk_url payload cfg2] /\
    res = V2.respond 200 (JObj (obj_assign [] (("ok", JBool true) :: spread data))) /\
    m' = V2_stored w m (V2.or_default (member body "bookingId") (JStr "TEST")) p a data.
Proof.
  intros Hrun Hcode.
  destruct (V2_post_stkpush_cases w m body)
    as [(code & msg & [-> | ->] & Hc)|[(details & cs & Hc)
       |(data & p & a & cfg1 & payload & cfg2 & _ & _ & Hp & Ha & Hpost & Hc)]];
    rewrite Hc in Hrun; injection Hrun as <- <- <-; try discriminate.
  exists data, p, a, cfg1, payload, cfg2. auto 10.
Qed.

(** C6: when the initiation handler passes on a reply that carries a
    request identifier, the ledger holds under that identifier a record
    whose status is PENDING and whose booking reference, normalized phone,
    amount and raw reply are the caller's and the gateway's as they were,
    and the status poll returns that record. *)
Theorem pending_record_after_initiation :
  (forall (w : World num) (m : Ledger num) (body : JsVal num) (res : Response num)
          (m' : Ledger num) (calls : list (Call num)),
      V1.post_stkpush w m body = (res, m', calls) -> statusCode res = 200%Z ->
      exists data p a payload cfg,
        In (Post V1.stk_url payload cfg) calls /\
        axios_post w V1.stk_url payload cfg = inr data /\
        V1.normalizePhone (member body "phone") = inr p /\
        js_Number (member body "amount") = inr a /\
        forall id, member data "CheckoutRequestID" = JStr id -> id <> "" ->
          let bookingId := V1.or_default (member body "bookingId") (JStr "TEST-BOOKING") in
          map_get m' (JStr id) = Some (V1.pending bookingId p a data) /\
          V1.get_status m' id
          = (V1.respond 200
               (JObj [("ok", JBool true);
                      ("checkoutRequestId", JStr id);
                      ("status", JStr "PENDING");
                      ("bookingId", bookingId);
                      ("phone", JStr p);
                      ("amount", JNum a);
                      ("receipt", JNull);
                      ("raw", data)]), m'))
  /\
  (forall (w : World num) (m : Ledger num) (body : JsVal num) (res : Response num)
          (m' : Ledger num) (calls : list (Call num)),
      V2.post_stkpush w m body = (res, m', calls) -> statusCode res = 200%Z ->
      exists data p a payload cfg,
        In (Post V2.stk_url payload cfg) calls /\
        axios_post w V2.stk_url payload cfg = inr data /\
        V2.normalizePhone (member body "phone") = inr p /\
        js_Number (member body "amountKes") = inr a /\
        forall id, member data "CheckoutRequestID" = JStr id -> id <> "" ->
          let bookingId := V2.or_default (member body "bookingId") (JStr "TEST") in
          map_get m' (JStr id)
          = Some (V2.pending bookingId p a (isoString (clock w)) data) /\
          V2.get_status m' id
          = (V2.respond 200
               (JObj [("ok", JBool true);
                      ("checkoutRequestId", JStr id);
                      ("status", JStr "PENDING");
                      ("bookingId", bookingId);
                      ("phone", JStr p);
                      ("amountKes", JNum a);
                      ("createdAt", JStr (isoString (clock w)));
                      ("raw", data)]), m')).
Proof.
  split.
  - intros w m body res m' calls Hrun Hcode.
    destruct (V1_post_stkpush_200 w m body res m' calls Hrun Hcode)
      as (data & p & a & cfg1 & payload & cfg2 & Hp & Ha & Hpost & -> & -> & ->).
    exists data, p, a, payload, cfg2.
    do 4 (split; [simpl; auto|]).
    intros id Hid Hne bookingId.
    assert (Hget : map_get (V1_stored m bookingId p a data) (JStr id)
                   = Some (V1.pending bookingId p a data)).
    { unfold V1_stored, opt_member.
      destruct data; try discriminate. simpl nullish. cbv iota.
      rewrite Hid. simpl truthy.
      destruct (String.eqb_spec id "") as [|_]; [contradiction|]. simpl negb. cbv iota.
      apply map_get_set_same, same_value_zero_string_refl. }
    split; [exact Hget|].
    unfold V1.get_status. fold bookingId. now rewrite Hget.
  - intros w m body res m' calls Hrun Hcode.
    destruct (V2_post_stkpush_200 w m body res m' calls Hrun Hcode)
      as (data & p & a & cfg1 & payload & cfg2 & Hp & Ha & Hpost & -> & -> & ->).
    exists data, p, a, payload, cfg2.
    do 4 (split; [simpl; auto|]).
    intros id Hid Hne bookingId.
    assert (Hget : map_get (V2_stored w m bookingId p a data) (JStr id)
                   = Some (V2.pending bookingId p a (isoString (clock w)) data)).
    { unfold V2_stored, opt_member.
      destruct data; try discriminate. simpl nullish. cbv iota.
      rewrite Hid. simpl truthy.
      destruct (String.eqb_spec id "") as [|_]; [contradiction|]. simpl negb. cbv iota.
      apply map_get_set_same, same_value_zero_string_refl. }
    split; [exact Hget|].
    unfold V2.get_status. fold bookingId. now rewrite Hget.
Qed.

(** C7, as the code has it: a request is turned down on a phone or an
    amount that is absent or falsy (400, an [error] message, before any
    configuration is read); with both truthy, a missing passkey gives 500
    with [Missing MPESA_PASSKEY] and, the passkey being there, a missing
    callback URL gives 500 with [Missing MPESA_CALLBACK_URL].  In each of
    these cases the ledger is untouched and no call is made. *)
Theorem initiation_is_validated :
  (forall (w : World num) (m : Ledger num) (body : JsVal num),
      let phone := member (js_or body (JObj [])) "phone" in
      let amount := member (js_or body (JObj [])) "amount" in
      (truthy phone = false ->
       V1.post_stkpush w m body
       = (V1.respond 400 (JObj [("error", JStr "phone is required")]), m, [])) /\
      (truthy amount = false ->
       exists msg,
         V1.post_stkpush w m body = (V1.respond 400 (JObj [("error", JStr msg)]), m, [])) /\
      (truthy phone = true -> truthy amount = false ->
       V1.post_stkpush w m body
       = (V1.respond 400 (JObj [("error", JStr "amount is required")]), m, [])) /\
      (truthy phone = true -> truthy amount = true ->
       truthy (process_env w "MPESA_PASSKEY") = false ->
       V1.post_stkpush w m body
       = (V1.respond 500 (JObj [("error", JStr "Missing MPESA_PASSKEY")]), m, [])) /\
      (truthy phone = true -> truthy amount = true ->
       truthy (process_env w "MPESA_PASSKEY") = true ->
       truthy (process_env w "MPESA_CALLBACK_URL") = false ->
       V1.post_stkpush w m body
       = (V1.respond 500 (JObj [("error", JStr "Missing MPESA_CALLBACK_URL")]), m, [])))
  /\
  (forall (w : World num) (m : Ledger num) (body : JsVal num),
      let phone := member (js_or body (JObj [])) "phone" in
      let amountKes := member (js_or body (JObj [])) "amountKes" in
      (truthy phone = false ->
       V2.post_stkpush w m body
       = (V2.respond 400 (JObj [("ok", JBool false); ("error", JStr "phone required")]),
          m, [])) /\
      (truthy amountKes = false ->
       exists msg,
         V2.post_stkpush w m body
         = (V2.respond 400 (JObj [("ok", JBool false); ("error", JStr msg)]), m, [])) /\
      (truthy phone = true -> truthy amountKes = false ->
       V2.post_stkpush w m body
       = (V2.respond 400 (JObj [("ok", JBool false); ("error", JStr "amountKes required")]),
          m, [])) /\
      (truthy phone = true -> truthy amountKes = true ->
       truthy (process_env w "MPESA_PASSKEY") = false ->
       V2.post_stkpush w m body
       = (V2.respond 500 (JObj [("ok", JBool false);
                                ("error", JStr "Missing MPESA_PASSKEY")]), m, [])) /\
      (truthy phone = true -> truthy amountKes = true ->
       truthy (process_env w "MPESA_PASSKEY") = true ->
       truthy (process_env w "MPESA_CALLBACK_URL") = false ->
       V2.post_stkpush w m body
       = (V2.respond 500 (JObj [("ok", JBool false);
                                ("error", JStr "Missing MPESA_CALLBACK_URL")]), m, []))).
Proof.
  split.
  - intros w m body phone amount. subst phone amount.
    unfold V1.post_stkpush. cbv zeta.
    split; [|split; [|split; [|split]]].
    + now intros ->.
    + intros ->.
      destruct (truthy (member (js_or body (JObj [])) "phone")); simpl; eauto.
    + now intros -> ->.
    + now intros -> -> ->.
    + now intros -> -> -> ->.
  - intros w m body phone amountKes. subst phone amountKes.
    unfold V2.post_stkpush. cbv zeta.
    split; [|split; [|split; [|split]]].
    + now intros ->.
    + intros ->.
      destruct (truthy (member (js_or body (JObj [])) "phone")); simpl; eauto.
    + now intros -> ->.
    + now intros -> -> ->.
    + now intros -> -> -> ->.
Qed.

Lemma In_obj_get (o : Obj num) (k : string) :
  In k (keys o) -> exists v, obj_get o k = Some v.
Proof.
  induction o as [|[k0 v0] o IH]; simpl; [intros []|].
  destruct (String.eqb_spec k0 k) as [->|Hne]; [eauto|].
  intros [Hk|Hk]; [contradiction|auto].
Qed.

Lemma obj_get_last_none (o : Obj num) (k : string) :
  obj_get o k = None -> obj_get_last o k = None.
Proof.
  intros Hg. apply obj_get_last_absent. intros Hk.
  apply In_obj_get in Hk as [v Hv]. congruence.
Qed.

(** [{ p1, ..., pn, ...o }]: a property of [o] overrides a [pi] of the same
    name. *)
Lemma prop_literal_spread (ps o : Obj num) (k : string) :
  prop (obj_assign [] (ps ++ o)%list) k =
  match obj_get_last o k with
  | Some v => v
  | None => match obj_get_last ps k with Some v => v | None => JUndefined end
  end.
Proof.
  unfold prop. rewrite obj_get_assign, obj_get_last_app. simpl.
  destruct (obj_get_last o k); [reflexivity|]. now destruct (obj_get_last ps k).
Qed.

(** What the status poll sends for a well-formed record that has no [ok]
    and no [checkoutRequestId] of its own. *)
Lemma status_body (F : list string) (tx : Obj num) (id : string) :
  record_ok F tx -> ~ In "ok" F -> ~ In "checkoutRequestId" F ->
  let o := obj_assign [] ([("ok", JBool true); ("checkoutRequestId", JStr id)] ++ tx)%list in
  prop o "ok" = JBool true /\
  prop o "checkoutRequestId" = JStr id /\
  forall k, In k (keys tx) -> prop o k = prop tx k.
Proof.
  intros [Hnd Hincl] Hok Hid o. subst o. rewrite !prop_literal_spread.
  rewrite (obj_get_last_absent tx "ok"), (obj_get_last_absent tx "checkoutRequestId")
    by (intros Hk; apply Hincl in Hk; contradiction).
  repeat split.
  intros k Hk. rewrite prop_literal_spread, (obj_get_last_NoDup tx k Hnd).
  unfold prop. apply In_obj_get in Hk as [v ->]. reflexivity.
Qed.

(** C9: the status poll answers 404 with [{ok: false, error: "Not found"}]
    for an identifier that has no record, and otherwise 200 with [ok: true],
    the identifier and every field of the record; in both cases it leaves
    the ledger as it was. *)
Theorem status_query_reads_the_ledger :
  (forall (m : Ledger num) (id : string),
      V1_reachable m ->
      snd (V1.get_status m id) = m /\
      (map_get m (JStr id) = None ->
       fst (V1.get_status m id)
       = {| statusCode := 404;
            jsonBody := JObj [("ok", JBool false); ("error", JStr "Not found")] |}) /\
      (forall tx, map_get m (JStr id) = Some tx ->
         statusCode (fst (V1.get_status m id)) = 200%Z /\
         member (jsonBody (fst (V1.get_status m id))) "ok" = JBool true /\
         member (jsonBody (fst (V1.get_status m id))) "checkoutRequestId" = JStr id /\
         forall k, In k (keys tx) ->
           member (jsonBody (fst (V1.get_status m id))) k = prop tx k))
  /\
  (forall (m : Ledger num) (id : string),
      V2_reachable m ->
      snd (V2.get_status m id) = m /\
      (map_get m (JStr id) = None ->
       fst (V2.get_status m id)
       = {| statusCode := 404;
            jsonBody := JObj [("ok", JBool false); ("error", JStr "Not found")] |}) /\
      (forall tx, map_get m (JStr id) = Some tx ->
         statusCode (fst (V2.get_status m id)) = 200%Z /\
         member (jsonBody (fst (V2.get_status m id))) "ok" = JBool true /\
         member (jsonBody (fst (V2.get_status m id))) "checkoutRequestId" = JStr id /\
         forall k, In k (keys tx) ->
           member (jsonBody (fst (V2.get_status m id))) k = prop tx k)).
Proof.
  split.
  - intros m id Hm. unfold V1.get_status.
    split; [now destruct (map_get m (JStr id))|].
    split; [now intros ->|].
    intros tx Hget. rewrite Hget. simpl. split; [reflexivity|].
    apply (status_body V1_fields).
    + eapply ledger_ok_get; [apply V1_reachable_ok|]; eassumption.
    + unfold V1_fields. simpl. intuition discriminate.
    + unfold V1_fields. simpl. intuition discriminate.
  - intros m id Hm. unfold V2.get_status.
    split; [now destruct (map_get m (JStr id))|].
    split; [now intros ->|].
    intros tx Hget. rewrite Hget. simpl. split; [reflexivity|].
    apply (status_body V2_fields).
    + eapply ledger_ok_get; [apply V2_reachable_ok|]; eassumption.
    + unfold V2_fields. simpl. intuition discriminate.
    + unfold V2_fields. simpl. intuition discriminate.
Qed.

End InitiationAndStatus.

(** ** Concrete runs *)

(** The end-to-end scenario of the specification, on the first variant:
    initiate, receive the callback, poll. *)
Example end_to_end :
  map_get V1_demo_ledger (JStr "ws_1")
  = Some (V1.pending (JStr "TEST-BOOKING") "254712345678" (Int 10) demo_reply) /\
  option_map (fun tx => (prop tx "status", prop tx "receipt"))
    (map_get V1_paid_ledger (JStr "ws_1"))
  = Some (JStr "SUCCESS", JStr "R123") /\
  statusCode (fst (V1.get_status V1_paid_ledger "ws_1")) = 200%Z /\
  statusCode (fst (V1.get_status V1_paid_ledger "unknown")) = 404%Z.
Proof. repeat split; vm_compute; reflexivity. Qed.

Example extract_success :
  V1.extract demo_success = inr V1_success_fields /\
  V2.extract demo_success = inr V2_success_fields.
Proof. split; reflexivity. Qed.

Example extract_cancelled :
  V1.extract demo_cancelled = inr V1_cancelled_fields /\
  V2.extract demo_cancelled = inr V2_cancelled_fields.
Proof. split; reflexivity. Qed.

(** An envelope on which the extraction throws is acknowledged all the
    same, and changes nothing. *)
Example malformed_envelope :
  V1.extract demo_malformed = inl (TypeError NotIterable) /\
  V1.post_callback V1_demo_ledger demo_malformed = (V1.accepted, V1_demo_ledger).
Proof. split; reflexivity. Qed.

(** The [catch] of the initiation handler: a rejection of the gateway is
    passed on as 500 with the reply's data, after both calls; a missing
    consumer key as 500 with the message, before any call. *)
Example initiation_failures :
  (let '(res, m, calls) := V1.post_stkpush rejecting_world V1_demo_ledger demo_request in
   res = V1.respond 500 (JObj [("ok", JBool false);
                               ("error", JStr "STK push failed");
                               ("details", JObj [("errorCode", JStr "400.002.02")])])
   /\ m = V1_demo_ledger /\ List.length calls = 2%nat)
  /\
  V1.post_stkpush no_consumer_key_world [] demo_request
  = (V1.respond 500
       (JObj [("ok", JBool false);
              ("error", JStr "STK push failed");
              ("details", JStr "Missing MPESA_CONSUMER_KEY or MPESA_CONSUMER_SECRET")]),
     [], []).
Proof. vm_compute. repeat split. Qed.

Lemma V1_demo_ledger_reachable : V1_reachable V1_demo_ledger.
Proof. exact (V1_after_stkpush demo_world [] demo_request V1_start). Defined.

Lemma V2_demo_ledger_reachable : V2_reachable V2_demo_ledger.
Proof. exact (V2_after_stkpush demo_world [] demo_request_kes V2_start). Defined.

Lemma V1_paid_ledger_reachable : V1_reachable V1_paid_ledger.
Proof. exact (V1_after_callback V1_demo_ledger demo_success V1_demo_ledger_reachable). Defined.

Lemma V2_paid_ledger_reachable : V2_reachable V2_paid_ledger.
Proof.
  exact (V2_after_callback demo_world V2_demo_ledger demo_success V2_demo_ledger_reachable).
Defined.

(** *** C1 *)

(** Against C1 as stated: on the empty ledger, a callback for [ws_1], which
    no initiation inserted, leaves one record under [ws_1]. *)
Lemma unknown_identifier_callback_is_stored :
  map_get ([] : Ledger znum) (JStr "ws_1") = None /\
  snd (V1.post_callback [] demo_success) <> [] /\
  map_size (snd (V1.post_callback [] demo_success)) = 1%nat /\
  option_map (fun tx => prop tx "status")
    (map_get (snd (V1.post_callback [] demo_success)) (JStr "ws_1"))
  = Some (JStr "SUCCESS") /\
  snd (V2.post_callback demo_world [] demo_success) <> [] /\
  map_size (snd (V2.post_callback demo_world [] demo_success)) = 1%nat.
Proof. repeat split; try discriminate; vm_compute; reflexivity. Qed.

Lemma callback_for_unknown_identifier_run :
  V1.extract demo_success = inr V1_success_fields /\
  map_get ([] : Ledger znum) (V1.checkoutRequestId V1_success_fields) = None /\
  map_size (snd (V1.post_callback [] demo_success)) = 1%nat.
Proof.
  split; [reflexivity|]. split; [reflexivity|].
  destruct (proj1 (@callback_for_unknown_identifier znum integer_engine) [] demo_success)
    as (_ & _ & _ & Hnew).
  exact (proj2 (Hnew V1_success_fields eq_refl eq_refl eq_refl)).
Defined.

(** *** C2 *)

(** Against C2 as stated: in the second variant, a record that holds the
    receipt [R123] loses it to a later callback that reports none. *)
Lemma later_callback_resets_receipt :
  option_map (fun tx => prop tx "receipt") (map_get V2_paid_ledger (JStr "ws_1"))
  = Some (JStr "R123") /\
  V2.extract demo_cancelled = inr V2_cancelled_fields /\
  V2.receipt V2_cancelled_fields = JNull /\
  option_map (fun tx => prop tx "receipt")
    (map_get (snd (V2.post_callback demo_world V2_paid_ledger demo_cancelled))
       (JStr "ws_1"))
  = Some JNull.
Proof. repeat split; vm_compute; reflexivity. Qed.

Lemma callback_field_updates_run :
  V1_reachable V1_paid_ledger /\
  exists tx',
    map_get (V1.applyCallbackResult V1_paid_ledger V1_cancelled_fields demo_cancelled)
      (JStr "ws_1") = Some tx' /\
    prop tx' "receipt" = JStr "R123" /\
    prop tx' "resultCode" = JNum (Int 1032).
Proof.
  split; [exact V1_paid_ledger_reachable|].
  destruct (proj1 (@callback_field_updates znum integer_engine)
              V1_paid_ledger V1_cancelled_fields demo_cancelled "ws_1"
              (match map_get V1_paid_ledger (JStr "ws_1") with Some tx => tx | None => [] end)
              V1_paid_ledger_reachable eq_refl eq_refl)
    as (tx' & Hget & Hreceipt & _ & _ & Hcode & _).
  exists tx'. split; [exact Hget|]. split; [exact Hreceipt|exact Hcode].
Defined.

(** *** C3 *)

Lemma callback_status_of_result_code_run :
  V1_reachable V1_demo_ledger /\
  exists tx',
    map_get (V1.applyCallbackResult V1_demo_ledger V1_cancelled_fields demo_cancelled)
      (JStr "ws_1") = Some tx' /\
    prop tx' "status" = JStr "FAILED".
Proof.
  split; [exact V1_demo_ledger_reachable|].
  destruct (proj1 (@callback_status_of_result_code znum integer_engine)
              V1_demo_ledger V1_cancelled_fields demo_cancelled "ws_1"
              (match map_get V1_demo_ledger (JStr "ws_1") with Some tx => tx | None => [] end)
              V1_demo_ledger_reachable eq_refl eq_refl)
    as (tx' & Hget & _ & Hfailed).
  exists tx'. split; [exact Hget|].
  apply Hfailed. intros n Hn. injection Hn as <-. reflexivity.
Defined.

(** *** C4 *)

Lemma second_callback_overwrites_first_run :
  V1_reachable V1_demo_ledger /\
  exists tx2,
    map_get (snd (V1.post_callback (snd (V1.post_callback V1_demo_ledger demo_success))
                    demo_cancelled)) (JStr "ws_1") = Some tx2 /\
    prop tx2 "status" = JStr "FAILED" /\
    prop tx2 "resultCode" = JNum (Int 1032).
Proof.
  split; [exact V1_demo_ledger_reachable|].
  destruct (proj1 (@second_callback_overwrites_first znum integer_engine)
              V1_demo_ledger demo_success demo_cancelled
              V1_success_fields V1_cancelled_fields "ws_1"
              (match map_get V1_demo_ledger (JStr "ws_1") with Some tx => tx | None => [] end)
              V1_demo_ledger_reachable eq_refl eq_refl eq_refl eq_refl eq_refl)
    as (tx1 & tx2 & _ & _ & Hget & Hstatus & Hcode & _).
  exists tx2. split; [exact Hget|]. split; [exact Hstatus|exact Hcode].
Defined.

(** *** C5 *)

Lemma normalizePhone_examples :
  V1.normalizePhone (JStr "0712345678" : JsVal znum) = inr "254712345678" /\
  V1.normalizePhone (JStr "712345678" : JsVal znum) = inr "254712345678" /\
  V1.normalizePhone (JStr "254712345678" : JsVal znum) = inr "254712345678" /\
  V1.normalizePhone (JStr "+254712345678" : JsVal znum) = inr "254712345678" /\
  V2.normalizePhone (JStr "0712345678" : JsVal znum) = inr "254712345678" /\
  V2.normalizePhone (JStr "712345678" : JsVal znum) = inr "254712345678" /\
  V2.normalizePhone (JStr "254712345678" : JsVal znum) = inr "254712345678" /\
  V2.normalizePhone (JStr "+254712345678" : JsVal znum) = inr "254712345678".
Proof.
  pose proof (@normalizePhone_accepted_shapes znum integer_engine "0712345678" eq_refl)
    as (H0a & H0b & _).
  pose proof (@normalizePhone_accepted_shapes znum integer_engine "712345678" eq_refl)
    as (H7a & H7b & _).
  pose proof (@normalizePhone_accepted_shapes znum integer_engine "254712345678" eq_refl)
    as (H2a & H2b & _).
  pose proof (@normalizePhone_accepted_shapes znum integer_engine "+254712345678" eq_refl)
    as (Hpa & Hpb & _).
  repeat split; assumption.
Defined.

(** *** C6 *)

Lemma pending_record_after_initiation_run :
  statusCode (fst (fst (V1.post_stkpush demo_world [] demo_request))) = 200%Z /\
  map_get V1_demo_ledger (JStr "ws_1")
  = Some (V1.pending (JStr "TEST-BOOKING") "254712345678" (Int 10) demo_reply).
Proof.
  split; [reflexivity|].
  assert (Hrun : V1.post_stkpush demo_world [] demo_request
                 = (fst (fst (V1.post_stkpush demo_world [] demo_request)),
                    V1_demo_ledger,
                    snd (V1.post_stkpush demo_world [] demo_request)))
    by (vm_compute; reflexivity).
  destruct (proj1 (@pending_record_after_initiation znum integer_engine)
              demo_world [] demo_request _ _ _ Hrun eq_refl)
    as (data & p & a & payload & cfg & _ & Hpost & Hp & Ha & Hrecord).
  injection Hpost as <-. injection Hp as <-. injection Ha as <-.
  refine (proj1 (Hrecord "ws_1" eq_refl _)). discriminate.
Defined.

(** *** C7 *)

(** Against C7 as stated: the request has a phone and an amount, the
    passkey is missing, and the answer is 400, the amount being zero. *)
Lemma zero_amount_is_turned_down_first :
  obj_get (spread zero_amount_request) "phone" = Some (JStr "0712345678") /\
  obj_get (spread zero_amount_request) "amount" = Some (JNum (Int 0)) /\
  env no_passkey_world "MPESA_PASSKEY" = None /\
  V1.post_stkpush no_passkey_world [] zero_amount_request
  = (V1.respond 400 (JObj [("error", JStr "amount is required")]), [], []).
Proof. repeat split. Qed.

Lemma initiation_is_validated_run :
  env no_passkey_world "MPESA_PASSKEY" = None /\
  V1.post_stkpush no_passkey_world [] demo_request
  = (V1.respond 500 (JObj [("error", JStr "Missing MPESA_PASSKEY")]), [], []).
Proof.
  split; [reflexivity|].
  destruct (proj1 (@initiation_is_validated znum integer_engine)
              no_passkey_world [] demo_request)
    as (_ & _ & _ & Hpasskey & _).
  exact (Hpasskey eq_refl eq_refl eq_refl).
Defined.

(** *** C9 *)

Lemma status_query_reads_the_ledger_run :
  V1_reachable V1_paid_ledger /\
  member (jsonBody (fst (V1.get_status V1_paid_ledger "ws_1"))) "receipt" = JStr "R123" /\
  statusCode (fst (V1.get_status V1_paid_ledger "unknown")) = 404%Z.
Proof.
  split; [exact V1_paid_ledger_reachable|].
  destruct (proj1 (@status_query_reads_the_ledger znum integer_engine)
              V1_paid_ledger "ws_1" V1_paid_ledger_reachable)
    as (_ & _ & Hfound).
  destruct (Hfound (match map_get V1_paid_ledger (JStr "ws_1") with
                    | Some tx => tx
                    | None => []
                    end) eq_refl)
    as (_ & _ & _ & Hfields).
  split.
  - rewrite (Hfields "receipt"); [reflexivity|]. vm_compute. tauto.
  - destruct (proj1 (@status_query_reads_the_ledger znum integer_engine)
                V1_paid_ledger "unknown" V1_paid_ledger_reachable)
      as (_ & Hmissing & _).
    rewrite (Hmissing eq_refl). reflexivity.
Defined.

(** *** C10 *)


(** ** Timestamps and passwords *)

Lemma holds_on_range_spec (f : Z -> bool) (lo : Z) (n : nat) (z : Z) :
  holds_on_range f lo n = true -> (lo <= z < lo + Z.of_nat n)%Z -> f z = true.
Proof.
  unfold holds_on_range. intros Hall Hz.
  rewrite forallb_forall in Hall.
  replace z with (lo + Z.of_nat (Z.to_nat (z - lo)))%Z by lia.
  apply Hall, in_seq. lia.
Qed.

Lemma pad_two_digits (n : Z) :
  (0 <= n <= 99)%Z -> String.length (pad n) = 2%nat /\ all_digits (pad n) = true.
Proof.
  intros Hn.
  assert (Hcheck : holds_on_range
                     (fun z => (String.length (pad z) =? 2)%nat && all_digits (pad z))
                     0 100 = true) by (vm_compute; reflexivity).
  pose proof (holds_on_range_spec _ _ _ n Hcheck ltac:(lia)) as Hz.
  apply andb_prop in Hz as [Hlen Hdig]. apply Nat.eqb_eq in Hlen. auto.
Qed.

Lemma dec_four_digits (n : Z) :
  (1000 <= n <= 9999)%Z -> String.length (dec n) = 4%nat /\ all_digits (dec n) = true.
Proof.
  intros Hn.
  assert (Hcheck : holds_on_range
                     (fun z => (String.length (dec z) =? 4)%nat && all_digits (dec z))
                     1000 (Z.to_nat 9000) = true) by (vm_compute; reflexivity).
  pose proof (holds_on_range_spec _ _ _ n Hcheck ltac:(lia)) as Hz.
  apply andb_prop in Hz as [Hlen Hdig]. apply Nat.eqb_eq in Hlen. auto.
Qed.


Lemma b64_in_alphabet (n : N) : is_base64_char (b64 n) = true.
Proof.
  unfold b64.
  assert (Hlt : (N.to_nat (N.land n 63) < 64)%nat).
  { change 63%N with (N.ones 6). rewrite N.land_ones.
    pose proof (N.mod_upper_bound n (2 ^ 6) ltac:(discriminate)) as Hm.
    change (2 ^ 6)%N with 64%N in *. lia. }
  assert (Hcheck : forallb
                     (fun i => match String.get i base64_alphabet with
                               | Some c => is_base64_char c
                               | None => false
                               end) (seq 0 64) = true) by (vm_compute; reflexivity).
  rewrite forallb_forall in Hcheck.
  specialize (Hcheck (N.to_nat (N.land n 63))). rewrite in_seq in Hcheck.
  specialize (Hcheck ltac:(lia)).
  destruct (String.get (N.to_nat (N.land n 63)) base64_alphabet); [assumption|discriminate].
Qed.

Lemma base64_groups_shape (fuel : nat) (bs : list N) :
  (List.length bs < fuel)%nat ->
  String.length (base64_groups fuel bs) = (4 * ((List.length bs + 2) / 3))%nat /\
  all_base64 (base64_groups fuel bs) = true.
Proof.
  revert bs. induction fuel as [|fuel IH]; intros bs Hlen; [lia|].
  destruct bs as [|a [|b [|c rest]]]; cbn [base64_groups].
  - split; reflexivity.
  - split; [reflexivity|]. cbn [all_base64]. now rewrite !b64_in_alphabet.
  - split; [reflexivity|]. cbn [all_base64]. now rewrite !b64_in_alphabet.
  - destruct (IH rest) as [IHlen IHall]; [simpl in Hlen; lia|].
    split.
    + cbn [String.length List.length]. rewrite IHlen.
      replace (S (S (S (List.length rest))) + 2)%nat
        with (1 * 3 + (List.length rest + 2))%nat by lia.
      rewrite Nat.div_add_l by discriminate. lia.
    + cbn [all_base64]. now rewrite !b64_in_alphabet, IHall.
Qed.

Section Passwords.
Context {num : Type} `{Engine num}.


End Passwords.

(** ** The gateway client *)

Section GatewayClient.
Context {num : Type} `{Engine num}.

Lemma truthy_process_env (w : World num) (name : string) :
  truthy (process_env w name) = true ->
  exists s, env w name = Some s /\ s <> "" /\ process_env w name = JStr s.
Proof.
  unfold process_env. destruct (env w name) as [s|]; [|discriminate].
  simpl. destruct (String.eqb_spec s ""); [discriminate|]. eauto.
Qed.

Lemma process_env_set (w : World num) (name s : string) :
  env w name = Some s -> s <> "" ->
  process_env w name = JStr s /\ truthy (process_env w name) = true.
Proof.
  intros He Hs. unfold process_env. rewrite He. simpl.
  now destruct (String.eqb_spec s "").
Qed.

Lemma js_or_process_env (w : World num) (name fallback : string) :
  js_or (process_env w name) (JStr fallback) = JStr (env_or w name fallback).
Proof.
  unfold js_or, process_env, env_or. destruct (env w name) as [s|]; [|reflexivity].
  simpl. now destruct (s =? "").
Qed.

Lemma eff_bind_pure {A B} (m : Exn num A) (f : A -> Eff num B) :
  eff_bind (pure m) f = match m with inl e => (inl e, []) | inr a => f a end.
Proof.
  unfold eff_bind, pure. destruct m as [e|a]; [reflexivity|]. now destruct (f a).
Qed.

Lemma eff_bind_returned {A B} (a : A) (t : list (Call num)) (f : A -> Eff num B) :
  eff_bind (inr a, t) f = (fst (f a), (t ++ snd (f a))%list).
Proof. unfold eff_bind. now destruct (f a). Qed.

Lemma eff_bind_thrown {A B} (e : JsError num) (t : list (Call num)) (f : A -> Eff num B) :
  eff_bind (inl e, t) f = (inl e, t).
Proof. reflexivity. Qed.

(** With both credentials, [getAccessToken] makes one GET and returns the
    [access_token] of the reply. *)
Lemma V1_getAccessToken_run (w : World num) (key secret : string) :
  env w "MPESA_CONSUMER_KEY" = Some key -> key <> "" ->
  env w "MPESA_CONSUMER_SECRET" = Some secret -> secret <> "" ->
  V1.getAccessToken w
  = (match axios_get w V1.oauth_url (basic_auth key secret) with
     | inl e => inl e
     | inr data => read data "access_token"
     end,
     [Get V1.oauth_url (basic_auth key secret)]).
Proof.
  intros Hk Hkne Hs Hsne. unfold V1.getAccessToken. cbv zeta.
  destruct (process_env_set w _ _ Hk Hkne) as [-> ->].
  destruct (process_env_set w _ _ Hs Hsne) as [-> ->].
  cbn [negb orb js_String bind ret]. rewrite eff_bind_pure.
  unfold await_get, basic_auth, ret. cbv beta iota.
  destruct (axios_get w V1.oauth_url _) as [e|data]; [reflexivity|].
  unfold eff_bind, pure. reflexivity.
Qed.

Lemma V2_getAccessToken_run (w : World num) (key secret : string) :
  env w "MPESA_CONSUMER_KEY" = Some key -> key <> "" ->
  env w "MPESA_CONSUMER_SECRET" = Some secret -> secret <> "" ->
  V2.getAccessToken w
  = (match axios_get w V2.oauth_url (basic_auth key secret) with
     | inl e => inl e
     | inr data => read data "access_token"
     end,
     [Get V2.oauth_url (basic_auth key secret)]).
Proof.
  intros Hk Hkne Hs Hsne. unfold V2.getAccessToken. cbv zeta.
  destruct (process_env_set w _ _ Hk Hkne) as [-> ->].
  destruct (process_env_set w _ _ Hs Hsne) as [-> ->].
  cbn [negb orb js_String bind ret]. rewrite eff_bind_pure.
  unfold await_get, basic_auth, ret. cbv beta iota.
  destruct (axios_get w V2.oauth_url _) as [e|data]; [reflexivity|].
  unfold eff_bind, pure. reflexivity.
Qed.

Lemma V1_getAccessToken_unconfigured (w : World num) :
  truthy (process_env w "MPESA_CONSUMER_KEY") = false \/
  truthy (process_env w "MPESA_CONSUMER_SECRET") = false ->
  V1.getAccessToken w
  = (inl (Error "Missing MPESA_CONSUMER_KEY or MPESA_CONSUMER_SECRET"), []).
Proof.
  unfold V1.getAccessToken. cbv zeta. intros [-> | ->]; [reflexivity|].
  now rewrite orb_true_r.
Qed.

Lemma V2_getAccessToken_unconfigured (w : World num) :
  truthy (process_env w "MPESA_CONSUMER_KEY") = false \/
  truthy (process_env w "MPESA_CONSUMER_SECRET") = false ->
  V2.getAccessToken w = (inl (Error "Missing MPESA_CONSUMER_KEY/SECRET"), []).
Proof.
  unfold V2.getAccessToken. cbv zeta. intros [-> | ->]; [reflexivity|].
  now rewrite orb_true_r.
Qed.

(** X3: [getAccessToken] never calls the gateway without both credentials:
    with the consumer key or the secret absent or empty it throws its
    [Error] and makes no call.  With both, it makes exactly one GET to the
    OAuth endpoint, with [Basic base64(key:secret)] as authorization; it
    rejects as the gateway rejects, and otherwise returns the reply's
    [access_token] (throwing when the reply's data is null or undefined). *)
Theorem getAccessToken_needs_credentials (w : World num) :
  (truthy (process_env w "MPESA_CONSUMER_KEY") = false \/
   truthy (process_env w "MPESA_CONSUMER_SECRET") = false ->
   V1.getAccessToken w
   = (inl (Error "Missing MPESA_CONSUMER_KEY or MPESA_CONSUMER_SECRET"), []) /\
   V2.getAccessToken w = (inl (Error "Missing MPESA_CONSUMER_KEY/SECRET"), []))
  /\
  (forall key secret,
      env w "MPESA_CONSUMER_KEY" = Some key -> key <> "" ->
      env w "MPESA_CONSUMER_SECRET" = Some secret -> secret <> "" ->
      let config :=
        JObj [("headers",
               JObj [("Authorization",
                      JStr ("Basic " ++ base64 (key ++ ":" ++ secret)))])] in
      let outcome :=
        match axios_get w V1.oauth_url config with
        | inl e => inl e
        | inr data =>
            if nullish data then inl (TypeError (ReadOfNullish "access_token"))
            else inr (member data "access_token")
        end in
      V1.getAccessToken w = (outcome, [Get V1.oauth_url config]) /\
      V2.getAccessToken w = (outcome, [Get V1.oauth_url config])).
Proof.
  split.
  - intros Hmissing. split.
    + now apply V1_getAccessToken_unconfigured.
    + now apply V2_getAccessToken_unconfigured.
  - intros key secret Hk Hkne Hs Hsne config outcome. split.
    + now rewrite (V1_getAccessToken_run w key secret).
    + now rewrite (V2_getAccessToken_run w key secret).
Qed.

End GatewayClient.

(** ** The calls of the initiation handler *)

Section Traces.
Context {num : Type} `{Engine num}.

Lemma V1_getAccessToken_trace (w : World num) :
  snd (V1.getAccessToken w) = [] \/
  exists cfg, snd (V1.getAccessToken w) = [Get V1.oauth_url cfg].
Proof.
  destruct (truthy (process_env w "MPESA_CONSUMER_KEY")) eqn:Hk;
    [|left; rewrite V1_getAccessToken_unconfigured; auto].
  destruct (truthy (process_env w "MPESA_CONSUMER_SECRET")) eqn:Hs;
    [|left; rewrite V1_getAccessToken_unconfigured; auto].
  apply truthy_process_env in Hk as (key & Hk & Hkne & _).
  apply truthy_process_env in Hs as (secret & Hs & Hsne & _).
  right. rewrite (V1_getAccessToken_run w key secret) by assumption. simpl. eauto.
Qed.

(** A token in hand means both credentials were there and the gateway
    replied. *)
Lemma V1_getAccessToken_returned (w : World num) (tok : JsVal num) (t : list (Call num)) :
  V1.getAccessToken w = (inr tok, t) ->
  exists key secret reply,
    env w "MPESA_CONSUMER_KEY" = Some key /\ env w "MPESA_CONSUMER_SECRET" = Some secret /\
    axios_get w V1.oauth_url (basic_auth key secret) = inr reply /\
    tok = member reply "access_token" /\
    t = [Get V1.oauth_url (basic_auth key secret)].
Proof.
  intros Hg.
  destruct (truthy (process_env w "MPESA_CONSUMER_KEY")) eqn:Hk;
    [|rewrite V1_getAccessToken_unconfigured in Hg by auto; discriminate].
  destruct (truthy (process_env w "MPESA_CONSUMER_SECRET")) eqn:Hs;
    [|rewrite V1_getAccessToken_unconfigured in Hg by auto; discriminate].
  apply truthy_process_env in Hk as (key & Hk & Hkne & _).
  apply truthy_process_env in Hs as (secret & Hs & Hsne & _).
  rewrite (V1_getAccessToken_run w key secret) in Hg by assumption.
  injection Hg as Hres <-.
  destruct (axios_get w V1.oauth_url (basic_auth key secret)) as [e|reply] eqn:Hget;
    [discriminate|].
  unfold read in Hres. destruct (nullish reply); [discriminate|].
  injection Hres as <-. exists key, secret, reply. auto.
Qed.

Lemma V1_attempt_trace (w : World num) (m : Ledger num)
    (bookingId phone amount ar td sc pk cb tx : JsVal num)
    (r : Exn num (Response num * Ledger num)) (t : list (Call num)) :
  V1.stkpush_attempt w m bookingId phone amount ar td sc pk cb tx = (r, t) ->
  t = [] \/ (exists cfg, t = [Get V1.oauth_url cfg]) \/
  (exists cfg payload cfg', t = [Get V1.oauth_url cfg; Post V1.stk_url payload cfg']).
Proof.
  unfold V1.stkpush_attempt. cbv zeta. intros Hrun.
  rewrite eff_bind_pure in Hrun.
  destruct (V1.buildPassword sc pk _) as [e|pw]; [injection Hrun as <- <-; now left|].
  pose proof (V1_getAccessToken_trace w) as Htok.
  destruct (V1.getAccessToken w) as [[e|tok] t0] eqn:Hg.
  - simpl in Hrun, Htok. injection Hrun as <- <-. destruct Htok as [->|[cfg ->]]; eauto.
  - clear Htok. apply V1_getAccessToken_calls in Hg as [cfg ->].
    unfold eff_bind at 1 in Hrun.
    match type of Hrun with
    | (let (_, _) := ?X in _) = _ => destruct X as [r1 t1] eqn:H1
    end.
    injection Hrun as <- <-.
    rewrite eff_bind_pure in H1.
    match type of H1 with
    | match ?X with _ => _ end = _ => destruct X as [e|payload]
    end; [injection H1 as <- <-; right; left; eauto|].
    rewrite eff_bind_pure in H1.
    destruct (js_String tok) as [e|bearer]; [injection H1 as <- <-; right; left; eauto|].
    unfold await_post in H1.
    destruct (axios_post w V1.stk_url payload _) as [e|data].
    + simpl in H1. injection H1 as <- <-. right. right. eauto.
    + unfold eff_bind at 1 in H1.
      match type of H1 with
      | (let (_, _) := ?X in _) = _ => destruct X as [r2 t2] eqn:H2
      end.
      injection H1 as <- <-.
      rewrite eff_bind_pure in H2.
      match type of H2 with
      | match ?X with _ => _ end = _ => destruct X as [e|stored]
      end; injection H2 as <- <-; right; right; simpl; eauto.
Qed.

Lemma V1_post_stkpush_trace (w : World num) (m : Ledger num) (body : JsVal num) :
  snd (V1.post_stkpush w m body) = [] \/
  (exists cfg, snd (V1.post_stkpush w m body) = [Get V1.oauth_url cfg]) \/
  (exists cfg payload cfg',
      snd (V1.post_stkpush w m body) = [Get V1.oauth_url cfg; Post V1.stk_url payload cfg']).
Proof.
  unfold V1.post_stkpush. cbv zeta.
  destruct (negb (truthy (member (js_or body (JObj [])) "phone"))); [now left|].
  destruct (negb (truthy (member (js_or body (JObj [])) "amount"))); [now left|].
  destruct (negb (truthy (process_env w "MPESA_PASSKEY"))); [now left|].
  destruct (negb (truthy (process_env w "MPESA_CALLBACK_URL"))); [now left|].
  destruct (V1.stkpush_attempt _ _ _ _ _ _ _ _ _ _ _) as [[err|[res m']] calls] eqn:Hatt;
    apply V1_attempt_trace in Hatt; exact Hatt.
Qed.

Lemma V2_getAccessToken_trace (w : World num) :
  snd (V2.getAccessToken w) = [] \/
  exists cfg, snd (V2.getAccessToken w) = [Get V2.oauth_url cfg].
Proof.
  destruct (truthy (process_env w "MPESA_CONSUMER_KEY")) eqn:Hk;
    [|left; rewrite V2_getAccessToken_unconfigured; auto].
  destruct (truthy (process_env w "MPESA_CONSUMER_SECRET")) eqn:Hs;
    [|left; rewrite V2_getAccessToken_unconfigured; auto].
  apply truthy_process_env in Hk as (key & Hk & Hkne & _).
  apply truthy_process_env in Hs as (secret & Hs & Hsne & _).
  right. rewrite (V2_getAccessToken_run w key secret) by assumption. simpl. eauto.
Qed.

(** A token in hand means both credentials were there and the gateway
    replied. *)
Lemma V2_getAccessToken_returned (w : World num) (tok : JsVal num) (t : list (Call num)) :
  V2.getAccessToken w = (inr tok, t) ->
  exists key secret reply,
    env w "MPESA_CONSUMER_KEY" = Some key /\ env w "MPESA_CONSUMER_SECRET" = Some secret /\
    axios_get w V2.oauth_url (basic_auth key secret) = inr reply /\
    tok = member reply "access_token" /\
    t = [Get V2.oauth_url (basic_auth key secret)].
Proof.
  intros Hg.
  destruct (truthy (process_env w "MPESA_CONSUMER_KEY")) eqn:Hk;
    [|rewrite V2_getAccessToken_unconfigured in Hg by auto; discriminate].
  destruct (truthy (process_env w "MPESA_CONSUMER_SECRET")) eqn:Hs;
    [|rewrite V2_getAccessToken_unconfigured in Hg by auto; discriminate].
  apply truthy_process_env in Hk as (key & Hk & Hkne & _).
  apply truthy_process_env in Hs as (secret & Hs & Hsne & _).
  rewrite (V2_getAccessToken_run w key secret) in Hg by assumption.
  injection Hg as Hres <-.
  destruct (axios_get w V2.oauth_url (basic_auth key secret)) as [e|reply] eqn:Hget;
    [discriminate|].
  unfold read in Hres. destruct (nullish reply); [discriminate|].
  injection Hres as <-. exists key, secret, reply. auto.
Qed.

Lemma V2_attempt_trace (w : World num) (m : Ledger num)
    (bookingId phone amountKes sc pk cb : JsVal num)
    (r : Exn num (Response num * Ledger num)) (t : list (Call num)) :
  V2.stkpush_attempt w m bookingId phone amountKes sc pk cb = (r, t) ->
  t = [] \/ (exists cfg, t = [Get V2.oauth_url cfg]) \/
  (exists cfg payload cfg', t = [Get V2.oauth_url cfg; Post V2.stk_url payload cfg']).
Proof.
  unfold V2.stkpush_attempt. cbv zeta. intros Hrun.
  rewrite eff_bind_pure in Hrun.
  destruct (V2.buildPassword sc pk _) as [e|pw]; [injection Hrun as <- <-; now left|].
  pose proof (V2_getAccessToken_trace w) as Htok.
  destruct (V2.getAccessToken w) as [[e|tok] t0] eqn:Hg.
  - simpl in Hrun, Htok. injection Hrun as <- <-. destruct Htok as [->|[cfg ->]]; eauto.
  - clear Htok. apply V2_getAccessToken_calls in Hg as [cfg ->].
    unfold eff_bind at 1 in Hrun.
    match type of Hrun with
    | (let (_, _) := ?X in _) = _ => destruct X as [r1 t1] eqn:H1
    end.
    injection Hrun as <- <-.
    rewrite eff_bind_pure in H1.
    match type of H1 with
    | match ?X with _ => _ end = _ => destruct X as [e|payload]
    end; [injection H1 as <- <-; right; left; eauto|].
    rewrite eff_bind_pure in H1.
    destruct (js_String tok) as [e|bearer]; [injection H1 as <- <-; right; left; eauto|].
    unfold await_post in H1.
    destruct (axios_post w V2.stk_url payload _) as [e|data].
    + simpl in H1. injection H1 as <- <-. right. right. eauto.
    + unfold eff_bind at 1 in H1.
      match type of H1 with
      | (let (_, _) := ?X in _) = _ => destruct X as [r2 t2] eqn:H2
      end.
      injection H1 as <- <-.
      rewrite eff_bind_pure in H2.
      match type of H2 with
      | match ?X with _ => _ end = _ => destruct X as [e|stored]
      end; injection H2 as <- <-; right; right; simpl; eauto.
Qed.

Lemma V2_post_stkpush_trace (w : World num) (m : Ledger num) (body : JsVal num) :
  snd (V2.post_stkpush w m body) = [] \/
  (exists cfg, snd (V2.post_stkpush w m body) = [Get V2.oauth_url cfg]) \/
  (exists cfg payload cfg',
      snd (V2.post_stkpush w m body) = [Get V2.oauth_url cfg; Post V2.stk_url payload cfg']).
Proof.
  unfold V2.post_stkpush. cbv zeta.
  destruct (negb (truthy (member (js_or body (JObj [])) "phone"))); [now left|].
  destruct (negb (truthy (member (js_or body (JObj [])) "amountKes"))); [now left|].
  destruct (negb (truthy (process_env w "MPESA_PASSKEY"))); [now left|].
  destruct (negb (truthy (process_env w "MPESA_CALLBACK_URL"))); [now left|].
  destruct (V2.stkpush_attempt _ _ _ _ _ _ _ _) as [[err|[res m']] calls] eqn:Hatt;
    apply V2_attempt_trace in Hatt; exact Hatt.
Qed.

(** X4: what an initiation request can bring about.  The answer is 200, 400
    or 500; the calls made are none, the token request alone, or the token
    request followed by the initiation, in that order, so the initiation
    endpoint is never called before a token request; a 400 is sent before any
    call, a 200 only after both; and the ledger is as it was unless the
    answer is 200. *)
Theorem initiation_outcomes :
  (forall (w : World num) (m : Ledger num) (body : JsVal num) (res : Response num)
          (m' : Ledger num) (calls : list (Call num)),
      V1.post_stkpush w m body = (res, m', calls) ->
      (statusCode res = 200 \/ statusCode res = 400 \/ statusCode res = 500)%Z /\
      (calls = [] \/ (exists cfg, calls = [Get V1.oauth_url cfg]) \/
       (exists cfg payload cfg',
           calls = [Get V1.oauth_url cfg; Post V1.stk_url payload cfg'])) /\
      (statusCode res = 400%Z -> calls = []) /\
      (statusCode res = 200%Z ->
       exists cfg payload cfg', calls = [Get V1.oauth_url cfg; Post V1.stk_url payload cfg']) /\
      (statusCode res <> 200%Z -> m' = m))
  /\
  (forall (w : World num) (m : Ledger num) (body : JsVal num) (res : Response num)
          (m' : Ledger num) (calls : list (Call num)),
      V2.post_stkpush w m body = (res, m', calls) ->
      (statusCode res = 200 \/ statusCode res = 400 \/ statusCode res = 500)%Z /\
      (calls = [] \/ (exists cfg, calls = [Get V2.oauth_url cfg]) \/
       (exists cfg payload cfg',
           calls = [Get V2.oauth_url cfg; Post V2.stk_url payload cfg'])) /\
      (statusCode res = 400%Z -> calls = []) /\
      (statusCode res = 200%Z ->
       exists cfg payload cfg', calls = [Get V2.oauth_url cfg; Post V2.stk_url payload cfg']) /\
      (statusCode res <> 200%Z -> m' = m)).
Proof.
  split.
  - intros w m body res m' calls Hrun.
    pose proof (V1_post_stkpush_trace w m body) as Htrace. rewrite Hrun in Htrace.
    split; [|split; [exact Htrace|]];
      destruct (V1_post_stkpush_cases w m body)
        as [(code & msg & [-> | ->] & Hc)|[(details & cs & Hc)
           |(data & p & a & cfg1 & payload & cfg2 & _ & _ & _ & _ & _ & Hc)]];
      rewrite Hc in Hrun; injection Hrun as <- <- <-; simpl;
      repeat split; intros; try discriminate; try contradiction; eauto.
  - intros w m body res m' calls Hrun.
    pose proof (V2_post_stkpush_trace w m body) as Htrace. rewrite Hrun in Htrace.
    split; [|split; [exact Htrace|]];
      destruct (V2_post_stkpush_cases w m body)
        as [(code & msg & [-> | ->] & Hc)|[(details & cs & Hc)
           |(data & p & a & cfg1 & payload & cfg2 & _ & _ & _ & _ & _ & Hc)]];
      rewrite Hc in Hrun; injection Hrun as <- <- <-; simpl;
      repeat split; intros; try discriminate; try contradiction; eauto.
Qed.

End Traces.

(** ** The requests of a successful initiation *)

Section Requests.
Context {num : Type} `{Engine num}.

Lemma V1_attempt_requests (w : World num) (m : Ledger num)
    (bookingId phone amount ar td : JsVal num) (shortcode passkey : string)
    (cb tx : JsVal num) (res : Response num) (m' : Ledger num) (calls : list (Call num)) :
  V1.stkpush_attempt w m bookingId phone amount ar td (JStr shortcode) (JStr passkey) cb tx
    = (inr (res, m'), calls) ->
  exists p a key secret reply token,
    V1.normalizePhone phone = inr p /\ js_Number amount = inr a /\
    env w "MPESA_CONSUMER_KEY" = Some key /\ env w "MPESA_CONSUMER_SECRET" = Some secret /\
    axios_get w V1.oauth_url (basic_auth key secret) = inr reply /\
    js_String (member reply "access_token") = inr token /\
    calls
    = [Get V1.oauth_url (basic_auth key secret);
       Post V1.stk_url
         (JObj [("BusinessShortCode", JNum (num_of_string shortcode));
                ("Password",
                 JStr (base64 (shortcode ++ passkey ++ V1.getTimestamp (clock w))));
                ("Timestamp", JStr (V1.getTimestamp (clock w)));
                ("TransactionType", tx);
                ("Amount", JNum a);
                ("PartyA", JNum (num_of_string p));
                ("PartyB", JNum (num_of_string shortcode));
                ("PhoneNumber", JNum (num_of_string p));
                ("CallBackURL", cb);
                ("AccountReference", ar);
                ("TransactionDesc", td)])
         (JObj [("headers",
                 JObj [("Authorization", JStr ("Bearer " ++ token));
                       ("Content-Type", JStr "application/json")])])].
Proof.
  unfold V1.stkpush_attempt. cbv zeta. intros Ha.
  do 6 eff_step Ha.
  apply pure_inr in Hstep as [Hpw ->]. injection Hpw as <-.
  apply V1_getAccessToken_returned in Hstep0
    as (key & secret & reply & Hk & Hs & Hget & -> & ->).
  apply pure_inr in Hstep1 as [Hpayload ->].
  apply pure_inr in Hstep2 as [Hbearer ->].
  unfold await_post in Hstep3. injection Hstep3 as Hpost <-.
  apply pure_inr in Hstep4 as [_ ->].
  apply pure_inr in Ha as [_ ->].
  do 5 exn_step Hpayload. injection Hpayload as <-.
  simpl in Hexn, Hexn2. injection Hexn as <-. injection Hexn2 as <-.
  rewrite Hexn1 in Hexn3. injection Hexn3 as <-.
  exists y1, y0, key, secret, reply, x2. subst. simpl. auto 10.
Qed.

Lemma V2_attempt_requests (w : World num) (m : Ledger num)
    (bookingId phone amountKes : JsVal num) (shortcode passkey : string)
    (cb : JsVal num) (res : Response num) (m' : Ledger num) (calls : list (Call num)) :
  V2.stkpush_attempt w m bookingId phone amountKes (JStr shortcode) (JStr passkey) cb
    = (inr (res, m'), calls) ->
  exists p a key secret reply token,
    V2.normalizePhone phone = inr p /\ js_Number amountKes = inr a /\
    env w "MPESA_CONSUMER_KEY" = Some key /\ env w "MPESA_CONSUMER_SECRET" = Some secret /\
    axios_get w V2.oauth_url (basic_auth key secret) = inr reply /\
    js_String (member reply "access_token") = inr token /\
    calls
    = [Get V2.oauth_url (basic_auth key secret);
       Post V2.stk_url
         (JObj [("BusinessShortCode", JNum (num_of_string shortcode));
                ("Password", JStr (base64 (shortcode ++ passkey ++ V2.timestamp (clock w))));
                ("Timestamp", JStr (V2.timestamp (clock w)));
                ("TransactionType", JStr "CustomerPayBillOnline");
                ("Amount", JNum a);
                ("PartyA", JNum (num_of_string p));
                ("PartyB", JNum (num_of_string shortcode));
                ("PhoneNumber", JNum (num_of_string p));
                ("CallBackURL", cb);
                ("AccountReference", bookingId);
                ("TransactionDesc", JStr "TrackWash Booking")])
         (JObj [("headers", JObj [("Authorization", JStr ("Bearer " ++ token))])])].
Proof.
  unfold V2.stkpush_attempt. cbv zeta. intros Ha.
  do 6 eff_step Ha.
  apply pure_inr in Hstep as [Hpw ->]. injection Hpw as <-.
  apply V2_getAccessToken_returned in Hstep0
    as (key & secret & reply & Hk & Hs & Hget & -> & ->).
  apply pure_inr in Hstep1 as [Hpayload ->].
  apply pure_inr in Hstep2 as [Hbearer ->].
  unfold await_post in Hstep3. injection Hstep3 as Hpost <-.
  apply pure_inr in Hstep4 as [_ ->].
  apply pure_inr in Ha as [_ ->].
  do 5 exn_step Hpayload. injection Hpayload as <-.
  simpl in Hexn, Hexn2. injection Hexn as <-. injection Hexn2 as <-.
  rewrite Hexn1 in Hexn3. injection Hexn3 as <-.
  exists y1, y0, key, secret, reply, x2. subst. simpl. auto 10.
Qed.

(** X5: the two requests of an initiation that answers 200.  The token
    request carries [Basic base64(key:secret)]; the initiation carries the
    token as bearer and a payload in which [PartyA] and [PhoneNumber] are
    both the number of the normalized phone, [BusinessShortCode] and [PartyB]
    both the number of the short code (174379 when none is configured),
    [Amount] the number of the amount, and [Password] the base64 text of
    short code, passkey and the very timestamp sent as [Timestamp]. *)
Theorem successful_initiation_requests :
  (forall (w : World num) (m : Ledger num) (body : JsVal num) (res : Response num)
          (m' : Ledger num) (calls : list (Call num)),
      V1.post_stkpush w m body = (res, m', calls) -> statusCode res = 200%Z ->
      exists p a passkey callbackUrl key secret reply token,
        V1.normalizePhone (member body "phone") = inr p /\
        js_Number (member body "amount") = inr a /\
        env w "MPESA_PASSKEY" = Some passkey /\
        env w "MPESA_CALLBACK_URL" = Some callbackUrl /\
        env w "MPESA_CONSUMER_KEY" = Some key /\
        env w "MPESA_CONSUMER_SECRET" = Some secret /\
        axios_get w V1.oauth_url (basic_auth key secret) = inr reply /\
        js_String (member reply "access_token") = inr token /\
        let shortcode := env_or w "MPESA_SHORTCODE" "174379" in
        let timestamp := V1.getTimestamp (clock w) in
        calls
        = [Get V1.oauth_url (basic_auth key secret);
           Post V1.stk_url
             (JObj [("BusinessShortCode", JNum (num_of_string shortcode));
                    ("Password", JStr (base64 (shortcode ++ passkey ++ timestamp)));
                    ("Timestamp", JStr timestamp);
                    ("TransactionType",
                     JStr (env_or w "MPESA_TRANSACTION_TYPE" "CustomerPayBillOnline"));
                    ("Amount", JNum a);
                    ("PartyA", JNum (num_of_string p));
                    ("PartyB", JNum (num_of_string shortcode));
                    ("PhoneNumber", JNum (num_of_string p));
                    ("CallBackURL", JStr callbackUrl);
                    ("AccountReference",
                     V1.or_default (member body "accountReference") (JStr "TrackWash"));
                    ("TransactionDesc",
                     V1.or_default (member body "transactionDesc")
                       (JStr "TrackWash Booking"))])
             (JObj [("headers",
                     JObj [("Authorization", JStr ("Bearer " ++ token));
                           ("Content-Type", JStr "application/json")])])])
  /\
  (forall (w : World num) (m : Ledger num) (body : JsVal num) (res : Response num)
          (m' : Ledger num) (calls : list (Call num)),
      V2.post_stkpush w m body = (res, m', calls) -> statusCode res = 200%Z ->
      exists p a passkey callbackUrl key secret reply token,
        V2.normalizePhone (member body "phone") = inr p /\
        js_Number (member body "amountKes") = inr a /\
        env w "MPESA_PASSKEY" = Some passkey /\
        env w "MPESA_CALLBACK_URL" = Some callbackUrl /\
        env w "MPESA_CONSUMER_KEY" = Some key /\
        env w "MPESA_CONSUMER_SECRET" = Some secret /\
        axios_get w V2.oauth_url (basic_auth key secret) = inr reply /\
        js_String (member reply "access_token") = inr token /\
        let shortcode := env_or w "MPESA_SHORTCODE" "174379" in
        let timestamp := V2.timestamp (clock w) in
        calls
        = [Get V2.oauth_url (basic_auth key secret);
           Post V2.stk_url
             (JObj [("BusinessShortCode", JNum (num_of_string shortcode));
                    ("Password", JStr (base64 (shortcode ++ passkey ++ timestamp)));
                    ("Timestamp", JStr timestamp);
                    ("TransactionType", JStr "CustomerPayBillOnline");
                    ("Amount", JNum a);
                    ("PartyA", JNum (num_of_string p));
                    ("PartyB", JNum (num_of_string shortcode));
                    ("PhoneNumber", JNum (num_of_string p));
                    ("CallBackURL", JStr callbackUrl);
                    ("AccountReference",
                     V2.or_default (member body "bookingId") (JStr "TEST"));
                    ("TransactionDesc", JStr "TrackWash Booking")])
             (JObj [("headers", JObj [("Authorization", JStr ("Bearer " ++ token))])])]).
Proof.
  split.
  - intros w m body res m' calls Hrun Hcode.
    unfold V1.post_stkpush in Hrun. cbv zeta in Hrun.
    destruct (truthy (member (js_or body (JObj [])) "phone")) eqn:Hphone;
      simpl negb in Hrun; cbv iota in Hrun;
      [|injection Hrun as <- <- <-; discriminate].
    pose proof (truthy_member_body body "phone" Hphone) as Hbody. rewrite Hbody in *.
    destruct (truthy (member body "amount")); simpl negb in Hrun; cbv iota in Hrun;
      [|injection Hrun as <- <- <-; discriminate].
    destruct (truthy (process_env w "MPESA_PASSKEY")) eqn:Hpk;
      simpl negb in Hrun; cbv iota in Hrun;
      [|injection Hrun as <- <- <-; discriminate].
    destruct (truthy (process_env w "MPESA_CALLBACK_URL")) eqn:Hcb;
      simpl negb in Hrun; cbv iota in Hrun;
      [|injection Hrun as <- <- <-; discriminate].
    apply truthy_process_env in Hpk as (passkey & Hpk & _ & Hpk').
    apply truthy_process_env in Hcb as (callbackUrl & Hcb & _ & Hcb').
    rewrite !js_or_process_env, Hpk', Hcb' in Hrun.
    destruct (V1.stkpush_attempt _ _ _ _ _ _ _ _ _ _ _) as [[err|[res0 m0]] calls0] eqn:Hatt;
      injection Hrun as <- <- <-; [discriminate|].
    apply V1_attempt_requests in Hatt
      as (p & a & key & secret & reply & token & Hp & Ha & Hk & Hs & Hget & Htok & ->).
    exists p, a, passkey, callbackUrl, key, secret, reply, token. cbv zeta. auto 10.
  - intros w m body res m' calls Hrun Hcode.
    unfold V2.post_stkpush in Hrun. cbv zeta in Hrun.
    destruct (truthy (member (js_or body (JObj [])) "phone")) eqn:Hphone;
      simpl negb in Hrun; cbv iota in Hrun;
      [|injection Hrun as <- <- <-; discriminate].
    pose proof (truthy_member_body body "phone" Hphone) as Hbody. rewrite Hbody in *.
    destruct (truthy (member body "amountKes")); simpl negb in Hrun; cbv iota in Hrun;
      [|injection Hrun as <- <- <-; discriminate].
    destruct (truthy (process_env w "MPESA_PASSKEY")) eqn:Hpk;
      simpl negb in Hrun; cbv iota in Hrun;
      [|injection Hrun as <- <- <-; discriminate].
    destruct (truthy (process_env w "MPESA_CALLBACK_URL")) eqn:Hcb;
      simpl negb in Hrun; cbv iota in Hrun;
      [|injection Hrun as <- <- <-; discriminate].
    apply truthy_process_env in Hpk as (passkey & Hpk & _ & Hpk').
    apply truthy_process_env in Hcb as (callbackUrl & Hcb & _ & Hcb').
    rewrite !js_or_process_env, Hpk', Hcb' in Hrun.
    destruct (V2.stkpush_attempt _ _ _ _ _ _ _ _) as [[err|[res0 m0]] calls0] eqn:Hatt;
      injection Hrun as <- <- <-; [discriminate|].
    apply V2_attempt_requests in Hatt
      as (p & a & key & secret & reply & token & Hp & Ha & Hk & Hs & Hget & Htok & ->).
    exists p, a, passkey, callbackUrl, key, secret, reply, token. cbv zeta. auto 10.
Qed.

End Requests.

(** ** Failures of the initiation *)

Section Failures.
Context {num : Type} `{Engine num}.

Lemma truthy_member_object (body : JsVal num) (k : string) :
  truthy (member body k) = true -> js_or body (JObj []) = body.
Proof. destruct body; try discriminate. reflexivity. Qed.

Lemma V1_token_failure (w : World num) (m : Ledger num) (body : JsVal num)
    (e : JsError num) (t : list (Call num)) :
  truthy (member body "phone") = true -> truthy (member body "amount") = true ->
  truthy (process_env w "MPESA_PASSKEY") = true ->
  truthy (process_env w "MPESA_CALLBACK_URL") = true ->
  V1.getAccessToken w = (inl e, t) ->
  V1.post_stkpush w m body
  = (V1.respond 500
       (JObj [("ok", JBool false);
              ("error", JStr "STK push failed");
              ("details", js_or (err_response_data e) (JStr (err_message e)))]),
     m, t).
Proof.
  intros Hphone Hamount Hpk Hcb Hg.
  pose proof (truthy_member_object body "phone" Hphone) as Hbody.
  unfold V1.post_stkpush. cbv zeta. rewrite Hbody, Hphone, Hamount, Hpk, Hcb.
  simpl negb. cbv iota.
  apply truthy_process_env in Hpk as (passkey & _ & _ & ->).
  rewrite !js_or_process_env.
  unfold V1.stkpush_attempt. cbv zeta. rewrite eff_bind_pure.
  cbn [V1.buildPassword js_String bind ret]. rewrite Hg. reflexivity.
Qed.

Lemma V1_initiation_rejected (w : World num) (m : Ledger num) (body : JsVal num)
    (tok : JsVal num) (token p : string) (a : num) (e : JsError num)
    (t : list (Call num)) :
  truthy (member body "phone") = true -> truthy (member body "amount") = true ->
  truthy (process_env w "MPESA_PASSKEY") = true ->
  truthy (process_env w "MPESA_CALLBACK_URL") = true ->
  V1.getAccessToken w = (inr tok, t) -> js_String tok = inr token ->
  V1.normalizePhone (member body "phone") = inr p ->
  js_Number (member body "amount") = inr a ->
  (forall payload config, axios_post w V1.stk_url payload config = inl e) ->
  exists payload config,
    V1.post_stkpush w m body
    = (V1.respond 500
         (JObj [("ok", JBool false);
                ("error", JStr "STK push failed");
                ("details", js_or (err_response_data e) (JStr (err_message e)))]),
       m, (t ++ [Post V1.stk_url payload config])%list).
Proof.
  intros Hphone Hamount Hpk Hcb Hg Htok Hp Ha Hpost.
  pose proof (truthy_member_object body "phone" Hphone) as Hbody.
  unfold V1.post_stkpush. cbv zeta. rewrite Hbody, Hphone, Hamount, Hpk, Hcb.
  simpl negb. cbv iota.
  apply truthy_process_env in Hpk as (passkey & _ & _ & ->).
  rewrite !js_or_process_env.
  unfold V1.stkpush_attempt. cbv zeta. rewrite eff_bind_pure.
  cbn [V1.buildPassword js_String bind ret]. rewrite Hg.
  unfold eff_bind at 1. rewrite eff_bind_pure, Hp, Ha.
  cbn [js_Number bind ret]. rewrite eff_bind_pure, Htok.
  unfold await_post. rewrite Hpost. cbn [eff_bind]. eauto.
Qed.

Lemma V2_token_failure (w : World num) (m : Ledger num) (body : JsVal num)
    (e : JsError num) (t : list (Call num)) :
  truthy (member body "phone") = true -> truthy (member body "amountKes") = true ->
  truthy (process_env w "MPESA_PASSKEY") = true ->
  truthy (process_env w "MPESA_CALLBACK_URL") = true ->
  V2.getAccessToken w = (inl e, t) ->
  V2.post_stkpush w m body
  = (V2.respond 500
       (JObj [("ok", JBool false);
              ("error", JStr "STK push failed");
              ("details", js_or (err_response_data e) (JStr (err_message e)))]),
     m, t).
Proof.
  intros Hphone Hamount Hpk Hcb Hg.
  pose proof (truthy_member_object body "phone" Hphone) as Hbody.
  unfold V2.post_stkpush. cbv zeta. rewrite Hbody, Hphone, Hamount, Hpk, Hcb.
  simpl negb. cbv iota.
  apply truthy_process_env in Hpk as (passkey & _ & _ & ->).
  rewrite !js_or_process_env.
  unfold V2.stkpush_attempt. cbv zeta. rewrite eff_bind_pure.
  cbn [V2.buildPassword js_String bind ret]. rewrite Hg. reflexivity.
Qed.

Lemma V2_initiation_rejected (w : World num) (m : Ledger num) (body : JsVal num)
    (tok : JsVal num) (token p : string) (a : num) (e : JsError num)
    (t : list (Call num)) :
  truthy (member body "phone") = true -> truthy (member body "amountKes") = true ->
  truthy (process_env w "MPESA_PASSKEY") = true ->
  truthy (process_env w "MPESA_CALLBACK_URL") = true ->
  V2.getAccessToken w = (inr tok, t) -> js_String tok = inr token ->
  V2.normalizePhone (member body "phone") = inr p ->
  js_Number (member body "amountKes") = inr a ->
  (forall payload config, axios_post w V2.stk_url payload config = inl e) ->
  exists payload config,
    V2.post_stkpush w m body
    = (V2.respond 500
         (JObj [("ok", JBool false);
                ("error", JStr "STK push failed");
                ("details", js_or (err_response_data e) (JStr (err_message e)))]),
       m, (t ++ [Post V2.stk_url payload config])%list).
Proof.
  intros Hphone Hamount Hpk Hcb Hg Htok Hp Ha Hpost.
  pose proof (truthy_member_object body "phone" Hphone) as Hbody.
  unfold V2.post_stkpush. cbv zeta. rewrite Hbody, Hphone, Hamount, Hpk, Hcb.
  simpl negb. cbv iota.
  apply truthy_process_env in Hpk as (passkey & _ & _ & ->).
  rewrite !js_or_process_env.
  unfold V2.stkpush_attempt. cbv zeta. rewrite eff_bind_pure.
  cbn [V2.buildPassword js_String bind ret]. rewrite Hg.
  unfold eff_bind at 1. rewrite eff_bind_pure, Hp, Ha.
  cbn [js_Number bind ret]. rewrite eff_bind_pure, Htok.
  unfold await_post. rewrite Hpost. cbn [eff_bind]. eauto.
Qed.

(** X6: a valid request on a configured server whose token cannot be had
    (credentials missing, the OAuth call rejected, a reply without data) is
    answered 500 with [ok: false], [STK push failed] and as [details] the
    error's response data when it has some and its message otherwise.  The
    initiation endpoint is not called: the calls are those of
    [getAccessToken]; the ledger is as it was. *)
Theorem token_failure_is_reported
    (w : World num) (m : Ledger num) (e : JsError num) (t : list (Call num)) :
  truthy (process_env w "MPESA_PASSKEY") = true ->
  truthy (process_env w "MPESA_CALLBACK_URL") = true ->
  (forall body,
      truthy (member body "phone") = true -> truthy (member body "amount") = true ->
      V1.getAccessToken w = (inl e, t) ->
      V1.post_stkpush w m body
      = ({| statusCode := 500;
            jsonBody :=
              JObj [("ok", JBool false);
                    ("error", JStr "STK push failed");
                    ("details", js_or (err_response_data e) (JStr (err_message e)))] |},
         m, t))
  /\
  (forall body,
      truthy (member body "phone") = true -> truthy (member body "amountKes") = true ->
      V2.getAccessToken w = (inl e, t) ->
      V2.post_stkpush w m body
      = ({| statusCode := 500;
            jsonBody :=
              JObj [("ok", JBool false);
                    ("error", JStr "STK push failed");
                    ("details", js_or (err_response_data e) (JStr (err_message e)))] |},
         m, t)).
Proof.
  intros Hpk Hcb. split; intros body Hphone Hamount Hg.
  - now apply V1_token_failure.
  - now apply V2_token_failure.
Qed.

(** X7: a valid request on a configured server, a token in hand, and a
    gateway that rejects the initiation: the answer is 500 with [ok: false],
    [STK push failed] and as [details] the rejection's response data when it
    has some and its message otherwise; the initiation was called once,
    after the token request, and the ledger is as it was. *)
Theorem rejected_initiation_is_reported
    (w : World num) (m : Ledger num) (e : JsError num) :
  truthy (process_env w "MPESA_PASSKEY") = true ->
  truthy (process_env w "MPESA_CALLBACK_URL") = true ->
  (forall payload config, axios_post w V1.stk_url payload config = inl e) ->
  (forall body tok token p a t,
      truthy (member body "phone") = true -> truthy (member body "amount") = true ->
      V1.getAccessToken w = (inr tok, t) -> js_String tok = inr token ->
      V1.normalizePhone (member body "phone") = inr p ->
      js_Number (member body "amount") = inr a ->
      exists payload config,
        V1.post_stkpush w m body
        = ({| statusCode := 500;
              jsonBody :=
                JObj [("ok", JBool false);
                      ("error", JStr "STK push failed");
                      ("details", js_or (err_response_data e) (JStr (err_message e)))] |},
           m, (t ++ [Post V1.stk_url payload config])%list))
  /\
  (forall body tok token p a t,
      truthy (member body "phone") = true -> truthy (member body "amountKes") = true ->
      V2.getAccessToken w = (inr tok, t) -> js_String tok = inr token ->
      V2.normalizePhone (member body "phone") = inr p ->
      js_Number (member body "amountKes") = inr a ->
      exists payload config,
        V2.post_stkpush w m body
        = ({| statusCode := 500;
              jsonBody :=
                JObj [("ok", JBool false);
                      ("error", JStr "STK push failed");
                      ("details", js_or (err_response_data e) (JStr (err_message e)))] |},
           m, (t ++ [Post V2.stk_url payload config])%list)).
Proof.
  intros Hpk Hcb Hpost. split; intros body tok token p a t Hphone Hamount Hg Htok Hp Ha.
  - now apply (V1_initiation_rejected w m body tok token p a e t).
  - now apply (V2_initiation_rejected w m body tok token p a e t).
Qed.

End Failures.

(** ** A reply without a request identifier *)

Section PassedOn.
Context {num : Type} `{Engine num}.

Lemma V1_initiation_passed_on (w : World num) (m : Ledger num) (body : JsVal num)
    (tok : JsVal num) (token p : string) (a : num) (data : JsVal num)
    (t : list (Call num)) :
  truthy (member body "phone") = true -> truthy (member body "amount") = true ->
  truthy (process_env w "MPESA_PASSKEY") = true ->
  truthy (process_env w "MPESA_CALLBACK_URL") = true ->
  V1.getAccessToken w = (inr tok, t) -> js_String tok = inr token ->
  V1.normalizePhone (member body "phone") = inr p ->
  js_Number (member body "amount") = inr a ->
  (forall payload config, axios_post w V1.stk_url payload config = inr data) ->
  exists payload config,
    V1.post_stkpush w m body
    = (V1.respond 200 (JObj (obj_assign [] ([("ok", JBool true);
                                   ("bookingId",
                                    V1.or_default (member body "bookingId")
                                      (JStr "TEST-BOOKING"))] ++ spread data)%list)),
       V1_stored m (V1.or_default (member body "bookingId") (JStr "TEST-BOOKING")) p a data,
       (t ++ [Post V1.stk_url payload config])%list).
Proof.
  intros Hphone Hamount Hpk Hcb Hg Htok Hp Ha Hpost.
  pose proof (truthy_member_object body "phone" Hphone) as Hbody.
  unfold V1.post_stkpush. cbv zeta. rewrite Hbody, Hphone, Hamount, Hpk, Hcb.
  simpl negb. cbv iota.
  apply truthy_process_env in Hpk as (passkey & _ & _ & ->).
  rewrite !js_or_process_env.
  unfold V1.stkpush_attempt. cbv zeta. rewrite eff_bind_pure.
  cbn [V1.buildPassword js_String bind ret]. rewrite Hg.
  unfold eff_bind at 1. rewrite eff_bind_pure, Hp, Ha.
  cbn [js_Number bind ret]. rewrite eff_bind_pure, Htok.
  unfold await_post. rewrite Hpost. unfold eff_bind at 1. rewrite eff_bind_pure.
  unfold V1_stored.
  destruct (truthy (opt_member data "CheckoutRequestID"));
    cbn [bind ret pure fst snd app]; eauto.
Qed.

Lemma V2_initiation_passed_on (w : World num) (m : Ledger num) (body : JsVal num)
    (tok : JsVal num) (token p : string) (a : num) (data : JsVal num)
    (t : list (Call num)) :
  truthy (member body "phone") = true -> truthy (member body "amountKes") = true ->
  truthy (process_env w "MPESA_PASSKEY") = true ->
  truthy (process_env w "MPESA_CALLBACK_URL") = true ->
  V2.getAccessToken w = (inr tok, t) -> js_String tok = inr token ->
  V2.normalizePhone (member body "phone") = inr p ->
  js_Number (member body "amountKes") = inr a ->
  (forall payload config, axios_post w V2.stk_url payload config = inr data) ->
  exists payload config,
    V2.post_stkpush w m body
    = (V2.respond 200 (JObj (obj_assign [] (("ok", JBool true) :: spread data))),
       V2_stored w m (V2.or_default (member body "bookingId") (JStr "TEST")) p a data,
       (t ++ [Post V2.stk_url payload config])%list).
Proof.
  intros Hphone Hamount Hpk Hcb Hg Htok Hp Ha Hpost.
  pose proof (truthy_member_object body "phone" Hphone) as Hbody.
  unfold V2.post_stkpush. cbv zeta. rewrite Hbody, Hphone, Hamount, Hpk, Hcb.
  simpl negb. cbv iota.
  apply truthy_process_env in Hpk as (passkey & _ & _ & ->).
  rewrite !js_or_process_env.
  unfold V2.stkpush_attempt. cbv zeta. rewrite eff_bind_pure.
  cbn [V2.buildPassword js_String bind ret]. rewrite Hg.
  unfold eff_bind at 1. rewrite eff_bind_pure, Hp, Ha.
  cbn [js_Number bind ret]. rewrite eff_bind_pure, Htok.
  unfold await_post. rewrite Hpost. unfold eff_bind at 1. rewrite eff_bind_pure.
  unfold V2_stored.
  destruct (truthy (opt_member data "CheckoutRequestID"));
    cbn [bind ret pure fst snd app]; eauto.
Qed.



End PassedOn.

(** ** The phone normalizer on any input *)

Lemma spec_pipeline_head (s : string) :
  startsWith (spec_pipeline s) "0" = false /\ startsWith (spec_pipeline s) "7" = false.
Proof.
  unfold spec_pipeline. cbv zeta.
  destruct (startsWith (if startsWith s "+" then slice1 s else s) "0") eqn:H0;
    [split; reflexivity|].
  destruct (startsWith (if startsWith s "+" then slice1 s else s) "7") eqn:H7;
    [split; reflexivity|].
  now split.
Qed.

Section AnyPhone.
Context {num : Type} `{Engine num}.

Lemma V1_normalizePhone_of (v : JsVal num) :
  V1.normalizePhone v
  = match js_String v with
    | inl e => inl e
    | inr s => inr (spec_pipeline (trim s))
    end.
Proof.
  unfold V1.normalizePhone, bind, ret. destruct (js_String v); [reflexivity|].
  now rewrite <- steps_are_pipeline.
Qed.

Lemma V2_normalizePhone_of (v : JsVal num) :
  V2.normalizePhone v
  = match js_String (js_or v (JStr "")) with
    | inl e => inl e
    | inr s => inr (spec_pipeline (trim s))
    end.
Proof.
  unfold V2.normalizePhone, bind, ret. destruct (js_String _); [reflexivity|].
  now rewrite <- steps_are_pipeline.
Qed.

(** X8: the normalizer validates nothing and throws only when [String]
    does.  Whatever it returns starts neither with [0] nor with [7]; on a
    string it always returns; the two variants agree on every truthy input,
    and on a falsy one the second returns the empty string where the first
    normalizes the text of the value. *)
Theorem normalizePhone_on_any_input :
  (forall (v : JsVal num) (p : string),
      V1.normalizePhone v = inr p \/ V2.normalizePhone v = inr p ->
      startsWith p "0" = false /\ startsWith p "7" = false) /\
  (forall (v : JsVal num) (e : JsError num),
      V1.normalizePhone v = inl e <-> js_String v = inl e) /\
  (forall s : string,
      exists p, V1.normalizePhone (JStr s : JsVal num) = inr p /\
                V2.normalizePhone (JStr s : JsVal num) = inr p) /\
  (forall v : JsVal num, truthy v = true -> V2.normalizePhone v = V1.normalizePhone v) /\
  (forall v : JsVal num, truthy v = false -> V2.normalizePhone v = inr "").
Proof.
  split; [|split; [|split; [|split]]].
  - intros v p. rewrite V1_normalizePhone_of, V2_normalizePhone_of.
    intros [Hp|Hp];
      match type of Hp with
      | match ?X with _ => _ end = _ => destruct X; [discriminate|]
      end; injection Hp as <-; apply spec_pipeline_head.
  - intros v e. rewrite V1_normalizePhone_of.
    destruct (js_String v); split; intros Hv; try discriminate; congruence.
  - intros s. exists (spec_pipeline (trim s)).
    split; [apply V1_normalizePhone_string|apply V2_normalizePhone_string].
  - intros v Hv. rewrite V1_normalizePhone_of, V2_normalizePhone_of.
    unfold js_or. now rewrite Hv.
  - intros v Hv. rewrite V2_normalizePhone_of. unfold js_or. now rewrite Hv.
Qed.

End AnyPhone.

(** ** The envelope of a callback *)

Section Envelope.
Context {num : Type} `{Engine num}.

Lemma V1_unread_item (acc : JsVal num * JsVal num * JsVal num) (it : JsVal num) :
  nullish it = false -> read_item (member it "Name") = false ->
  V1.scan_item acc it = inr acc.
Proof.
  intros Hn Hr. unfold read_item in Hr.
  apply orb_false_elim in Hr as [Hr Hphone]. apply orb_false_elim in Hr as [Hreceipt Hamount].
  destruct acc as [[r a] p]. unfold V1.scan_item, read. rewrite Hn. cbn [bind ret].
  now rewrite Hreceipt, Hamount, Hphone.
Qed.

Lemma V2_unread_item (acc : JsVal num * JsVal num * JsVal num) (it : JsVal num) :
  nullish it = false -> read_item (member it "Name") = false ->
  V2.scan_item acc it = inr acc.
Proof.
  intros Hn Hr. unfold read_item in Hr.
  apply orb_false_elim in Hr as [Hr Hphone]. apply orb_false_elim in Hr as [Hreceipt Hamount].
  destruct acc as [[r a] p]. unfold V2.scan_item, read. rewrite Hn. cbn [bind ret].
  now rewrite Hreceipt, Hamount, Hphone.
Qed.

(** X9: an item of the callback metadata whose name is none of
    [MpesaReceiptNumber], [Amount] and [PhoneNumber] is ignored wherever it
    stands in the list: the loop finds, or throws, the same with it as
    without it. *)
Theorem unread_items_are_ignored
    (acc : JsVal num * JsVal num * JsVal num) (before after : list (JsVal num))
    (it : JsVal num) :
  nullish it = false -> read_item (member it "Name") = false ->
  V1.scan_items acc (before ++ it :: after)%list = V1.scan_items acc (before ++ after)%list /\
  V2.scan_items acc (before ++ it :: after)%list = V2.scan_items acc (before ++ after)%list.
Proof.
  intros Hn Hr. revert acc.
  induction before as [|x before IH]; intros acc; simpl.
  - now rewrite V1_unread_item, V2_unread_item.
  - split.
    + destruct (V1.scan_item acc x) as [e|acc']; [reflexivity|]. simpl. apply IH.
    + destruct (V2.scan_item acc x) as [e|acc']; [reflexivity|]. simpl. apply IH.
Qed.

(** X10: a callback without metadata items (the envelope of a failed
    payment, or no envelope at all) never makes the extraction throw: the
    identifier, result code and description are read and receipt, amount
    and phone are null.  Without an envelope the handler changes
    nothing. *)
Theorem callback_without_metadata (body : JsVal num) :
  let stk := opt_member (opt_member body "Body") "stkCallback" in
  (truthy (opt_member (opt_member stk "CallbackMetadata") "Item") = false ->
   V1.extract body
   = inr {| V1.checkoutRequestId := opt_member stk "CheckoutRequestID";
            V1.resultCode := opt_member stk "ResultCode";
            V1.resultDesc := opt_member stk "ResultDesc";
            V1.receipt := JNull; V1.amount := JNull; V1.phone := JNull |} /\
   V2.extract body
   = inr {| V2.checkoutRequestId := opt_member stk "CheckoutRequestID";
            V2.resultCode := opt_member stk "ResultCode";
            V2.resultDesc := opt_member stk "ResultDesc";
            V2.receipt := JNull; V2.paidAmount := JNull; V2.paidPhone := JNull |}) /\
  (nullish stk = true ->
   forall (w : World num) (m : Ledger num),
     V1.post_callback m body = (V1.accepted, m) /\
     V2.post_callback w m body = (V2.accepted, m)).
Proof.
  intros stk. split.
  - intros Hitem. unfold V1.extract, V2.extract. cbv zeta. fold stk.
    unfold js_or. rewrite Hitem. split; reflexivity.
  - intros Hstk w m.
    assert (Hundef : forall k, opt_member stk k = JUndefined).
    { intros k. unfold opt_member at 1. now rewrite Hstk. }
    unfold V1.post_callback, V2.post_callback, V1.extract, V2.extract. cbv zeta. fold stk.
    rewrite !Hundef. split; reflexivity.
Qed.

End Envelope.

(** ** What the handlers keep of the ledger *)

Section LedgerEvolution.
Context {num : Type} `{Engine num}.

Lemma map_set_values (Q : Obj num -> Prop) (m : Ledger num) (k : JsVal num) (r : Obj num) :
  Forall (fun e => Q (snd e)) m -> Q r -> Forall (fun e => Q (snd e)) (map_set m k r).
Proof.
  intros Hm Hr. induction Hm as [|[k0 r0] m Hr0 Hm IH]; simpl.
  - constructor; [assumption|constructor].
  - destruct (same_value_zero k0 k); constructor; auto.
Qed.

Lemma map_get_value (Q : Obj num -> Prop) (m : Ledger num) (k : JsVal num) (tx : Obj num) :
  Forall (fun e => Q (snd e)) m -> map_get m k = Some tx -> Q tx.
Proof.
  intros Hm. induction Hm as [|[k0 r0] m Hr0 Hm IH]; simpl; [discriminate|].
  destruct (same_value_zero k0 k); [|assumption]. now intros [= <-].
Qed.

Lemma known_status_of (rc : JsVal num) : known_status (status_of rc).
Proof. unfold known_status, status_of. destruct (is_zero rc); auto. Qed.

Lemma V1_stored_statuses (m : Ledger num) (bookingId : JsVal num) (p : string) (a : num)
    (data : JsVal num) :
  statuses_ok m -> statuses_ok (V1_stored m bookingId p a data).
Proof.
  intros Hm. unfold V1_stored. destruct (truthy _); [|assumption].
  apply (map_set_values (fun tx => known_status (prop tx "status"))); [assumption|].
  now left.
Qed.

Lemma V2_stored_statuses (w : World num) (m : Ledger num) (bookingId : JsVal num)
    (p : string) (a : num) (data : JsVal num) :
  statuses_ok m -> statuses_ok (V2_stored w m bookingId p a data).
Proof.
  intros Hm. unfold V2_stored. destruct (truthy _); [|assumption].
  apply (map_set_values (fun tx => known_status (prop tx "status"))); [assumption|].
  now left.
Qed.

Lemma V1_applied_statuses (m : Ledger num) (cb : V1.Extracted) (body : JsVal num) :
  statuses_ok m -> statuses_ok (V1.applyCallbackResult m cb body).
Proof.
  intros Hm. unfold V1.applyCallbackResult. destruct (truthy _); [|assumption].
  apply (map_set_values (fun tx => known_status (prop tx "status"))); [assumption|].
  unfold obj_assign. simpl fold_left. cbn [fst snd]. rewrite !prop_set. simpl.
  apply known_status_of.
Qed.

Lemma V2_applied_statuses (w : World num) (m : Ledger num) (cb : V2.Extracted)
    (body : JsVal num) :
  statuses_ok m -> statuses_ok (V2.applyCallbackResult w m cb body).
Proof.
  intros Hm. unfold V2.applyCallbackResult. destruct (truthy _); [|assumption].
  apply (map_set_values (fun tx => known_status (prop tx "status"))); [assumption|].
  unfold obj_assign. simpl fold_left. cbn [fst snd]. rewrite !prop_set. simpl.
  apply known_status_of.
Qed.

Lemma V1_reachable_statuses (m : Ledger num) : V1_reachable m -> statuses_ok m.
Proof.
  induction 1 as [|w m body _ IH|m body _ IH|m id _ IH].
  - constructor.
  - destruct (V1_post_stkpush_cases w m body)
      as [(code & msg & _ & ->)|[(details & calls & ->)
         |(data & p & a & cfg1 & payload & cfg2 & _ & _ & _ & _ & _ & ->)]];
      simpl; auto using V1_stored_statuses.
  - unfold V1.post_callback. destruct (V1.extract body); simpl;
      auto using V1_applied_statuses.
  - unfold V1.get_status. now destruct (map_get m (JStr id)).
Qed.

Lemma V2_reachable_statuses (m : Ledger num) : V2_reachable m -> statuses_ok m.
Proof.
  induction 1 as [|w m body _ IH|w m body _ IH|m id _ IH].
  - constructor.
  - destruct (V2_post_stkpush_cases w m body)
      as [(code & msg & _ & ->)|[(details & calls & ->)
         |(data & p & a & cfg1 & payload & cfg2 & _ & _ & _ & _ & _ & ->)]];
      simpl; auto using V2_stored_statuses.
  - unfold V2.post_callback. destruct (V2.extract body); simpl;
      auto using V2_applied_statuses.
  - unfold V2.get_status. now destruct (map_get m (JStr id)).
Qed.

(** X11: in every ledger the server can reach, every key is truthy and
    every record has a [status] that is [PENDING], [SUCCESS] or [FAILED]. *)
Theorem reachable_records_have_a_known_status :
  (forall (m : Ledger num) (k : JsVal num) (tx : Obj num),
      V1_reachable m -> In (k, tx) m ->
      truthy k = true /\
      (prop tx "status" = JStr "PENDING" \/ prop tx "status" = JStr "SUCCESS"
       \/ prop tx "status" = JStr "FAILED"))
  /\
  (forall (m : Ledger num) (k : JsVal num) (tx : Obj num),
      V2_reachable m -> In (k, tx) m ->
      truthy k = true /\
      (prop tx "status" = JStr "PENDING" \/ prop tx "status" = JStr "SUCCESS"
       \/ prop tx "status" = JStr "FAILED")).
Proof.
  split; intros m k tx Hm Hin.
  - pose proof (V1_reachable_ok m Hm) as Hok. pose proof (V1_reachable_statuses m Hm) as Hst.
    unfold ledger_ok in Hok. unfold statuses_ok in Hst. rewrite Forall_forall in Hok, Hst.
    split; [exact (proj1 (Hok _ Hin))|exact (Hst _ Hin)].
  - pose proof (V2_reachable_ok m Hm) as Hok. pose proof (V2_reachable_statuses m Hm) as Hst.
    unfold ledger_ok in Hok. unfold statuses_ok in Hst. rewrite Forall_forall in Hok, Hst.
    split; [exact (proj1 (Hok _ Hin))|exact (Hst _ Hin)].
Qed.

(** *** Nothing is removed *)

Lemma keeps_records_refl (m : Ledger num) : keeps_records m m.
Proof. split; [eauto|lia]. Qed.

Lemma map_set_keeps (m : Ledger num) (k : JsVal num) (r : Obj num) :
  keeps_records m (map_set m k r).
Proof.
  split.
  - intros k' tx. induction m as [|[k0 r0] m IH]; simpl; [discriminate|].
    destruct (same_value_zero k0 k); simpl;
      destruct (same_value_zero k0 k'); eauto.
  - unfold map_size. induction m as [|[k0 r0] m IH]; simpl; [lia|].
    destruct (same_value_zero k0 k); simpl; lia.
Qed.

(** X12: no handler removes a record.  After any request, every identifier
    that had a record still has one and the ledger is no smaller; an
    initiation or a callback adds at most one record, a status poll none. *)
Theorem no_record_is_lost :
  (forall (w : World num) (m : Ledger num) (body : JsVal num) (id : string),
      keeps_records m (snd (fst (V1.post_stkpush w m body))) /\
      (map_size (snd (fst (V1.post_stkpush w m body))) <= S (map_size m))%nat /\
      keeps_records m (snd (V1.post_callback m body)) /\
      (map_size (snd (V1.post_callback m body)) <= S (map_size m))%nat /\
      snd (V1.get_status m id) = m)
  /\
  (forall (w : World num) (m : Ledger num) (body : JsVal num) (id : string),
      keeps_records m (snd (fst (V2.post_stkpush w m body))) /\
      (map_size (snd (fst (V2.post_stkpush w m body))) <= S (map_size m))%nat /\
      keeps_records m (snd (V2.post_callback w m body)) /\
      (map_size (snd (V2.post_callback w m body)) <= S (map_size m))%nat /\
      snd (V2.get_status m id) = m).
Proof.
  assert (Hsize : forall (m : Ledger num) k r,
             (map_size (map_set m k r) <= S (map_size m))%nat).
  { intros m k r. unfold map_size. induction m as [|[k0 r0] m IH]; simpl; [lia|].
    destruct (same_value_zero k0 k); simpl; lia. }
  split; intros w m body id.
  - assert (Hpush : keeps_records m (snd (fst (V1.post_stkpush w m body))) /\
                    (map_size (snd (fst (V1.post_stkpush w m body))) <= S (map_size m))%nat).
    { destruct (V1_post_stkpush_cases w m body)
        as [(code & msg & _ & ->)|[(details & calls & ->)
           |(data & p & a & cfg1 & payload & cfg2 & _ & _ & _ & _ & _ & ->)]];
        simpl; try (split; [apply keeps_records_refl|lia]).
      unfold V1_stored. destruct (truthy _);
        [split; [apply map_set_keeps|apply Hsize]|split; [apply keeps_records_refl|lia]]. }
    assert (Hcall : keeps_records m (snd (V1.post_callback m body)) /\
                    (map_size (snd (V1.post_callback m body)) <= S (map_size m))%nat).
    { unfold V1.post_callback. destruct (V1.extract body) as [e|cb]; simpl;
        [split; [apply keeps_records_refl|lia]|].
      unfold V1.applyCallbackResult. destruct (truthy _);
        [split; [apply map_set_keeps|apply Hsize]|split; [apply keeps_records_refl|lia]]. }
    destruct Hpush as [Hp1 Hp2]. destruct Hcall as [Hc1 Hc2].
    split; [exact Hp1|]. split; [exact Hp2|]. split; [exact Hc1|]. split; [exact Hc2|].
    unfold V1.get_status. now destruct (map_get m (JStr id)).
  - assert (Hpush : keeps_records m (snd (fst (V2.post_stkpush w m body))) /\
                    (map_size (snd (fst (V2.post_stkpush w m body))) <= S (map_size m))%nat).
    { destruct (V2_post_stkpush_cases w m body)
        as [(code & msg & _ & ->)|[(details & calls & ->)
           |(data & p & a & cfg1 & payload & cfg2 & _ & _ & _ & _ & _ & ->)]];
        simpl; try (split; [apply keeps_records_refl|lia]).
      unfold V2_stored. destruct (truthy _);
        [split; [apply map_set_keeps|apply Hsize]|split; [apply keeps_records_refl|lia]]. }
    assert (Hcall : keeps_records m (snd (V2.post_callback w m body)) /\
                    (map_size (snd (V2.post_callback w m body)) <= S (map_size m))%nat).
    { unfold V2.post_callback. destruct (V2.extract body) as [e|cb]; simpl;
        [split; [apply keeps_records_refl|lia]|].
      unfold V2.applyCallbackResult. destruct (truthy _);
        [split; [apply map_set_keeps|apply Hsize]|split; [apply keeps_records_refl|lia]]. }
    destruct Hpush as [Hp1 Hp2]. destruct Hcall as [Hc1 Hc2].
    split; [exact Hp1|]. split; [exact Hp2|]. split; [exact Hc1|]. split; [exact Hc2|].
    unfold V2.get_status. now destruct (map_get m (JStr id)).
Qed.

(** *** One identifier at a time *)

Lemma same_value_zero_of_string (id : string) (k : JsVal num) :
  same_value_zero (JStr id) k = true -> k = JStr id.
Proof.
  destruct k; simpl; try discriminate. intros Hk. apply String.eqb_eq in Hk. now subst.
Qed.

Lemma map_get_set_other (m : Ledger num) (k : JsVal num) (r : Obj num) (id : string) :
  k <> JStr id -> map_get (map_set m k r) (JStr id) = map_get m (JStr id).
Proof.
  intros Hk. induction m as [|[k0 r0] m IH]; simpl.
  - destruct (same_value_zero k (JStr id)) eqn:Hs; [|reflexivity].
    apply same_value_zero_string in Hs. contradiction.
  - destruct (same_value_zero k0 k) eqn:Hk0; simpl.
    + destruct (same_value_zero k0 (JStr id)) eqn:Hs; [|reflexivity].
      apply same_value_zero_string in Hs. subst k0.
      apply same_value_zero_of_string in Hk0. now subst k.
    + now rewrite IH.
Qed.

(** X13: a callback touches the record of its own identifier only.  For
    every other identifier the status poll answers after the callback what
    it answered before; for a callback whose [CheckoutRequestID] is not a
    string (a number, say) that is every identifier a poll can name, so the
    record it writes is never returned. *)
Theorem callback_touches_one_identifier :
  (forall (m : Ledger num) (body : JsVal num) (cb : V1.Extracted),
      V1.extract body = inr cb ->
      (forall id, V1.checkoutRequestId cb <> JStr id ->
         fst (V1.get_status (snd (V1.post_callback m body)) id) = fst (V1.get_status m id)) /\
      (not_a_string (V1.checkoutRequestId cb) = true ->
       forall id,
         fst (V1.get_status (snd (V1.post_callback m body)) id) = fst (V1.get_status m id)))
  /\
  (forall (w : World num) (m : Ledger num) (body : JsVal num) (cb : V2.Extracted),
      V2.extract body = inr cb ->
      (forall id, V2.checkoutRequestId cb <> JStr id ->
         fst (V2.get_status (snd (V2.post_callback w m body)) id)
         = fst (V2.get_status m id)) /\
      (not_a_string (V2.checkoutRequestId cb) = true ->
       forall id,
         fst (V2.get_status (snd (V2.post_callback w m body)) id)
         = fst (V2.get_status m id))).
Proof.
  split.
  - intros m body cb He.
    assert (Hother : forall id, V1.checkoutRequestId cb <> JStr id ->
               fst (V1.get_status (snd (V1.post_callback m body)) id)
               = fst (V1.get_status m id)).
    { intros id Hid. unfold V1.post_callback. rewrite He. simpl snd.
      unfold V1.get_status, V1.applyCallbackResult.
      destruct (truthy (V1.checkoutRequestId cb)); [|reflexivity].
      rewrite (map_get_set_other _ _ _ id Hid).
      now destruct (map_get m (JStr id)). }
    split; [exact Hother|].
    intros Hns id. apply Hother. intros Heq. rewrite Heq in Hns. discriminate.
  - intros w m body cb He.
    assert (Hother : forall id, V2.checkoutRequestId cb <> JStr id ->
               fst (V2.get_status (snd (V2.post_callback w m body)) id)
               = fst (V2.get_status m id)).
    { intros id Hid. unfold V2.post_callback. rewrite He. simpl snd.
      unfold V2.get_status, V2.applyCallbackResult.
      destruct (truthy (V2.checkoutRequestId cb)); [|reflexivity].
      rewrite (map_get_set_other _ _ _ id Hid).
      now destruct (map_get m (JStr id)). }
    split; [exact Hother|].
    intros Hns id. apply Hother. intros Heq. rewrite Heq in Hns. discriminate.
Qed.

(** X14: an initiation touches at most the record of the identifier in the
    gateway's reply.  For every identifier that the reply does not carry as
    a string, the status poll answers after the request what it answered
    before. *)
Theorem initiation_touches_one_identifier :
  (forall (w : World num) (m : Ledger num) (body : JsVal num) (id : string),
      (forall payload config data,
          axios_post w V1.stk_url payload config = inr data ->
          member data "CheckoutRequestID" <> JStr id) ->
      fst (V1.get_status (snd (fst (V1.post_stkpush w m body))) id)
      = fst (V1.get_status m id))
  /\
  (forall (w : World num) (m : Ledger num) (body : JsVal num) (id : string),
      (forall payload config data,
          axios_post w V2.stk_url payload config = inr data ->
          member data "CheckoutRequestID" <> JStr id) ->
      fst (V2.get_status (snd (fst (V2.post_stkpush w m body))) id)
      = fst (V2.get_status m id)).
Proof.
  split; intros w m body id Hreply.
  - destruct (V1_post_stkpush_cases w m body)
      as [(code & msg & _ & ->)|[(details & calls & ->)
         |(data & p & a & cfg1 & payload & cfg2 & _ & _ & _ & _ & Hpost & ->)]];
      try reflexivity.
    simpl. unfold V1_stored, V1.get_status. destruct (truthy _); [|reflexivity].
    rewrite (map_get_set_other _ _ _ id (Hreply _ _ _ Hpost)).
    now destruct (map_get m (JStr id)).
  - destruct (V2_post_stkpush_cases w m body)
      as [(code & msg & _ & ->)|[(details & calls & ->)
         |(data & p & a & cfg1 & payload & cfg2 & _ & _ & _ & _ & Hpost & ->)]];
      try reflexivity.
    simpl. unfold V2_stored, V2.get_status. destruct (truthy _); [|reflexivity].
    rewrite (map_get_set_other _ _ _ id (Hreply _ _ _ Hpost)).
    now destruct (map_get m (JStr id)).
Qed.

End LedgerEvolution.

(** ** Duplicate deliveries and repeated identifiers *)

Section Duplicates.
Context {num : Type} `{Engine num}.

Lemma obj_set_same_value (o : Obj num) (k : string) (v : JsVal num) :
  obj_get o k = Some v -> obj_set o k v = o.
Proof.
  induction o as [|[k0 v0] o IH]; simpl; [discriminate|].
  destruct (String.eqb_spec k0 k) as [->|Hne].
  - now intros [= ->].
  - intros Hg. now rewrite IH.
Qed.

Lemma map_set_twice (m : Ledger num) (k : JsVal num) (r : Obj num) :
  same_value_zero k k = true -> map_set (map_set m k r) k r = map_set m k r.
Proof.
  intros Hk. induction m as [|[k0 r0] m IH]; simpl.
  - now rewrite Hk.
  - destruct (same_value_zero k0 k) eqn:Hk0; simpl; rewrite Hk0; [reflexivity|].
    now rewrite IH.
Qed.

Lemma js_or_settled (r old : JsVal num) :
  js_or (js_or r (js_or (js_or r old) JNull)) JNull = js_or (js_or r old) JNull.
Proof.
  unfold js_or. destruct (truthy r) eqn:Hr; [now rewrite Hr|].
  destruct (truthy old) eqn:Ho; [now rewrite Ho|reflexivity].
Qed.

Lemma js_coalesce_settled (a old : JsVal num) :
  js_coalesce (js_coalesce a (js_coalesce (js_coalesce a old) JNull)) JNull
  = js_coalesce (js_coalesce a old) JNull.
Proof.
  unfold js_coalesce. destruct (nullish a) eqn:Ha; [|now rewrite Ha].
  destruct (nullish old) eqn:Ho; [reflexivity|now rewrite Ho].
Qed.

Lemma V1_apply_twice (m : Ledger num) (cb : V1.Extracted) (body : JsVal num) (id : string) :
  V1.checkoutRequestId cb = JStr id ->
  V1.applyCallbackResult (V1.applyCallbackResult m cb body) cb body
  = V1.applyCallbackResult m cb body.
Proof.
  intros Hid. unfold V1.applyCallbackResult. rewrite Hid.
  destruct (truthy (JStr id)) eqn:Ht; [|reflexivity].
  set (existing := match map_get m (JStr id) with Some tx => tx | None => [] end).
  rewrite (map_get_set_same _ _ _ (same_value_zero_string_refl id)).
  match goal with
  | |- map_set (map_set m _ ?o1) _ ?o2 = _ => assert (Hsame : o2 = o1)
  end.
  { unfold obj_assign. simpl fold_left. cbn [fst snd].
    rewrite !prop_set. simpl String.eqb. cbv iota.
    rewrite js_or_settled, js_coalesce_settled, js_or_settled.
    repeat (rewrite obj_set_same_value
              by (rewrite !obj_get_set; simpl String.eqb; cbv iota; reflexivity)).
    reflexivity. }
  rewrite Hsame. apply map_set_twice, same_value_zero_string_refl.
Qed.

Lemma V2_apply_twice (w : World num) (m : Ledger num) (cb : V2.Extracted)
    (body : JsVal num) (id : string) :
  V2.checkoutRequestId cb = JStr id ->
  V2.applyCallbackResult w (V2.applyCallbackResult w m cb body) cb body
  = V2.applyCallbackResult w m cb body.
Proof.
  intros Hid. unfold V2.applyCallbackResult. rewrite Hid.
  destruct (truthy (JStr id)) eqn:Ht; [|reflexivity].
  set (existing := match map_get m (JStr id) with Some tx => tx | None => [] end).
  rewrite (map_get_set_same _ _ _ (same_value_zero_string_refl id)).
  match goal with
  | |- map_set (map_set m _ ?o1) _ ?o2 = _ => assert (Hsame : o2 = o1)
  end.
  { unfold obj_assign. simpl fold_left. cbn [fst snd].
    repeat (rewrite obj_set_same_value
              by (rewrite !obj_get_set; simpl String.eqb; cbv iota; reflexivity)).
    reflexivity. }
  rewrite Hsame. apply map_set_twice, same_value_zero_string_refl.
Qed.

(** X15: a callback delivered twice does what it does once.  For an
    envelope whose identifier is a string, running the handler again on the
    same body (at the same clock reading, in the second variant) leaves the
    ledger that the first run left, whether the identifier had a record or
    not. *)
Theorem duplicate_callback_changes_nothing :
  (forall (m : Ledger num) (body : JsVal num) (cb : V1.Extracted) (id : string),
      V1.extract body = inr cb -> V1.checkoutRequestId cb = JStr id ->
      V1.post_callback (snd (V1.post_callback m body)) body = V1.post_callback m body)
  /\
  (forall (w : World num) (m : Ledger num) (body : JsVal num) (cb : V2.Extracted)
          (id : string),
      V2.extract body = inr cb -> V2.checkoutRequestId cb = JStr id ->
      V2.post_callback w (snd (V2.post_callback w m body)) body = V2.post_callback w m body).
Proof.
  split.
  - intros m body cb id He Hid. unfold V1.post_callback. rewrite He. simpl snd.
    now rewrite (V1_apply_twice m cb body id Hid).
  - intros w m body cb id He Hid. unfold V2.post_callback. rewrite He. simpl snd.
    now rewrite (V2_apply_twice w m cb body id Hid).
Qed.

(** X16: an initiation whose reply carries an identifier that already has
    a record replaces that record: the ledger keeps its size, and the
    record is PENDING again with no result code, result description or raw
    callback, whatever state it was in. *)
Theorem initiation_replaces_the_record :
  (forall (w : World num) (m : Ledger num) (body : JsVal num) (res : Response num)
          (m' : Ledger num) (calls : list (Call num)),
      V1.post_stkpush w m body = (res, m', calls) -> statusCode res = 200%Z ->
      exists data payload cfg,
        In (Post V1.stk_url payload cfg) calls /\
        axios_post w V1.stk_url payload cfg = inr data /\
        forall id tx,
          member data "CheckoutRequestID" = JStr id -> map_get m (JStr id) = Some tx ->
          V1_reachable m ->
          map_size m' = map_size m /\
          exists tx',
            map_get m' (JStr id) = Some tx' /\
            prop tx' "status" = JStr "PENDING" /\
            prop tx' "receipt" = JNull /\
            prop tx' "resultCode" = JUndefined /\
            prop tx' "resultDesc" = JUndefined /\
            prop tx' "rawCallback" = JUndefined)
  /\
  (forall (w : World num) (m : Ledger num) (body : JsVal num) (res : Response num)
          (m' : Ledger num) (calls : list (Call num)),
      V2.post_stkpush w m body = (res, m', calls) -> statusCode res = 200%Z ->
      exists data payload cfg,
        In (Post V2.stk_url payload cfg) calls /\
        axios_post w V2.stk_url payload cfg = inr data /\
        forall id tx,
          member data "CheckoutRequestID" = JStr id -> map_get m (JStr id) = Some tx ->
          V2_reachable m ->
          map_size m' = map_size m /\
          exists tx',
            map_get m' (JStr id) = Some tx' /\
            prop tx' "status" = JStr "PENDING" /\
            prop tx' "receipt" = JUndefined /\
            prop tx' "resultCode" = JUndefined /\
            prop tx' "resultDesc" = JUndefined /\
            prop tx' "rawCallback" = JUndefined).
Proof.
  split.
  - intros w m body res m' calls Hrun Hcode.
    destruct (V1_post_stkpush_200 w m body res m' calls Hrun Hcode)
      as (data & p & a & cfg1 & payload & cfg2 & Hp & Ha & Hpost & -> & -> & ->).
    exists data, payload, cfg2.
    do 2 (split; [simpl; auto|]).
    intros id tx Hid Hget Hm.
    pose proof (ledger_ok_string_key _ _ _ _ (V1_reachable_ok m Hm) Hget) as Hkey.
    unfold V1_stored, opt_member.
    destruct data; try discriminate. cbn [nullish]. cbv iota. rewrite Hid, Hkey.
    split; [now apply map_size_set_present with (tx := tx)|].
    eexists. split; [now apply map_get_set_present with (tx := tx)|].
    repeat split.
  - intros w m body res m' calls Hrun Hcode.
    destruct (V2_post_stkpush_200 w m body res m' calls Hrun Hcode)
      as (data & p & a & cfg1 & payload & cfg2 & Hp & Ha & Hpost & -> & -> & ->).
    exists data, payload, cfg2.
    do 2 (split; [simpl; auto|]).
    intros id tx Hid Hget Hm.
    pose proof (ledger_ok_string_key _ _ _ _ (V2_reachable_ok m Hm) Hget) as Hkey.
    unfold V2_stored, opt_member.
    destruct data; try discriminate. cbn [nullish]. cbv iota. rewrite Hid, Hkey.
    split; [now apply map_size_set_present with (tx := tx)|].
    eexists. split; [now apply map_get_set_present with (tx := tx)|].
    repeat split.
Qed.

End Duplicates.

(** ** Further concrete runs *)


Lemma getAccessToken_runs :
  V1.getAccessToken no_consumer_key_world
  = (inl (Error "Missing MPESA_CONSUMER_KEY or MPESA_CONSUMER_SECRET"), []) /\
  V1.getAccessToken demo_world
  = (inr (JStr "token"),
     [Get V1.oauth_url
        (JObj [("headers", JObj [("Authorization", JStr "Basic a2V5OnNlY3JldA==")])])]).
Proof.
  split.
  - apply (proj1 (@getAccessToken_needs_credentials znum integer_engine
                    no_consumer_key_world)).
    left. reflexivity.
  - apply (proj2 (@getAccessToken_needs_credentials znum integer_engine demo_world)
             "key" "secret"); (reflexivity || discriminate).
Defined.

Lemma initiation_outcomes_run :
  exists cfg payload cfg',
    snd (V1.post_stkpush demo_world [] demo_request)
    = [Get V1.oauth_url cfg; Post V1.stk_url payload cfg'].
Proof.
  assert (Hrun : V1.post_stkpush demo_world [] demo_request
                 = (fst (fst (V1.post_stkpush demo_world [] demo_request)),
                    snd (fst (V1.post_stkpush demo_world [] demo_request)),
                    snd (V1.post_stkpush demo_world [] demo_request)))
    by (vm_compute; reflexivity).
  destruct (proj1 (@initiation_outcomes znum integer_engine)
              demo_world [] demo_request _ _ _ Hrun)
    as (_ & _ & _ & Hcalls & _).
  exact (Hcalls eq_refl).
Defined.

Lemma successful_initiation_requests_run :
  exists password,
    option_map (fun payload => member payload "Password")
      match snd (V1.post_stkpush demo_world [] demo_request) with
      | [_; Post _ payload _] => Some payload
      | _ => None
      end
    = Some (JStr password) /\
    password = base64 ("174379" ++ "passkey" ++ "20260105130409").
Proof.
  assert (Hrun : V1.post_stkpush demo_world [] demo_request
                 = (fst (fst (V1.post_stkpush demo_world [] demo_request)),
                    snd (fst (V1.post_stkpush demo_world [] demo_request)),
                    snd (V1.post_stkpush demo_world [] demo_request)))
    by (vm_compute; reflexivity).
  destruct (proj1 (@successful_initiation_requests znum integer_engine)
              demo_world [] demo_request _ _ _ Hrun eq_refl)
    as (p & a & passkey & callbackUrl & key & secret & reply & token
        & _ & _ & Hpk & _ & _ & _ & _ & _ & Hcalls).
  injection Hpk as <-. cbv zeta in Hcalls. rewrite Hcalls.
  eexists. split; reflexivity.
Defined.

Lemma token_failure_is_reported_run :
  V1.post_stkpush no_consumer_key_world [] demo_request
  = (V1.respond 500
       (JObj [("ok", JBool false);
              ("error", JStr "STK push failed");
              ("details", JStr "Missing MPESA_CONSUMER_KEY or MPESA_CONSUMER_SECRET")]),
     [], []).
Proof.
  exact (proj1 (@token_failure_is_reported znum integer_engine no_consumer_key_world []
                  (Error "Missing MPESA_CONSUMER_KEY or MPESA_CONSUMER_SECRET") []
                  eq_refl eq_refl)
           demo_request eq_refl eq_refl eq_refl).
Defined.

Lemma rejected_initiation_is_reported_run :
  exists payload config,
    V1.post_stkpush rejecting_world V1_demo_ledger demo_request
    = (V1.respond 500
         (JObj [("ok", JBool false);
                ("error", JStr "STK push failed");
                ("details", JObj [("errorCode", JStr "400.002.02")])]),
       V1_demo_ledger,
       [Get V1.oauth_url (basic_auth "key" "secret"); Post V1.stk_url payload config]).
Proof.
  exact (proj1 (@rejected_initiation_is_reported znum integer_engine rejecting_world
                  V1_demo_ledger
                  (AxiosError (JObj [("errorCode", JStr "400.002.02")])
                     "Request failed with status code 400")
                  eq_refl eq_refl (fun _ _ => eq_refl))
           demo_request (JStr "token") "token" "254712345678" (Int 10)
           [Get V1.oauth_url (basic_auth "key" "secret")]
           eq_refl eq_refl eq_refl eq_refl eq_refl eq_refl).
Defined.

Lemma normalizePhone_of_a_number :
  V1.normalizePhone (JNum (Int 712345678)) = inr "254712345678" /\
  startsWith "254712345678" "0" = false /\ startsWith "254712345678" "7" = false.
Proof.
  split; [reflexivity|].
  apply (proj1 (@normalizePhone_on_any_input znum integer_engine)
           (JNum (Int 712345678)) "254712345678").
  left. reflexivity.
Defined.

Lemma unread_items_are_ignored_run :
  V1.scan_items (JNull, JNull, JNull) [amount_item; date_item; receipt_item]
  = V1.scan_items (JNull, JNull, JNull) [amount_item; receipt_item].
Proof.
  exact (proj1 (@unread_items_are_ignored znum integer_engine (JNull, JNull, JNull)
                  [amount_item] [receipt_item] date_item eq_refl eq_refl)).
Defined.

Lemma callback_without_metadata_run :
  V1.extract demo_cancelled = inr V1_cancelled_fields.
Proof.
  exact (proj1 (proj1 (@callback_without_metadata znum integer_engine demo_cancelled)
                  eq_refl)).
Defined.

Lemma reachable_records_have_a_known_status_run :
  V1_reachable V1_paid_ledger /\
  forall k tx, In (k, tx) V1_paid_ledger ->
    truthy k = true /\
    (prop tx "status" = JStr "PENDING" \/ prop tx "status" = JStr "SUCCESS"
     \/ prop tx "status" = JStr "FAILED").
Proof.
  split; [exact V1_paid_ledger_reachable|].
  intros k tx Hin.
  exact (proj1 (@reachable_records_have_a_known_status znum integer_engine)
           V1_paid_ledger k tx V1_paid_ledger_reachable Hin).
Defined.

Lemma callback_touches_one_identifier_run :
  fst (V1.get_status (snd (V1.post_callback V1_demo_ledger demo_success)) "ws_2")
  = fst (V1.get_status V1_demo_ledger "ws_2").
Proof.
  refine (proj1 (proj1 (@callback_touches_one_identifier znum integer_engine)
                   V1_demo_ledger demo_success V1_success_fields eq_refl) "ws_2" _).
  discriminate.
Defined.

Lemma initiation_touches_one_identifier_run :
  fst (V1.get_status (snd (fst (V1.post_stkpush demo_world [] demo_request))) "ws_2")
  = fst (V1.get_status [] "ws_2").
Proof.
  refine (proj1 (@initiation_touches_one_identifier znum integer_engine)
            demo_world [] demo_request "ws_2" _).
  intros payload config data Hpost. injection Hpost as <-. discriminate.
Defined.

Lemma duplicate_callback_changes_nothing_run :
  V1.post_callback (snd (V1.post_callback V1_demo_ledger demo_success)) demo_success
  = V1.post_callback V1_demo_ledger demo_success.
Proof.
  exact (proj1 (@duplicate_callback_changes_nothing znum integer_engine)
           V1_demo_ledger demo_success V1_success_fields "ws_1" eq_refl eq_refl).
Defined.

Lemma initiation_replaces_the_record_run :
  V1_reachable V1_paid_ledger /\
  option_map (fun tx => prop tx "status") (map_get V1_paid_ledger (JStr "ws_1"))
  = Some (JStr "SUCCESS") /\
  exists tx',
    map_get (snd (fst (V1.post_stkpush demo_world V1_paid_ledger demo_request)))
      (JStr "ws_1") = Some tx' /\
    prop tx' "status" = JStr "PENDING" /\ prop tx' "resultCode" = JUndefined.
Proof.
  split; [exact V1_paid_ledger_reachable|]. split; [vm_compute; reflexivity|].
  assert (Hrun : V1.post_stkpush demo_world V1_paid_ledger demo_request
                 = (fst (fst (V1.post_stkpush demo_world V1_paid_ledger demo_request)),
                    snd (fst (V1.post_stkpush demo_world V1_paid_ledger demo_request)),
                    snd (V1.post_stkpush demo_world V1_paid_ledger demo_request)))
    by (vm_compute; reflexivity).
  destruct (proj1 (@initiation_replaces_the_record znum integer_engine)
              demo_world V1_paid_ledger demo_request _ _ _ Hrun eq_refl)
    as (data & payload & cfg & _ & Hpost & Hreplace).
  injection Hpost as <-.
  destruct (Hreplace "ws_1"
              (match map_get V1_paid_ledger (JStr "ws_1") with
               | Some tx => tx
               | None => []
               end) eq_refl eq_refl V1_paid_ledger_reachable)
    as (_ & tx' & Hget & Hstatus & _ & Hcode & _).
  exists tx'. auto.
Defined.

(** *** C8 and C10 *)



